(** * IDE Sync: the synchronisation core of the VS Code extension and of the
      JetBrains plugin

    The development embeds the two peers of the repository:

    - [VSCode]: class [VSCodeJetBrainsSync] of
      [vscode-extension/src/extension.ts] (the listener);
    - [JetBrains]: class [VSCodeJetBrainsSyncService] of
      [jetbrains-plugin/.../VSCodeJetBrainsSyncService.kt] (the dialer).

    Both exchange one JSON object per WebSocket frame ([Wire]).  The editors
    themselves (VS Code's window, the IntelliJ platform) are collaborators
    outside the repository; each module carries a small executable model of
    the part of the editor the handlers read and drive, and that model
    records every editor-control call together with the value the echo-guard
    flag had when the call was made.

    Each peer is a transition system over its events (socket callbacks,
    editor notifications, focus changes, the toggle command).  A handler
    runs to completion before the next event is taken; a block handed to
    [invokeLater] waits in a queue until the event dispatch thread runs it
    ([JetBrains.RunEdt]).  What the editor notifies as a consequence of a
    control call arrives as an event of its own.

    The extension's [handleIncomingState] is an [async] function which the
    [message] callback does not await.  The model takes one call of it as
    one step, which is how it runs when no other event is delivered while it
    waits for the editor; what is stated about runs of the extension
    concerns the connection, the status icon and the frames sent, none of
    which this handler writes. *)

From Stdlib Require Import ZArith List String Ascii Bool Lia.
Import ListNotations.

#[local] Open Scope string_scope.
#[local] Open Scope Z_scope.

(** ** Wire format *)

Module Wire.

(** A JSON object carrying (some of) the six members of a sync message.
    In the extension this is the JavaScript object itself ([SyncState] is
    only a compile-time interface: a member that is absent reads as
    [undefined]); [None] is an absent member.  Members that are present
    have the type the interface declares; numbers are integers. *)
Record Object : Type := mkObject {
  filePath : option string;
  line     : option Z;
  column   : option Z;
  source   : option string;
  isActive : option bool;
  action   : option string
}.

(** The text of a frame as the JSON reader sees it: text that is not JSON,
    or an object as above.  (JSON texts that are not objects, and members
    of another type than declared, are outside this model.) *)
Inductive Frame : Type :=
  | NotJson
  | Json (o : Object).

(** [x === "lit"] on a member that may be [undefined] (also Kotlin's
    null-safe [x == "lit"]). *)
Definition member_is (x : option string) (lit : string) : bool :=
  match x with
  | Some s => String.eqb s lit
  | None => false
  end.

(** JavaScript truthiness of a boolean member that may be [undefined]. *)
Definition truthy (x : option bool) : bool :=
  match x with
  | Some b => b
  | None => false
  end.

(** A frame that lacks one of the members the specification calls
    required. *)
Definition lacks_required (o : Object) : bool :=
  match filePath o, line o, column o, action o with
  | Some _, Some _, Some _, Some _ => false
  | _, _, _, _ => true
  end.

Definition with_source (v : option string) (o : Object) : Object :=
  mkObject (filePath o) (line o) (column o) v (isActive o) (action o).

Definition with_action (v : option string) (o : Object) : Object :=
  mkObject (filePath o) (line o) (column o) (source o) (isActive o) v.

Definition with_isActive (v : option bool) (o : Object) : Object :=
  mkObject (filePath o) (line o) (column o) (source o) v (action o).

End Wire.

(** ** Searching a list

    [x] is the element [Array.prototype.find] returns for the test [f] on
    [l]: the first one that passes it. *)
Definition first_with {A : Type} (f : A -> bool) (l : list A) (x : A) : Prop :=
  exists pre post : list A,
    l = (pre ++ x :: post)%list
    /\ Forall (fun y => f y = false) pre
    /\ f x = true.

(** [find] returns [undefined]: no element passes the test. *)
Definition none_with {A : Type} (f : A -> bool) (l : list A) : Prop :=
  Forall (fun y => f y = false) l.

(** ** The VS Code extension (extension.ts) *)

Module VSCode.

(** [interface SyncState]: at run time the object [JSON.parse] returned, or
    an object literal built by a listener. *)
Definition SyncState : Type := Wire.Object.

Inductive ReadyState : Type := CONNECTING | OPEN | CLOSING | CLOSED.

Definition ReadyState_eqb (a b : ReadyState) : bool :=
  match a, b with
  | CONNECTING, CONNECTING | OPEN, OPEN | CLOSING, CLOSING | CLOSED, CLOSED => true
  | _, _ => false
  end.

(** A [ws] socket object: its identity and its [readyState]. *)
Record WebSocket : Type := mkWebSocket {
  wsId : nat;
  readyState : ReadyState
}.

Record WebSocketServer : Type := mkServer { port : Z }.

(** The icon [updateStatusBarItem] puts in front of the status text. *)
Inductive Icon : Type := sync_spin | check | sync_ignored.

(** The mutable fields of [class VSCodeJetBrainsSync]. *)
Record Sync : Type := mkSync {
  wss : option WebSocketServer;
  jetbrainsClient : option WebSocket;
  currentState : option SyncState;
  isActive : bool;
  statusBarItem : Icon;
  isConnected : bool;
  autoReconnect : bool;
  isHandlingExternalUpdate : bool
}.

(** *** The editor window the extension drives *)

Inductive TextEditorRevealType : Type :=
  | Default | InCenter | InCenterIfOutsideViewport | AtTop.

(** Editor-control calls of [handleIncomingState]. *)
Inductive Call : Type :=
  | OpenTextDocument (path : string)
  | ShowTextDocument (path : string)
  | SetSelection (l c : option Z)
  | RevealRange (l c : option Z) (how : TextEditorRevealType)
  | TabGroupsClose (path : string).

(** Caret and visible range of one text editor: [lines] text lines
    starting at line [top]. *)
Record View : Type := mkView {
  caret : option Z * option Z;
  top   : Z;
  lines : Z
}.

Definition line_visible (v : View) (l : Z) : bool :=
  (top v <=? l) && (l <? top v + lines v).

Record Window : Type := mkWindow {
  disk : list string;                (* files [openTextDocument] can read *)
  textDocuments : list string;       (* [workspace.textDocuments], by fsPath *)
  visibleTextEditors : list string;  (* [window.visibleTextEditors] *)
  tabGroups : list (list string);    (* [window.tabGroups.all]: file tabs *)
  activeTextEditor : option string;
  views : string -> View;
  errorMessages : list string;       (* [window.showErrorMessage] *)
  calls : list (Call * bool)         (* control calls, with the echo guard *)
}.

Record World : Type := mkWorld {
  sync : Sync;
  window : Window;
  configPort : Z;                    (* setting [vscode-jetbrains-sync.port] *)
  closedSockets : list nat;          (* sockets the extension closed *)
  closedServers : list Z;            (* servers the extension closed, by port *)
  sent : list SyncState              (* frames handed to [ws.send], oldest first *)
}.

(** Field updates. *)
Definition with_sync (f : Sync -> Sync) (w : World) : World :=
  mkWorld (f (sync w)) (window w) (configPort w) (closedSockets w) (closedServers w)
          (sent w).
Definition with_window (f : Window -> Window) (w : World) : World :=
  mkWorld (sync w) (f (window w)) (configPort w) (closedSockets w) (closedServers w)
          (sent w).
Definition push_sent (m : SyncState) (w : World) : World :=
  mkWorld (sync w) (window w) (configPort w) (closedSockets w) (closedServers w)
          (sent w ++ [m]).
Definition push_closed (i : nat) (w : World) : World :=
  mkWorld (sync w) (window w) (configPort w) (closedSockets w ++ [i]) (closedServers w)
          (sent w).
Definition push_closedServer (p : Z) (w : World) : World :=
  mkWorld (sync w) (window w) (configPort w) (closedSockets w) (closedServers w ++ [p])
          (sent w).

Definition set_wss v (s : Sync) : Sync :=
  mkSync v (jetbrainsClient s) (currentState s) (isActive s) (statusBarItem s)
         (isConnected s) (autoReconnect s) (isHandlingExternalUpdate s).
Definition set_jetbrainsClient v (s : Sync) : Sync :=
  mkSync (wss s) v (currentState s) (isActive s) (statusBarItem s)
         (isConnected s) (autoReconnect s) (isHandlingExternalUpdate s).
Definition set_currentState v (s : Sync) : Sync :=
  mkSync (wss s) (jetbrainsClient s) v (isActive s) (statusBarItem s)
         (isConnected s) (autoReconnect s) (isHandlingExternalUpdate s).
Definition set_isActive v (s : Sync) : Sync :=
  mkSync (wss s) (jetbrainsClient s) (currentState s) v (statusBarItem s)
         (isConnected s) (autoReconnect s) (isHandlingExternalUpdate s).
Definition set_statusBarItem v (s : Sync) : Sync :=
  mkSync (wss s) (jetbrainsClient s) (currentState s) (isActive s) v
         (isConnected s) (autoReconnect s) (isHandlingExternalUpdate s).
Definition set_isConnected v (s : Sync) : Sync :=
  mkSync (wss s) (jetbrainsClient s) (currentState s) (isActive s) (statusBarItem s)
         v (autoReconnect s) (isHandlingExternalUpdate s).
Definition set_autoReconnect v (s : Sync) : Sync :=
  mkSync (wss s) (jetbrainsClient s) (currentState s) (isActive s) (statusBarItem s)
         (isConnected s) v (isHandlingExternalUpdate s).
Definition set_isHandlingExternalUpdate v (s : Sync) : Sync :=
  mkSync (wss s) (jetbrainsClient s) (currentState s) (isActive s) (statusBarItem s)
         (isConnected s) (autoReconnect s) v.

Definition set_textDocuments v (e : Window) : Window :=
  mkWindow (disk e) v (visibleTextEditors e) (tabGroups e) (activeTextEditor e)
           (views e) (errorMessages e) (calls e).
Definition set_visibleTextEditors v (e : Window) : Window :=
  mkWindow (disk e) (textDocuments e) v (tabGroups e) (activeTextEditor e)
           (views e) (errorMessages e) (calls e).
Definition set_tabGroups v (e : Window) : Window :=
  mkWindow (disk e) (textDocuments e) (visibleTextEditors e) v (activeTextEditor e)
           (views e) (errorMessages e) (calls e).
Definition set_activeTextEditor v (e : Window) : Window :=
  mkWindow (disk e) (textDocuments e) (visibleTextEditors e) (tabGroups e) v
           (views e) (errorMessages e) (calls e).
Definition set_views v (e : Window) : Window :=
  mkWindow (disk e) (textDocuments e) (visibleTextEditors e) (tabGroups e)
           (activeTextEditor e) v (errorMessages e) (calls e).
Definition push_errorMessage (m : string) (e : Window) : Window :=
  mkWindow (disk e) (textDocuments e) (visibleTextEditors e) (tabGroups e)
           (activeTextEditor e) (views e) (errorMessages e ++ [m]) (calls e).
Definition push_call (c : Call * bool) (e : Window) : Window :=
  mkWindow (disk e) (textDocuments e) (visibleTextEditors e) (tabGroups e)
           (activeTextEditor e) (views e) (errorMessages e) (calls e ++ [c]).

(** *** Status bar and connection management *)

(** [updateStatusBarItem]: the icon. *)
Definition updateStatusBarItem (w : World) : World :=
  let icon :=
    if isConnected (sync w) then check
    else if negb (autoReconnect (sync w)) then sync_ignored
    else sync_spin in
  with_sync (set_statusBarItem icon) w.

(** [setupServer]: close the old server, bind a new one on the configured
    port.  (Binding itself is asynchronous; its failure arrives later, as
    the event [ServerError].) *)
Definition setupServer (w : World) : World :=
  if negb (autoReconnect (sync w)) then w
  else
    let w :=
      match wss (sync w) with
      | Some old => push_closedServer (port old) w
      | None => w
      end in
    with_sync (set_wss (Some (mkServer (configPort w)))) w.

(** [toggleAutoReconnect]. *)
Definition toggleAutoReconnect (w : World) : World :=
  let w := with_sync (set_autoReconnect (negb (autoReconnect (sync w)))) w in
  let w :=
    if negb (autoReconnect (sync w)) then
      let w :=
        match jetbrainsClient (sync w) with
        | Some c => with_sync (set_jetbrainsClient None) (push_closed (wsId c) w)
        | None => w
        end in
      let w :=
        match wss (sync w) with
        | Some server => with_sync (set_wss None) (push_closedServer (port server) w)
        | None => w
        end in
      with_sync (set_isConnected false) w
    else setupServer w in
  updateStatusBarItem w.

(** *** Outgoing path *)

Definition client_open (w : World) : bool :=
  match jetbrainsClient (sync w) with
  | Some c => ReadyState_eqb (readyState c) OPEN
  | None => false
  end.

(** [updateState]. *)
Definition updateState (state : SyncState) (w : World) : World :=
  let w := with_sync (set_currentState (Some state)) w in
  if client_open w then
    if Wire.member_is (Wire.action state) "close" || isActive (sync w)
    then push_sent state w
    else w
  else w.

Definition local_state (path : string) (l c : Z) (act : string) (w : World)
  : SyncState :=
  Wire.mkObject (Some path) (Some l) (Some c) (Some "vscode")
                (Some (isActive (sync w))) (Some act).

(** [tabGroups.onDidChangeTabs]: [closed] lists, for each closed tab, the
    fsPath of its [file:] URI, or [None] for a tab of another kind. *)
Fixpoint onDidChangeTabs_loop (closed : list (option string)) (w : World) : World :=
  match closed with
  | [] => w
  | None :: rest => onDidChangeTabs_loop rest w
  | Some p :: rest =>
      onDidChangeTabs_loop rest (updateState (local_state p 0 0 "close" w) w)
  end.

Definition onDidChangeTabs (closed : list (option string)) (w : World) : World :=
  if isHandlingExternalUpdate (sync w) then w
  else onDidChangeTabs_loop closed w.

(** [window.onDidChangeActiveTextEditor]: the new editor's document and
    caret, or [None]. *)
Definition onDidChangeActiveTextEditor (editor : option (string * (Z * Z)))
           (w : World) : World :=
  match editor with
  | Some (p, (l, c)) =>
      if negb (isHandlingExternalUpdate (sync w))
      then updateState (local_state p l c "select" w) w
      else w
  | None => w
  end.

(** [workspace.onDidCloseTextDocument]. *)
Definition onDidCloseTextDocument (p : string) (w : World) : World :=
  if negb (isHandlingExternalUpdate (sync w))
  then updateState (local_state p 0 0 "close" w) w
  else w.

(** [window.onDidChangeTextEditorSelection] for the editor showing [p]. *)
Definition onDidChangeTextEditorSelection (p : string) (l c : Z) (w : World) : World :=
  let isActiveEditor :=
    match activeTextEditor (window w) with
    | Some a => String.eqb a p
    | None => false
    end in
  if isActiveEditor && negb (isHandlingExternalUpdate (sync w))
  then updateState (local_state p l c "select" w) w
  else w.

(** [window.onDidChangeWindowState] (setupWindowListeners). *)
Definition onDidChangeWindowState (focused : bool) (w : World) : World :=
  let w := with_sync (set_isActive focused) w in
  match currentState (sync w) with
  | Some cur =>
      let state :=
        Wire.mkObject (Wire.filePath cur) (Wire.line cur) (Wire.column cur)
                      (Some "vscode") (Some (isActive (sync w))) (Wire.action cur) in
      updateState state w
  | None => w
  end.

(** *** Incoming path

    [handleIncomingState] is imperative code with [try]/[catch]/[finally]:
    a state monad over [World] whose computations complete normally or
    throw. *)

Inductive Error : Type := TypeError | FileNotFound | IllegalArgument.

Inductive Completion (A : Type) : Type :=
  | Normal (a : A)
  | Throw (e : Error).
Arguments Normal {A} a.
Arguments Throw {A} e.

Definition M (A : Type) : Type := World -> Completion A * World.

Definition ret {A} (a : A) : M A := fun w => (Normal a, w).
Definition throw {A} (e : Error) : M A := fun w => (Throw e, w).
Definition bind {A B} (c : M A) (k : A -> M B) : M B :=
  fun w =>
    match c w with
    | (Normal a, w') => k a w'
    | (Throw e, w') => (Throw e, w')
    end.
Definition get : M World := fun w => (Normal w, w).
Definition modify (f : World -> World) : M unit := fun w => (Normal tt, f w).

(** [try { body } catch (error) { handler error } finally { final }], for a
    [finally] block that neither throws nor returns. *)
Definition try_catch_finally {A} (body : M A) (handler : Error -> M A)
           (final : World -> World) : M A :=
  fun w =>
    match body w with
    | (Normal a, w') => (Normal a, final w')
    | (Throw e, w') =>
        match handler e w' with
        | (r, w'') => (r, final w'')
        end
    end.

Notation "x <- c ;; k" := (bind c (fun x => k))
  (at level 61, c at next level, right associativity).
Notation "c ;;; k" := (bind c (fun _ => k))
  (at level 61, right associativity).

(** How the [close] block of [handleIncomingState] is left: by its
    [return], or by falling out of the [catch]. *)
Inductive Exit : Type := Returned | FellThrough.

(** What [handleIncomingState] uses of the JavaScript runtime and of the
    class [vscode.Uri].  Neither is part of the repository, and the
    handlers are modelled over any implementation of them.  A document, an
    editor and a tab are named by the [fsPath] of their URI. *)
Class Platform : Type := {
  (** [s.toLowerCase()] *)
  toLowerCase : string -> string;
  (** [vscode.Uri.file(path).fsPath] *)
  file_fsPath : string -> string;
  (** [uri.toString()] of the file URI with the given [fsPath] *)
  uri_toString : string -> string
}.

Definition mem (p : string) (l : list string) : bool := existsb (String.eqb p) l.

(** Every control call is logged with the current echo guard. *)
Definition record (c : Call) : M unit :=
  modify (fun w => with_window (push_call (c, isHandlingExternalUpdate (sync w))) w).

(** [workspace.openTextDocument(uri)]: rejects unless the file can be read
    (or its document is loaded already). *)
Definition openTextDocument (uri : string) : M string :=
  record (OpenTextDocument uri) ;;;
  w <- get ;;
  if mem uri (textDocuments (window w)) then ret uri
  else if mem uri (disk (window w)) then
    modify (with_window (set_textDocuments (textDocuments (window w) ++ [uri])%list)) ;;;
    ret uri
  else throw FileNotFound.

(** [window.showTextDocument(document, {preview: false})]: the document gets
    a tab in the first (active) group unless it has one there, and its
    editor becomes the active one. *)
Definition showTextDocument (document : string) : M string :=
  record (ShowTextDocument document) ;;;
  modify (with_window (fun e =>
    let groups :=
      match tabGroups e with
      | [] => [[document]]
      | g :: gs => (if mem document g then g else (g ++ [document])%list) :: gs
      end in
    let visible :=
      if mem document (visibleTextEditors e) then visibleTextEditors e
      else (visibleTextEditors e ++ [document])%list in
    set_activeTextEditor (Some document)
      (set_visibleTextEditors visible (set_tabGroups groups e)))) ;;;
  ret document.

(** [new vscode.Position(line, character)]: refuses a negative coordinate
    ([undefined < 0] is false). *)
Definition Position (l c : option Z) : M (option Z * option Z) :=
  let negative (x : option Z) := match x with Some z => z <? 0 | None => false end in
  if negative l || negative c then throw IllegalArgument else ret (l, c).

Definition set_view (p : string) (v : View) (e : Window) : Window :=
  set_views (fun q => if String.eqb q p then v else views e q) e.

(** [editor.selection = new vscode.Selection(position, position)]. *)
Definition set_selection (editor : string) (position : option Z * option Z) : M unit :=
  record (SetSelection (fst position) (snd position)) ;;;
  modify (with_window (fun e =>
    let v := views e editor in
    set_view editor (mkView position (top v) (lines v)) e)).

(** Where [revealRange] leaves the first visible line.  [InCenter] always
    centres the range; [InCenterIfOutsideViewport] and [Default] leave a
    visible range alone. *)
Definition reveal_top (v : View) (l : Z) (how : TextEditorRevealType) : Z :=
  let centred := Z.max 0 (l - lines v / 2) in
  match how with
  | InCenter => centred
  | InCenterIfOutsideViewport => if line_visible v l then top v else centred
  | Default =>
      if line_visible v l then top v
      else if l <? top v then l else Z.max 0 (l - lines v + 1)
  | AtTop => l
  end.

(** [editor.revealRange(new vscode.Range(position, position), how)]. *)
Definition revealRange (editor : string) (position : option Z * option Z)
           (how : TextEditorRevealType) : M unit :=
  record (RevealRange (fst position) (snd position) how) ;;;
  modify (with_window (fun e =>
    let v := views e editor in
    match fst position with
    | Some l => set_view editor (mkView (caret v) (reveal_top v l how) (lines v)) e
    | None => e
    end)).

Section Handlers.
Context {platform : Platform}.

(** [vscode.Uri.file(path)]: the member is dereferenced, so [undefined]
    throws; the URI is named by its [fsPath]. *)
Definition Uri_file (path : option string) : M string :=
  match path with
  | Some p => ret (file_fsPath p)
  | None => throw TypeError
  end.

(** The predicates of the three [find] calls of the [close] block. *)
Definition document_matches (target doc : string) : bool :=
  String.eqb doc target
  || String.eqb (uri_toString doc) (uri_toString target)
  || String.eqb (toLowerCase doc) (toLowerCase target).

Definition editor_matches (target doc : string) : bool :=
  String.eqb doc target
  || String.eqb (toLowerCase doc) (toLowerCase target).

Definition tab_matches (editorToClose tab : string) : bool :=
  String.eqb tab editorToClose
  || String.eqb (toLowerCase tab) (toLowerCase editorToClose).

Fixpoint remove_first (t : string) (g : list string) : list string :=
  match g with
  | [] => []
  | x :: xs => if String.eqb x t then xs else x :: remove_first t xs
  end.

(** [await vscode.window.tabGroups.close(tab)] for the tab [tab] of group
    number [i]: the tab goes; an editor that showed it is no longer visible
    nor active. *)
Fixpoint close_in_group (i : nat) (tab : string) (groups : list (list string))
  : list (list string) :=
  match groups, i with
  | [], _ => []
  | g :: gs, O => remove_first tab g :: gs
  | g :: gs, S i' => g :: close_in_group i' tab gs
  end.

Definition tabGroups_close (i : nat) (tab : string) : M unit :=
  record (TabGroupsClose tab) ;;;
  modify (with_window (fun e =>
    let groups := close_in_group i tab (tabGroups e) in
    let still_shown := existsb (mem tab) groups in
    let visible :=
      if still_shown then visibleTextEditors e
      else filter (fun p => negb (String.eqb p tab)) (visibleTextEditors e) in
    let active :=
      match activeTextEditor e with
      | Some a => if String.eqb a tab && negb still_shown then None else Some a
      | None => None
      end in
    set_activeTextEditor active
      (set_visibleTextEditors visible (set_tabGroups groups e)))).

(** The [for (const tabGroup of vscode.window.tabGroups.all)] loop: the first
    group with a matching tab has that tab closed; [true] is [tabClosed]. *)
Fixpoint close_tab_loop (editorToClose : string) (i : nat)
         (groups : list (list string)) : M bool :=
  match groups with
  | [] => ret false
  | tabGroup :: rest =>
      match find (tab_matches editorToClose) tabGroup with
      | Some tab => tabGroups_close i tab ;;; ret true
      | None => close_tab_loop editorToClose (S i) rest
      end
  end.

(** The group number and the tab the loop closes, if any. *)
Fixpoint first_matching_tab (editorToClose : string) (i : nat)
         (groups : list (list string)) : option (nat * string) :=
  match groups with
  | [] => None
  | tabGroup :: rest =>
      match find (tab_matches editorToClose) tabGroup with
      | Some tab => Some (i, tab)
      | None => first_matching_tab editorToClose (S i) rest
      end
  end.

(** The document [editorToClose] is bound to: the first loaded document
    that matches, else the first visible editor that does. *)
Definition find_editorToClose (targetUri : string) (e : Window) : option string :=
  match find (document_matches targetUri) (textDocuments e) with
  | Some doc => Some doc
  | None => find (editor_matches targetUri) (visibleTextEditors e)
  end.

Definition setHandling (b : bool) : M unit :=
  modify (with_sync (set_isHandlingExternalUpdate b)).

Definition showErrorMessage (m : string) : M unit :=
  modify (with_window (push_errorMessage m)).

Definition template (x : option string) : string :=
  match x with Some s => s | None => "undefined" end.

(** The [if (state.action === 'close')] block. *)
Definition handleClose (state : SyncState) : M Exit :=
  try_catch_finally
    (setHandling true ;;;
     targetUri <- Uri_file (Wire.filePath state) ;;
     w <- get ;;
     match find_editorToClose targetUri (window w) with
     | Some doc =>
         tabClosed <- close_tab_loop doc 0 (tabGroups (window w)) ;;
         ret Returned
     | None => ret Returned
     end)
    (fun error => ret FellThrough)
    (with_sync (set_isHandlingExternalUpdate false)).

(** The final [try] block: apply a [select]. *)
Definition handleSelect (state : SyncState) : M unit :=
  try_catch_finally
    (setHandling true ;;;
     uri <- Uri_file (Wire.filePath state) ;;
     document <- openTextDocument uri ;;
     editor <- showTextDocument document ;;
     position <- Position (Wire.line state) (Wire.column state) ;;
     set_selection editor position ;;;
     revealRange editor position InCenter)
    (fun error =>
       showErrorMessage ("Failed to open file: " ++ template (Wire.filePath state)))
    (with_sync (set_isHandlingExternalUpdate false)).

(** [handleIncomingState]. *)
Definition handleIncomingState (state : SyncState) : M unit :=
  if Wire.member_is (Wire.source state) "vscode" then ret tt
  else
    exit <- (if Wire.member_is (Wire.action state) "close"
             then handleClose state else ret FellThrough) ;;
    match exit with
    | Returned => ret tt
    | FellThrough =>
        if negb (Wire.truthy (Wire.isActive state)) then ret tt
        else handleSelect state
    end.

(** The [ws.on('message', ...)] callback: a frame that is not JSON makes
    [JSON.parse] throw, which the callback reports; anything else goes to
    [handleIncomingState] as it is. *)
Definition onMessage (data : Wire.Frame) (w : World) : World :=
  match data with
  | Wire.NotJson => with_window (push_errorMessage "Error handling sync message") w
  | Wire.Json state => snd (handleIncomingState state w)
  end.

(** The [wss.on('connection', ...)] callback for a socket that identified
    itself by the URL path [clientType]. *)
Definition onConnection (ws : nat) (clientType : string) (w : World) : World :=
  if String.eqb clientType "jetbrains" then
    let w :=
      match jetbrainsClient (sync w) with
      | Some old => push_closed (wsId old) w
      | None => w
      end in
    let w := with_sync (set_jetbrainsClient (Some (mkWebSocket ws OPEN))) w in
    updateStatusBarItem (with_sync (set_isConnected true) w)
  else push_closed ws w.

(** The [ws.on('close', ...)] callback of socket [ws]. *)
Definition onSocketClose (ws : nat) (w : World) : World :=
  match jetbrainsClient (sync w) with
  | Some c =>
      if Nat.eqb (wsId c) ws then
        updateStatusBarItem
          (with_sync (set_isConnected false) (with_sync (set_jetbrainsClient None) w))
      else w
  | None => w
  end.

(** The [ws.on('error', ...)] callback. *)
Definition onSocketError (w : World) : World :=
  with_window (push_errorMessage "WebSocket error occurred")
    (updateStatusBarItem (with_sync (set_isConnected false) w)).

(** The [wss.on('error', ...)] callback. *)
Definition onServerError (w : World) : World :=
  with_window (push_errorMessage "Failed to start WebSocket server") w.

(** Not a callback: the [ws] library moves socket [ws] out of [OPEN] (a
    close frame arrived, or the connection broke) before it emits
    ['close']. *)
Definition socketClosing (ws : nat) (w : World) : World :=
  match jetbrainsClient (sync w) with
  | Some c =>
      if Nat.eqb (wsId c) ws
      then with_sync (set_jetbrainsClient (Some (mkWebSocket ws CLOSING))) w
      else w
  | None => w
  end.

(** *** The extension as a transition system *)

Inductive Event : Type :=
  | Toggle
  | Connection (ws : nat) (clientType : string)
  | SocketClose (ws : nat)
  | SocketError
  | ServerError
  | SocketClosing (ws : nat)
  | Message (data : Wire.Frame)
  | TabsChanged (closed : list (option string))
  | ActiveEditorChanged (editor : option (string * (Z * Z)))
  | DocumentClosed (p : string)
  | SelectionChanged (p : string) (l c : Z)
  | WindowState (focused : bool)
  | UserChange (e : Window).

Definition step (ev : Event) (w : World) : World :=
  match ev with
  | Toggle => toggleAutoReconnect w
  | Connection ws clientType => onConnection ws clientType w
  | SocketClose ws => onSocketClose ws w
  | SocketError => onSocketError w
  | ServerError => onServerError w
  | SocketClosing ws => socketClosing ws w
  | Message data => onMessage data w
  | TabsChanged closed => onDidChangeTabs closed w
  | ActiveEditorChanged editor => onDidChangeActiveTextEditor editor w
  | DocumentClosed p => onDidCloseTextDocument p w
  | SelectionChanged p l c => onDidChangeTextEditorSelection p l c w
  | WindowState focused => onDidChangeWindowState focused w
  | UserChange e =>
      with_window (fun old =>
        mkWindow (disk e) (textDocuments e) (visibleTextEditors e) (tabGroups e)
                 (activeTextEditor e) (views e) (errorMessages old) (calls old)) w
  end.

Definition run (evs : list Event) (w : World) : World :=
  fold_left (fun w ev => step ev w) evs w.

End Handlers.

(** The extension right after its constructor, in a window [e] whose focus
    state is [focused]. *)
Definition init (e : Window) (focused : bool) (port : Z) : World :=
  mkWorld (mkSync None None None focused sync_ignored false false false) e port [] [] [].

End VSCode.

(** ** The JetBrains plugin (VSCodeJetBrainsSyncService.kt) *)

Module JetBrains.

(** [data class EditorState].  The declared types are [String], [Int],
    [String?] and [Boolean]; Gson builds the object without running the
    constructor, so a member that is absent from the frame keeps the JVM
    default ([null], [0], [false]) whatever Kotlin declares: [filePath],
    [source] and [action] can be [null]. *)
Record EditorState : Type := mkEditorState {
  filePath : option string;
  line     : Z;
  column   : Z;
  source   : option string;
  isActive : bool;
  action   : option string
}.

(** [EditorState(filePath = .., line = .., column = .., isActive = ..,
    action = ..)]: the constructor call of the listeners, with the default
    [source = "jetbrains"]. *)
Definition newEditorState (path : string) (l c : Z) (active : bool) (act : string)
  : EditorState :=
  mkEditorState (Some path) l c (Some "jetbrains") active (Some act).

Definition is_Int (z : Z) : bool := (-2147483648 <=? z) && (z <=? 2147483647).

(** [gson.fromJson(it, EditorState::class.java)]: [None] stands for the
    exception Gson throws (text that is not JSON, a number that is no
    [Int]). *)
Definition fromJson (message : Wire.Frame) : option EditorState :=
  match message with
  | Wire.NotJson => None
  | Wire.Json o =>
      let l := match Wire.line o with Some z => z | None => 0 end in
      let c := match Wire.column o with Some z => z | None => 0 end in
      if is_Int l && is_Int c then
        Some (mkEditorState (Wire.filePath o) l c (Wire.source o)
                            (Wire.truthy (Wire.isActive o)) (Wire.action o))
      else None
  end.

(** [gson.toJson(state)]: members that are [null] are left out. *)
Definition toJson (state : EditorState) : Wire.Object :=
  Wire.mkObject (filePath state) (Some (line state)) (Some (column state))
                (source state) (Some (isActive state)) (action state).

(** A [WebSocketClient] object. *)
Record WebSocketClient : Type := mkClient {
  clientId : nat;
  isOpen : bool
}.

(** The mutable fields of [class VSCodeJetBrainsSyncService]. *)
Record Service : Type := mkService {
  webSocket : option WebSocketClient;
  svcActive : bool;                    (* [isActive] *)
  isHandlingExternalUpdate : bool;
  isConnected : bool;
  isReconnecting : bool;
  autoReconnect : bool
}.

(** *** The IDE the plugin drives *)

Inductive Call : Type :=
  | OpenFile (path : string)
  | MoveToLogicalPosition (l c : Z)
  | ScrollToCaret
  | CloseFile (path : string).

Record View : Type := mkView {
  caret : Z * Z;
  top   : Z;
  lines : Z
}.

Definition line_visible (v : View) (l : Z) : bool :=
  (top v <=? l) && (l <? top v + lines v).

(** Every file has a text editor; there is one editor window, so
    [selectedEditors], [selectedTextEditor] and [selectedFiles] all come
    from [selectedFile]. *)
Record Ide : Type := mkIde {
  vfs : list string;            (* paths [LocalFileSystem] resolves *)
  openFiles : list string;
  selectedFile : option string;
  views : string -> View;
  calls : list (Call * bool)    (* control calls, with the echo guard *)
}.

(** A block handed to [invokeLater], to run later on the event dispatch
    thread. *)
Inductive Task : Type :=
  | CloseTask (state : EditorState)
  | SelectTask (state : EditorState)
  | ConnectTask.

Record World : Type := mkWorld {
  service : Service;
  ide : Ide;
  edt : list Task;                      (* queue of [invokeLater] blocks *)
  caretListeners : list (string * string);  (* (editor, file) of [setupCaretListener] *)
  nextClient : nat;
  connecting : nat;                     (* [connectBlocking] calls under way *)
  sleeping : nat;                       (* pooled threads in [Thread.sleep(5000)] *)
  closedSockets : list nat;
  sent : list Wire.Object               (* frames handed to [client.send] *)
}.

Definition with_service (f : Service -> Service) (w : World) : World :=
  mkWorld (f (service w)) (ide w) (edt w) (caretListeners w) (nextClient w)
          (connecting w) (sleeping w) (closedSockets w) (sent w).
Definition with_ide (f : Ide -> Ide) (w : World) : World :=
  mkWorld (service w) (f (ide w)) (edt w) (caretListeners w) (nextClient w)
          (connecting w) (sleeping w) (closedSockets w) (sent w).
Definition set_edt (q : list Task) (w : World) : World :=
  mkWorld (service w) (ide w) q (caretListeners w) (nextClient w)
          (connecting w) (sleeping w) (closedSockets w) (sent w).
Definition push_caretListener (l : string * string) (w : World) : World :=
  mkWorld (service w) (ide w) (edt w) (caretListeners w ++ [l]) (nextClient w)
          (connecting w) (sleeping w) (closedSockets w) (sent w).
Definition set_nextClient (n : nat) (w : World) : World :=
  mkWorld (service w) (ide w) (edt w) (caretListeners w) n
          (connecting w) (sleeping w) (closedSockets w) (sent w).
Definition set_connecting (n : nat) (w : World) : World :=
  mkWorld (service w) (ide w) (edt w) (caretListeners w) (nextClient w)
          n (sleeping w) (closedSockets w) (sent w).
Definition set_sleeping (n : nat) (w : World) : World :=
  mkWorld (service w) (ide w) (edt w) (caretListeners w) (nextClient w)
          (connecting w) n (closedSockets w) (sent w).
Definition push_closed (i : nat) (w : World) : World :=
  mkWorld (service w) (ide w) (edt w) (caretListeners w) (nextClient w)
          (connecting w) (sleeping w) (closedSockets w ++ [i]) (sent w).
Definition push_sent (m : Wire.Object) (w : World) : World :=
  mkWorld (service w) (ide w) (edt w) (caretListeners w) (nextClient w)
          (connecting w) (sleeping w) (closedSockets w) (sent w ++ [m]).

Definition set_webSocket v (s : Service) : Service :=
  mkService v (svcActive s) (isHandlingExternalUpdate s) (isConnected s)
            (isReconnecting s) (autoReconnect s).
Definition set_isActive v (s : Service) : Service :=
  mkService (webSocket s) v (isHandlingExternalUpdate s) (isConnected s)
            (isReconnecting s) (autoReconnect s).
Definition set_isHandlingExternalUpdate v (s : Service) : Service :=
  mkService (webSocket s) (svcActive s) v (isConnected s)
            (isReconnecting s) (autoReconnect s).
Definition set_isConnected v (s : Service) : Service :=
  mkService (webSocket s) (svcActive s) (isHandlingExternalUpdate s) v
            (isReconnecting s) (autoReconnect s).
Definition set_isReconnecting v (s : Service) : Service :=
  mkService (webSocket s) (svcActive s) (isHandlingExternalUpdate s) (isConnected s)
            v (autoReconnect s).
Definition set_autoReconnect v (s : Service) : Service :=
  mkService (webSocket s) (svcActive s) (isHandlingExternalUpdate s) (isConnected s)
            (isReconnecting s) v.

Definition set_openFiles v (e : Ide) : Ide :=
  mkIde (vfs e) v (selectedFile e) (views e) (calls e).
Definition set_selectedFile v (e : Ide) : Ide :=
  mkIde (vfs e) (openFiles e) v (views e) (calls e).
Definition set_views v (e : Ide) : Ide :=
  mkIde (vfs e) (openFiles e) (selectedFile e) v (calls e).
Definition push_call (c : Call * bool) (e : Ide) : Ide :=
  mkIde (vfs e) (openFiles e) (selectedFile e) (views e) (calls e ++ [c]).
Definition set_view (p : string) (v : View) (e : Ide) : Ide :=
  set_views (fun q => if String.eqb q p then v else views e q) e.

Definition mem (p : string) (l : list string) : bool := existsb (String.eqb p) l.

(** *** Connection management *)

(** [connectWebSocket]: a new client object replaces the old one and a
    pooled thread starts [connectBlocking]. *)
Definition connectWebSocket (w : World) : World :=
  if negb (autoReconnect (service w)) then
    with_service (set_isReconnecting false) w
  else
    let w := with_service (set_isReconnecting true) w in
    let w := with_service (set_webSocket (Some (mkClient (nextClient w) false))) w in
    set_connecting (S (connecting w)) (set_nextClient (S (nextClient w)) w).

(** [webSocket?.let { client -> if (client.isOpen) client.close() }]. *)
Definition close_client (w : World) : World :=
  match webSocket (service w) with
  | Some client => if isOpen client then push_closed (clientId client) w else w
  | None => w
  end.

(** [toggleAutoReconnect]. *)
Definition toggleAutoReconnect (w : World) : World :=
  let w := with_service (set_autoReconnect (negb (autoReconnect (service w)))) w in
  if negb (autoReconnect (service w)) then
    let w := close_client w in
    let w := with_service (set_webSocket None) w in
    let w := with_service (set_isConnected false) w in
    with_service (set_isReconnecting false) w
  else
    let w := with_service (set_isReconnecting true) w in
    connectWebSocket w.

(** [restartConnection]. *)
Definition restartConnection (w : World) : World :=
  let w := close_client w in
  let w := with_service (set_webSocket None) w in
  let w := with_service (set_isConnected false) w in
  connectWebSocket w.

(** *** Outgoing path *)

(** [client.isOpen] of the current socket, if there is one. *)
Definition client_open (w : World) : bool :=
  match webSocket (service w) with
  | Some client => isOpen client
  | None => false
  end.

(** [updateState]. *)
Definition updateState (state : EditorState) (w : World) : World :=
  if isHandlingExternalUpdate (service w) then w
  else
    match webSocket (service w) with
    | Some client =>
        if isOpen client then
          let shouldSend :=
            Wire.member_is (action state) "close" || svcActive (service w) in
          if shouldSend then push_sent (toJson state) w else w
        else if negb (isReconnecting (service w)) then connectWebSocket w
        else w
    | None => connectWebSocket w
    end.

(** [updateStateFromEditor(editor, file)]: [editor] is named by the file it
    shows. *)
Definition updateStateFromEditor (editor file : string) (w : World) : World :=
  let pos := caret (views (ide w) editor) in
  updateState (newEditorState file (fst pos) (snd pos) (svcActive (service w)) "select") w.

(** [setupCaretListener(editor, file)]. *)
Definition setupCaretListener (editor file : string) (w : World) : World :=
  push_caretListener (editor, file) w.

(** The [FileEditorManagerListener] of [setupEditorListeners]. *)
Definition fileOpened (file : string) (w : World) : World :=
  if isHandlingExternalUpdate (service w) then w
  else
    match selectedFile (ide w) with
    | Some it => setupCaretListener it file (updateStateFromEditor it file w)
    | None => w
    end.

Definition fileClosed (file : string) (w : World) : World :=
  if isHandlingExternalUpdate (service w) then w
  else updateState (newEditorState file 0 0 (svcActive (service w)) "close") w.

Definition selectionChanged (newFile : option string) (w : World) : World :=
  match newFile with
  | Some file =>
      if isHandlingExternalUpdate (service w) then w
      else
        match selectedFile (ide w) with
        | Some it => setupCaretListener it file (updateStateFromEditor it file w)
        | None => w
        end
  | None => w
  end.

(** [caretPositionChanged] of one listener installed by
    [setupCaretListener]. *)
Definition caretPositionChanged (listener : string * string) (w : World) : World :=
  if negb (isHandlingExternalUpdate (service w))
  then updateStateFromEditor (fst listener) (snd listener) w
  else w.

(** The [WindowFocusListener] of [setupWindowListeners]; [showing] is the
    test [frame.isVisible && frame.state != ICONIFIED && frame.isFocused]. *)
Definition send_selected (w : World) : World :=
  match selectedFile (ide w) with
  | Some file => updateStateFromEditor file file w
  | None => w
  end.

Definition windowGainedFocus (showing : bool) (w : World) : World :=
  if showing then send_selected (with_service (set_isActive true) w) else w.

Definition windowLostFocus (w : World) : World :=
  send_selected (with_service (set_isActive false) w).

(** *** Incoming path *)

(** [ApplicationManager.getApplication().invokeLater { ... }]. *)
Definition invokeLater (t : Task) (w : World) : World :=
  set_edt (edt w ++ [t]) w.

(** [handleIncomingState]. *)
Definition handleIncomingState (state : EditorState) (w : World) : World :=
  if Wire.member_is (action state) "close" then
    let w := with_service (set_isHandlingExternalUpdate true) w in
    let w := invokeLater (CloseTask state) w in                        (* try *)
    with_service (set_isHandlingExternalUpdate false) w                (* finally *)
  else if negb (isActive state) then w
  else
    let w := with_service (set_isHandlingExternalUpdate true) w in
    let w := invokeLater (SelectTask state) w in                       (* try *)
    with_service (set_isHandlingExternalUpdate false) w.               (* finally *)

(** [onMessage] of the socket. *)
Definition onMessage (message : Wire.Frame) (w : World) : World :=
  match fromJson message with
  | Some state =>
      if negb (Wire.member_is (source state) "jetbrains")
      then handleIncomingState state w
      else w
  | None => w
  end.

(** *** The blocks that run on the event dispatch thread *)

Definition record (c : Call) (w : World) : World :=
  with_ide (push_call (c, isHandlingExternalUpdate (service w))) w.

Fixpoint remove_first (t : string) (g : list string) : list string :=
  match g with
  | [] => []
  | x :: xs => if String.eqb x t then xs else x :: remove_first t xs
  end.

(** [FileEditorManager.closeFile(it)]: the tab goes; when it was the
    selected one, a remaining tab (here the first) is selected. *)
Definition closeFile (path : string) (w : World) : World :=
  let w := record (CloseFile path) w in
  with_ide (fun e =>
    let files := remove_first path (openFiles e) in
    let selected :=
      match selectedFile e with
      | Some s => if String.eqb s path then hd_error files else Some s
      | None => None
      end in
    set_selectedFile selected (set_openFiles files e)) w.

(** [fileEditorManager.openFile(it, false)]. *)
Definition openFile (path : string) (w : World) : World :=
  let w := record (OpenFile path) w in
  with_ide (fun e =>
    let files := if mem path (openFiles e) then openFiles e
                 else (openFiles e ++ [path])%list in
    set_selectedFile (Some path) (set_openFiles files e)) w.

(** [caretModel.moveToLogicalPosition(position)]. *)
Definition moveToLogicalPosition (editor : string) (l c : Z) (w : World) : World :=
  let w := record (MoveToLogicalPosition l c) w in
  with_ide (fun e =>
    let v := views e editor in
    set_view editor (mkView (l, c) (top v) (lines v)) e) w.

(** [scrollingModel.scrollToCaret(ScrollType.MAKE_VISIBLE)]: the least
    scroll that shows the caret line. *)
Definition scrollToCaret (editor : string) (w : World) : World :=
  let w := record ScrollToCaret w in
  with_ide (fun e =>
    let v := views e editor in
    let l := fst (caret v) in
    let t := if line_visible v l then top v
             else if l <? top v then l else l - lines v + 1 in
    set_view editor (mkView (caret v) t (lines v)) e) w.

(** The block [handleIncomingState] queues for a [close]: a [null] path
    makes [File(..)] throw, which the block's own [catch] logs. *)
Definition run_close (state : EditorState) (w : World) : World :=
  match filePath state with
  | None => w
  | Some path =>
      if mem path (vfs (ide w)) then closeFile path w else w
  end.

(** The block [handleIncomingState] queues for a [select]:
    [LogicalPosition(line, column)] throws on a negative coordinate, after
    the file has been opened. *)
Definition run_select (state : EditorState) (w : World) : World :=
  match filePath state with
  | None => w
  | Some path =>
      if mem path (vfs (ide w)) then
        let existingEditor :=
          match selectedFile (ide w) with
          | Some s => String.eqb s path
          | None => false
          end in
        let w := if existingEditor then w else openFile path w in
        if (line state <? 0) || (column state <? 0) then w
        else
          let w := moveToLogicalPosition path (line state) (column state) w in
          if negb (line_visible (views (ide w) path) (line state))
          then scrollToCaret path w
          else w
      else w
  end.

Definition run_task (t : Task) (w : World) : World :=
  match t with
  | CloseTask state => run_close state w
  | SelectTask state => run_select state w
  | ConnectTask => connectWebSocket w
  end.

(** *** Socket callbacks *)

Definition mark_socket (id : nat) (open : bool) (w : World) : World :=
  match webSocket (service w) with
  | Some client =>
      if Nat.eqb (clientId client) id
      then with_service (set_webSocket (Some (mkClient id open))) w
      else w
  | None => w
  end.

(** [onOpen] of socket [id]. *)
Definition onOpen (id : nat) (w : World) : World :=
  let w := mark_socket id true w in
  let w := with_service (set_isConnected true) w in
  let w := with_service (set_isReconnecting false) w in
  send_selected w.

(** [onClose] of socket [id]. *)
Definition onClose (id : nat) (w : World) : World :=
  let w := mark_socket id false w in
  let w := with_service (set_isConnected false) w in
  if negb (isReconnecting (service w)) && autoReconnect (service w) then
    set_sleeping (S (sleeping w)) (with_service (set_isReconnecting true) w)
  else w.

(** [onError]. *)
Definition onError (w : World) : World :=
  with_service (set_isConnected false) w.

(** The pooled thread of [connectWebSocket] when [connectBlocking] did not
    return [true]. *)
Definition connectFailed (w : World) : World :=
  set_sleeping (S (sleeping w)) (with_service (set_isReconnecting true) w).

(** A pooled thread wakes from [Thread.sleep(5000)] and queues
    [connectWebSocket]. *)
Definition retryElapsed (w : World) : World :=
  match sleeping w with
  | O => w
  | S n => invokeLater ConnectTask (set_sleeping n w)
  end.

(** *** The plugin as a transition system *)

Inductive Event : Type :=
  | Toggle
  | Restart
  | SocketOpen (id : nat)
  | SocketClose (id : nat)
  | SocketError
  | SocketMessage (message : Wire.Frame)
  | ConnectFailed
  | RetryElapsed
  | RunEdt
  | FileOpened (file : string)
  | FileClosed (file : string)
  | SelectionChanged (newFile : option string)
  | CaretMoved (listener : nat)
  | GainedFocus (showing : bool)
  | LostFocus
  | UserChange (files : list string) (selected : option string) (v : string -> View).

Definition step (ev : Event) (w : World) : World :=
  match ev with
  | Toggle => toggleAutoReconnect w
  | Restart => restartConnection w
  | SocketOpen id => onOpen id w
  | SocketClose id => onClose id w
  | SocketError => onError w
  | SocketMessage message => onMessage message w
  | ConnectFailed => connectFailed w
  | RetryElapsed => retryElapsed w
  | RunEdt =>
      match edt w with
      | [] => w
      | t :: q => run_task t (set_edt q w)
      end
  | FileOpened file => fileOpened file w
  | FileClosed file => fileClosed file w
  | SelectionChanged newFile => selectionChanged newFile w
  | CaretMoved n =>
      match nth_error (caretListeners w) n with
      | Some l => caretPositionChanged l w
      | None => w
      end
  | GainedFocus showing => windowGainedFocus showing w
  | LostFocus => windowLostFocus w
  | UserChange files selected v =>
      with_ide (fun e => set_views v (set_selectedFile selected (set_openFiles files e))) w
  end.

Definition run (evs : list Event) (w : World) : World :=
  fold_left (fun w ev => step ev w) evs w.

(** The service right after its [init] block, in an IDE [e]. *)
Definition init (e : Ide) : World :=
  mkWorld (mkService None false false false false false) e [] [] 0 0 0 [] [].

End JetBrains.

(** ** Scenarios

    The situation of the scenarios of the specification: both editors show
    [/x.py], forty lines from the top of the file, and the two peers are
    connected. *)

Module Scenario.

(** The platform of the scenarios: POSIX paths made of ASCII characters. *)
Definition lower_ascii (c : ascii) : ascii :=
  let n := nat_of_ascii c in
  if (Nat.leb 65 n && Nat.leb n 90)%bool then ascii_of_nat (n + 32) else c.

Fixpoint toLowerCase_ascii (s : string) : string :=
  match s with
  | EmptyString => EmptyString
  | String c s' => String (lower_ascii c) (toLowerCase_ascii s')
  end.

(** [Uri.file] puts a slash in front of a path that does not start with
    one. *)
Definition posix_fsPath (path : string) : string :=
  match path with
  | String "/"%char _ => path
  | _ => String "/"%char path
  end.

Definition posix : VSCode.Platform :=
  VSCode.Build_Platform toLowerCase_ascii posix_fsPath (fun fsPath => "file://" ++ fsPath).

#[local] Existing Instance posix.

Definition x_py : string := "/x.py".

(** The frame of the first scenario, sent by peer [src]. *)
Definition select_x (src : string) (active : bool) : Wire.Object :=
  Wire.mkObject (Some x_py) (Some 10) (Some 4) (Some src) (Some active) (Some "select").

Definition close_x (src : string) (active : bool) : Wire.Object :=
  Wire.mkObject (Some x_py) (Some 0) (Some 0) (Some src) (Some active) (Some "close").

Definition vs_window : VSCode.Window :=
  VSCode.mkWindow [x_py] [x_py] [x_py] [[x_py]] (Some x_py)
                  (fun _ => VSCode.mkView (Some 0, Some 0) 0 40) [] [].

(** The extension with sync switched on and the plugin connected. *)
Definition vs_connected (focused : bool) : VSCode.World :=
  VSCode.run [VSCode.Toggle; VSCode.Connection 1 "jetbrains"]
             (VSCode.init vs_window focused 3000).

Definition jb_ide : JetBrains.Ide :=
  JetBrains.mkIde [x_py] [x_py] (Some x_py)
                  (fun _ => JetBrains.mkView (0, 0) 0 40) [].

(** The plugin with sync switched on and its socket open, while the IDE
    window is in the background. *)
Definition jb_connected : JetBrains.World :=
  JetBrains.run [JetBrains.Toggle; JetBrains.SocketOpen 0] (JetBrains.init jb_ide).

(** The same, after the user moved the caret of [/x.py] to line 10,
    column 4 in the focused extension window. *)
Definition vs_editing : VSCode.World :=
  VSCode.run [VSCode.SelectionChanged x_py 10 4] (vs_connected true).

(** The plugin connected while its IDE window has the focus. *)
Definition jb_editing : JetBrains.World :=
  JetBrains.run [JetBrains.GainedFocus true; JetBrains.Toggle; JetBrains.SocketOpen 0]
                (JetBrains.init jb_ide).

(** A [close] frame without [line], [column] and [isActive]. *)
Definition bare_close (src : string) : Wire.Object :=
  Wire.mkObject (Some x_py) None None (Some src) None (Some "close").

(** A frame without [action]. *)
Definition no_action (src : string) : Wire.Object :=
  Wire.mkObject (Some x_py) (Some 10) (Some 4) (Some src) (Some true) None.

(** A [select] for line 30, which both editors already show. *)
Definition select_visible (src : string) : Wire.Object :=
  Wire.mkObject (Some x_py) (Some 30) (Some 0) (Some src) (Some true) (Some "select").

End Scenario.

(** * Properties *)

(** ** Auxiliary facts *)

Lemma member_is_true x lit : Wire.member_is x lit = true <-> x = Some lit.
Proof.
  destruct x as [s|]; simpl.
  - rewrite String.eqb_eq. split; congruence.
  - split; discriminate.
Qed.

Lemma member_is_false x lit : Wire.member_is x lit = false <-> x <> Some lit.
Proof.
  rewrite <- member_is_true. destruct (Wire.member_is x lit); split; congruence.
Qed.

Lemma member_is_other (s lit : string) :
  s <> lit -> Wire.member_is (Some s) lit = false.
Proof. intro H. apply member_is_false. congruence. Qed.

Lemma app_one_neq {A} (l : list A) (x : A) : (l ++ [x])%list <> l.
Proof.
  intro H. apply (f_equal (@List.length A)) in H.
  rewrite length_app in H. simpl in H. lia.
Qed.

Lemma app_cons_neq {A} (l r : list A) (x : A) : (l ++ x :: r)%list <> l.
Proof.
  intro H. apply (f_equal (@List.length A)) in H.
  rewrite length_app in H. simpl in H. lia.
Qed.

(** ** The outgoing filter *)

Section VSCodeOutgoing.
Import VSCode.
Context {platform : Platform}.
Variable w : World.
Variable state : SyncState.

Lemma vs_updateState_records :
  currentState (sync (updateState state w)) = Some state.
Proof.
  unfold updateState.
  destruct (client_open _); [destruct (_ || _)|]; reflexivity.
Qed.

Lemma vs_updateState_sent :
  sent (updateState state w) =
  if client_open w && (Wire.member_is (Wire.action state) "close" || isActive (sync w))
  then (sent w ++ [state])%list else sent w.
Proof.
  unfold updateState.
  change (client_open (with_sync (set_currentState (Some state)) w))
    with (client_open w).
  change (isActive (sync (with_sync (set_currentState (Some state)) w)))
    with (isActive (sync w)).
  destruct (client_open w); [destruct (_ || _)|]; reflexivity.
Qed.

Lemma vs_updateState_keeps :
  let w' := updateState state w in
  window w' = window w /\ isActive (sync w') = isActive (sync w) /\
  isHandlingExternalUpdate (sync w') = isHandlingExternalUpdate (sync w) /\
  jetbrainsClient (sync w') = jetbrainsClient (sync w).
Proof.
  unfold updateState.
  destruct (client_open _); [destruct (_ || _)|]; repeat split; reflexivity.
Qed.
End VSCodeOutgoing.

Ltac break_match :=
  match goal with
  | |- context [match ?x with _ => _ end] => destruct x eqn:?
  end.

Section JetBrainsGuard.
Import JetBrains.

Lemma jb_connectWebSocket_guard w :
  isHandlingExternalUpdate (service (connectWebSocket w))
  = isHandlingExternalUpdate (service w).
Proof. unfold connectWebSocket. break_match; reflexivity. Qed.

Lemma jb_updateState_guard state w :
  isHandlingExternalUpdate (service (updateState state w))
  = isHandlingExternalUpdate (service w).
Proof.
  unfold updateState.
  repeat break_match;
    simpl; first [congruence | rewrite jb_connectWebSocket_guard; congruence].
Qed.

Lemma jb_updateStateFromEditor_guard editor file w :
  isHandlingExternalUpdate (service (updateStateFromEditor editor file w))
  = isHandlingExternalUpdate (service w).
Proof. apply jb_updateState_guard. Qed.

Lemma jb_send_selected_guard w :
  isHandlingExternalUpdate (service (send_selected w))
  = isHandlingExternalUpdate (service w).
Proof.
  unfold send_selected. break_match; [apply jb_updateStateFromEditor_guard | reflexivity].
Qed.

Lemma jb_close_client_guard w :
  isHandlingExternalUpdate (service (close_client w))
  = isHandlingExternalUpdate (service w).
Proof. unfold close_client. repeat break_match; reflexivity. Qed.

Lemma jb_mark_socket_guard id b w :
  isHandlingExternalUpdate (service (mark_socket id b w))
  = isHandlingExternalUpdate (service w).
Proof. unfold mark_socket. repeat break_match; reflexivity. Qed.

Lemma jb_run_task_guard t w :
  isHandlingExternalUpdate (service (run_task t w)) = isHandlingExternalUpdate (service w).
Proof.
  destruct t; simpl.
  - unfold run_close. repeat break_match; reflexivity.
  - unfold run_select. repeat break_match; reflexivity.
  - apply jb_connectWebSocket_guard.
Qed.

(** Every call of [handleIncomingState] returns with the flag cleared,
    whatever it was before a [close] or an applied [select]; a discarded
    [select] leaves it as it was. *)
Lemma jb_handleIncomingState_guard state w :
  isHandlingExternalUpdate (service w) = false ->
  isHandlingExternalUpdate (service (handleIncomingState state w)) = false.
Proof.
  intro H. unfold handleIncomingState. repeat break_match; auto.
Qed.

Lemma jb_step_guard ev w :
  isHandlingExternalUpdate (service w) = false ->
  isHandlingExternalUpdate (service (step ev w)) = false.
Proof.
  intro H. destruct ev; simpl.
  - unfold toggleAutoReconnect. break_match.
    + simpl. rewrite jb_close_client_guard. exact H.
    + rewrite jb_connectWebSocket_guard. exact H.
  - unfold restartConnection. rewrite jb_connectWebSocket_guard. simpl.
    rewrite jb_close_client_guard. exact H.
  - unfold onOpen. rewrite jb_send_selected_guard. simpl.
    rewrite jb_mark_socket_guard. exact H.
  - unfold onClose. break_match; simpl; rewrite jb_mark_socket_guard; exact H.
  - exact H.
  - unfold onMessage. repeat break_match; auto using jb_handleIncomingState_guard.
  - exact H.
  - unfold retryElapsed. break_match; exact H.
  - break_match; [exact H | rewrite jb_run_task_guard; exact H].
  - unfold fileOpened. rewrite H. break_match; auto.
    unfold setupCaretListener. simpl. rewrite jb_updateStateFromEditor_guard. exact H.
  - unfold fileClosed. rewrite H. rewrite jb_updateState_guard. exact H.
  - unfold selectionChanged. rewrite H. repeat break_match; auto.
    unfold setupCaretListener. simpl. rewrite jb_updateStateFromEditor_guard. exact H.
  - break_match; auto. unfold caretPositionChanged.
    rewrite H. simpl. rewrite jb_updateStateFromEditor_guard. exact H.
  - unfold windowGainedFocus. break_match; auto.
    rewrite jb_send_selected_guard. exact H.
  - unfold windowLostFocus. rewrite jb_send_selected_guard. exact H.
  - exact H.
Qed.

(** Between two events the echo guard of the plugin is never set. *)
Lemma jb_run_guard evs :
  forall w, isHandlingExternalUpdate (service w) = false ->
  isHandlingExternalUpdate (service (run evs w)) = false.
Proof.
  induction evs as [|ev evs IH]; intros w H; simpl.
  - exact H.
  - apply IH. apply jb_step_guard. exact H.
Qed.

Lemma jb_reachable_guard evs e : isHandlingExternalUpdate (service (run evs (init e))) = false.
Proof. apply jb_run_guard. reflexivity. Qed.

Lemma jb_updateState_sent state w :
  isHandlingExternalUpdate (service w) = false -> client_open w = true ->
  sent (updateState state w) =
  if Wire.member_is (action state) "close" || svcActive (service w)
  then (sent w ++ [toJson state])%list else sent w.
Proof.
  unfold updateState, client_open. intros -> Hopen.
  destruct (webSocket (service w)) as [client|]; [|discriminate].
  rewrite Hopen. destruct (_ || _); reflexivity.
Qed.
End JetBrainsGuard.

(** C3: with an open connection, a local candidate is transmitted exactly
    when its action is [close] or the local peer is active, and is dropped
    otherwise.  For the extension this holds in every state; for the plugin
    in every state the service can be in when a listener calls
    [updateState] (any run of events from its initial state). *)
Theorem C3_outgoing_filter :
  (forall (w : VSCode.World) (state : VSCode.SyncState),
      VSCode.client_open w = true ->
      let transmitted :=
        VSCode.sent (VSCode.updateState state w) = (VSCode.sent w ++ [state])%list in
      let dropped := VSCode.sent (VSCode.updateState state w) = VSCode.sent w in
      (transmitted <->
         Wire.action state = Some "close" \/ VSCode.isActive (VSCode.sync w) = true)
      /\ (Wire.action state = Some "close" -> transmitted)
      /\ (Wire.action state = Some "select" ->
            (VSCode.isActive (VSCode.sync w) = true -> transmitted)
            /\ (VSCode.isActive (VSCode.sync w) = false -> dropped)))
  /\
  (forall (evs : list JetBrains.Event) (e : JetBrains.Ide) (state : JetBrains.EditorState),
      let w := JetBrains.run evs (JetBrains.init e) in
      JetBrains.client_open w = true ->
      let transmitted :=
        JetBrains.sent (JetBrains.updateState state w)
        = (JetBrains.sent w ++ [JetBrains.toJson state])%list in
      let dropped := JetBrains.sent (JetBrains.updateState state w) = JetBrains.sent w in
      (transmitted <->
         JetBrains.action state = Some "close"
         \/ JetBrains.svcActive (JetBrains.service w) = true)
      /\ (JetBrains.action state = Some "close" -> transmitted)
      /\ (JetBrains.action state = Some "select" ->
            (JetBrains.svcActive (JetBrains.service w) = true -> transmitted)
            /\ (JetBrains.svcActive (JetBrains.service w) = false -> dropped))).
Proof.
  split.
  - intros w state Hopen transmitted dropped. subst transmitted dropped.
    rewrite vs_updateState_sent, Hopen. simpl.
    destruct (Wire.member_is (Wire.action state) "close") eqn:Hc;
      [apply member_is_true in Hc | apply member_is_false in Hc];
      destruct (VSCode.isActive (VSCode.sync w)); simpl;
      repeat split; intros; auto; try congruence;
      try (exfalso; eapply app_one_neq; symmetry; eassumption);
      intuition congruence.
  - intros evs e state w Hopen transmitted dropped. subst transmitted dropped.
    rewrite (jb_updateState_sent state w (jb_reachable_guard evs e) Hopen).
    destruct (Wire.member_is (JetBrains.action state) "close") eqn:Hc;
      [apply member_is_true in Hc | apply member_is_false in Hc];
      destruct (JetBrains.svcActive (JetBrains.service w)); simpl;
      repeat split; intros; auto; try congruence;
      try (exfalso; eapply app_one_neq; symmetry; eassumption);
      intuition congruence.
Qed.

(** ** The incoming filter of the extension *)

Section VSCodeIncoming.
Import VSCode.
Context {platform : Platform}.

Lemma vs_close_tab_loop doc groups : forall i w,
  close_tab_loop doc i groups w =
  match first_matching_tab doc i groups with
  | Some (j, tab) => (Normal true, snd (tabGroups_close j tab w))
  | None => (Normal false, w)
  end.
Proof.
  induction groups as [|g gs IH]; intros i w; simpl.
  - reflexivity.
  - destruct (find (tab_matches doc) g) as [tab|].
    + reflexivity.
    + apply IH.
Qed.

Variable w : World.
Variable state : SyncState.

Lemma vs_self_echo :
  Wire.source state = Some "vscode" ->
  handleIncomingState state w = (Normal tt, w).
Proof.
  intro H. unfold handleIncomingState. rewrite H. reflexivity.
Qed.

(** What the [close] block does for a frame that names a file. *)
Lemma vs_handleClose p :
  Wire.filePath state = Some p ->
  handleClose state w =
  (Normal Returned,
   with_sync (set_isHandlingExternalUpdate false)
     match find_editorToClose (file_fsPath p) (window w) with
     | Some doc =>
         match first_matching_tab doc 0 (tabGroups (window w)) with
         | Some (j, tab) =>
             snd (tabGroups_close j tab
                    (with_sync (set_isHandlingExternalUpdate true) w))
         | None => w
         end
     | None => w
     end).
Proof.
  intro Hp.
  unfold handleClose, try_catch_finally, bind, setHandling, modify, get, ret.
  rewrite Hp. simpl.
  destruct (find_editorToClose (file_fsPath p) (window w)) as [doc|]; simpl.
  - rewrite vs_close_tab_loop.
    destruct (first_matching_tab doc 0 (tabGroups (window w))) as [[j tab]|];
      reflexivity.
  - reflexivity.
Qed.

Hypothesis remote : Wire.member_is (Wire.source state) "vscode" = false.

Lemma vs_select_discarded :
  Wire.member_is (Wire.action state) "close" = false ->
  Wire.truthy (Wire.isActive state) = false ->
  handleIncomingState state w = (Normal tt, w).
Proof.
  intros Ha Hi. unfold handleIncomingState. rewrite remote, Ha.
  unfold bind, ret. rewrite Hi. reflexivity.
Qed.

Lemma vs_select_applied :
  Wire.member_is (Wire.action state) "close" = false ->
  Wire.truthy (Wire.isActive state) = true ->
  handleIncomingState state w = handleSelect state w.
Proof.
  intros Ha Hi. unfold handleIncomingState. rewrite remote, Ha.
  unfold bind, ret. rewrite Hi. reflexivity.
Qed.

Lemma vs_close_applied p :
  Wire.member_is (Wire.action state) "close" = true ->
  Wire.filePath state = Some p ->
  handleIncomingState state w = (Normal tt, snd (handleClose state w)).
Proof.
  intros Ha Hp. unfold handleIncomingState. rewrite remote, Ha.
  unfold bind at 1. rewrite (vs_handleClose p Hp). reflexivity.
Qed.
End VSCodeIncoming.

Section VSCodeSelect.
Import VSCode.
Context {platform : Platform}.

Lemma mem_app_one p l : mem p (l ++ [p])%list = true.
Proof.
  unfold mem. rewrite existsb_app. simpl. rewrite String.eqb_refl.
  rewrite orb_true_r. reflexivity.
Qed.

Variable w : World.
Variable state : SyncState.
Variables path p : string.
Variables l c : Z.
Hypothesis Hpath : Wire.filePath state = Some path.
Hypothesis Hfile : file_fsPath path = p.
Hypothesis Hline : Wire.line state = Some l.
Hypothesis Hcolumn : Wire.column state = Some c.

(** The file cannot be opened: the error is reported, the editor keeps
    its tabs and carets, and the flag is released. *)
Lemma vs_handleSelect_unreadable :
  mem p (textDocuments (window w)) = false ->
  mem p (disk (window w)) = false ->
  handleSelect state w =
  (Normal tt,
   with_sync (set_isHandlingExternalUpdate false)
     (with_window (fun e => push_errorMessage ("Failed to open file: " ++ path)
                              (push_call (OpenTextDocument p, true) e)) w)).
Proof.
  intros Hd Hf.
  unfold handleSelect, try_catch_finally, bind, setHandling, modify, get, ret,
    openTextDocument, record, bind, modify, get, showErrorMessage.
  rewrite Hpath. simpl. rewrite Hfile, Hd, Hf. simpl. reflexivity.
Qed.

Hypothesis Hreadable :
  mem p (textDocuments (window w)) || mem p (disk (window w)) = true.
Hypothesis Hl : 0 <= l.
Hypothesis Hc : 0 <= c.

Lemma vs_handleSelect_ok :
  let w' := snd (handleSelect state w) in
  fst (handleSelect state w) = Normal tt
  /\ sync w' = set_isHandlingExternalUpdate false (sync w)
  /\ sent w' = sent w
  /\ calls (window w') =
     (calls (window w) ++
      [(OpenTextDocument p, true); (ShowTextDocument p, true);
       (SetSelection (Some l) (Some c), true);
       (RevealRange (Some l) (Some c) InCenter, true)])%list
  /\ mem p (textDocuments (window w')) = true
  /\ existsb (mem p) (tabGroups (window w')) = true
  /\ activeTextEditor (window w') = Some p
  /\ caret (views (window w') p) = (Some l, Some c)
  /\ top (views (window w') p) = reveal_top (views (window w) p) l InCenter
  /\ errorMessages (window w') = errorMessages (window w).
Proof.
  assert (Hnl : (l <? 0) = false) by (apply Z.ltb_ge; exact Hl).
  assert (Hnc : (c <? 0) = false) by (apply Z.ltb_ge; exact Hc).
  unfold handleSelect, try_catch_finally, bind, setHandling, modify, get, ret,
    openTextDocument, showTextDocument, Position, set_selection, revealRange,
    record, bind, modify, get, ret.
  rewrite Hpath, Hline, Hcolumn. simpl. rewrite Hfile, Hnl, Hnc. simpl.
  destruct (mem p (textDocuments (window w))) eqn:Hd; simpl.
  - rewrite String.eqb_refl. simpl. rewrite <- !app_assoc. simpl.
    repeat split; auto.
    destruct (tabGroups (window w)) as [|g gs]; simpl.
    + rewrite String.eqb_refl. reflexivity.
    + destruct (mem p g) eqn:Hg; [rewrite Hg | rewrite mem_app_one]; reflexivity.
  - simpl in Hreadable. rewrite Hreadable. simpl.
    rewrite String.eqb_refl. simpl. rewrite <- !app_assoc. simpl.
    repeat split; auto.
    + apply mem_app_one.
    + destruct (tabGroups (window w)) as [|g gs]; simpl.
      * rewrite String.eqb_refl. reflexivity.
      * destruct (mem p g) eqn:Hg; [rewrite Hg | rewrite mem_app_one]; reflexivity.
Qed.
End VSCodeSelect.

(** ** The incoming filter of the plugin *)

Section JetBrainsIncoming.
Import JetBrains.

Lemma jb_fromJson_complete p l c src active act :
  is_Int l = true -> is_Int c = true ->
  fromJson (Wire.Json (Wire.mkObject (Some p) (Some l) (Some c) (Some src)
                                     (Some active) (Some act)))
  = Some (mkEditorState (Some p) l c (Some src) active (Some act)).
Proof. intros Hl Hc. simpl. rewrite Hl, Hc. reflexivity. Qed.

Variable w : World.
Variable state : EditorState.

Lemma jb_close_queued :
  action state = Some "close" ->
  handleIncomingState state w =
  with_service (set_isHandlingExternalUpdate false) (invokeLater (CloseTask state) w).
Proof.
  intro Ha. unfold handleIncomingState. rewrite Ha. reflexivity.
Qed.

Lemma jb_select_discarded :
  Wire.member_is (action state) "close" = false ->
  isActive state = false ->
  handleIncomingState state w = w.
Proof.
  intros Ha Hi. unfold handleIncomingState. rewrite Ha, Hi. reflexivity.
Qed.

Lemma jb_select_queued :
  Wire.member_is (action state) "close" = false ->
  isActive state = true ->
  handleIncomingState state w =
  with_service (set_isHandlingExternalUpdate false) (invokeLater (SelectTask state) w).
Proof.
  intros Ha Hi. unfold handleIncomingState. rewrite Ha, Hi. reflexivity.
Qed.

Variable p : string.
Hypothesis Hpath : filePath state = Some p.

(** The queued [close] block: a path the file system does not resolve is
    a no-op; otherwise [closeFile] is called once. *)
Lemma jb_run_close :
  run_close state w =
  if mem p (vfs (ide w)) then closeFile p w else w.
Proof. unfold run_close. rewrite Hpath. reflexivity. Qed.

Lemma jb_closeFile_not_open :
  mem p (openFiles (ide w)) = false ->
  selectedFile (ide w) <> Some p ->
  let w' := closeFile p w in
  openFiles (ide w') = openFiles (ide w)
  /\ selectedFile (ide w') = selectedFile (ide w)
  /\ service w' = service w /\ sent w' = sent w /\ edt w' = edt w.
Proof.
  intros Hm Hs. unfold closeFile. simpl.
  assert (Hr : forall g, mem p g = false -> remove_first p g = g).
  { induction g as [|x xs IH]; simpl; intro H; [reflexivity|].
    apply orb_false_iff in H. destruct H as [Hx Hxs].
    rewrite String.eqb_sym, Hx. f_equal. apply IH. exact Hxs. }
  rewrite (Hr _ Hm). repeat split.
  destruct (selectedFile (ide w)) as [s|]; [|reflexivity].
  destruct (String.eqb_spec s p); [congruence | reflexivity].
Qed.

Hypothesis Hvfs : mem p (vfs (ide w)) = true.
Hypothesis Hl : 0 <= line state.
Hypothesis Hc : 0 <= column state.

(** The queued [select] block for a file the file system resolves and a
    position with non-negative coordinates. *)
Lemma jb_run_select_ok :
  let g := isHandlingExternalUpdate (service w) in
  let v := views (ide w) p in
  let already := match selectedFile (ide w) with
                 | Some s => String.eqb s p | None => false end in
  let w' := run_select state w in
  service w' = service w /\ sent w' = sent w /\ edt w' = edt w
  /\ selectedFile (ide w') = Some p
  /\ (already = false -> mem p (openFiles (ide w')) = true)
  /\ caret (views (ide w') p) = (line state, column state)
  /\ calls (ide w') =
     (calls (ide w)
      ++ (if already then [] else [(OpenFile p, g)])
      ++ [(MoveToLogicalPosition (line state) (column state), g)]
      ++ (if line_visible v (line state) then [] else [(ScrollToCaret, g)]))%list
  /\ (line_visible v (line state) = true -> top (views (ide w') p) = top v)
  /\ (line_visible v (line state) = false -> 0 < lines v ->
      line_visible (views (ide w') p) (line state) = true).
Proof.
  assert (Hnl : (line state <? 0) = false) by (apply Z.ltb_ge; exact Hl).
  assert (Hnc : (column state <? 0) = false) by (apply Z.ltb_ge; exact Hc).
  assert (Hscroll : forall v : View,
             line_visible v (line state) = false -> 0 < lines v ->
             line_visible
               (mkView (line state, column state)
                  (if line state <? top v then line state
                   else line state - lines v + 1) (lines v)) (line state) = true).
  { intros v Hv Hlines. unfold line_visible in *. simpl.
    apply andb_false_iff in Hv.
    destruct (line state <? top v) eqn:Hlt.
    - apply andb_true_iff. split; [apply Z.leb_le | apply Z.ltb_lt]; lia.
    - apply Z.ltb_ge in Hlt.
      destruct Hv as [Hv|Hv];
        [apply Z.leb_gt in Hv; lia | apply Z.ltb_ge in Hv].
      apply andb_true_iff. split; [apply Z.leb_le | apply Z.ltb_lt]; lia. }
  assert (Hlv : forall (v : View) cc l,
             line_visible (mkView cc (top v) (lines v)) l = line_visible v l)
    by reflexivity.
  unfold run_select. rewrite Hpath, Hvfs, Hnl, Hnc. simpl.
  destruct (match selectedFile (ide w) with
            | Some s => String.eqb s p | None => false end) eqn:Hsel; simpl;
    rewrite ?String.eqb_refl; simpl; rewrite Hlv;
    destruct (line_visible (views (ide w) p) (line state)) eqn:Hv; simpl;
    rewrite ?String.eqb_refl, ?Hv; simpl; rewrite <- ?app_assoc; simpl.
  - repeat split; auto; try discriminate.
    destruct (selectedFile (ide w)) as [s|]; [|discriminate].
    apply String.eqb_eq in Hsel. congruence.
  - repeat split; auto; try discriminate.
    + destruct (selectedFile (ide w)) as [s|]; [|discriminate].
      apply String.eqb_eq in Hsel. congruence.
    + intros _ Hlines. rewrite Hlv, Hv. apply Hscroll; assumption.
  - repeat split; auto; try discriminate.
    intros _. destruct (mem p (openFiles (ide w))) eqn:Hm; [exact Hm|].
    unfold mem. rewrite existsb_app. simpl. rewrite String.eqb_refl.
    rewrite orb_true_r. reflexivity.
  - repeat split; auto; try discriminate.
    + intros _. destruct (mem p (openFiles (ide w))) eqn:Hm; [exact Hm|].
      unfold mem. rewrite existsb_app. simpl. rewrite String.eqb_refl.
      rewrite orb_true_r. reflexivity.
    + intros _ Hlines. rewrite Hlv, Hv. apply Hscroll; assumption.
Qed.
End JetBrainsIncoming.

(** ** What every run of the extension's incoming handler guarantees *)

Section VSCodeHandlerFrame.
Import VSCode.
Context {platform : Platform}.

Ltac run_handler :=
  unfold handleSelect, handleClose, try_catch_finally, bind, setHandling,
    modify, get, ret, throw, Uri_file, openTextDocument, showTextDocument,
    Position, set_selection, revealRange, showErrorMessage, record, bind,
    modify, get, ret, throw.

(** Calls that were all made while the echo guard was set. *)
Lemma vs_handleSelect_frame state w :
  let r := handleSelect state w in
  fst r = Normal tt
  /\ sent (snd r) = sent w
  /\ isHandlingExternalUpdate (sync (snd r)) = false
  /\ exists added,
      calls (window (snd r)) = (calls (window w) ++ added)%list
      /\ Forall (fun call => snd call = true) added
      /\ (forall p, Wire.filePath state = Some p ->
          exists rest, added = (OpenTextDocument (file_fsPath p), true) :: rest).
Proof.
  run_handler.
  destruct (Wire.filePath state) as [path|]; simpl.
  2:{ repeat (split; [reflexivity|]). exists []. rewrite app_nil_r.
      repeat (split; [auto|]). discriminate. }
  assert (Hp : forall rest q, Some path = Some q ->
               exists rest', (OpenTextDocument (file_fsPath path), true) :: rest
                             = (OpenTextDocument (file_fsPath q), true) :: rest').
  { intros rest q Hq. injection Hq as <-. eexists. reflexivity. }
  revert Hp. generalize (file_fsPath path) as p. intros p Hp.
  destruct (mem p (textDocuments (window w))) eqn:Hd;
    [| destruct (mem p (disk (window w))) eqn:Hf]; simpl.
  3:{ repeat (split; [reflexivity|]). eexists.
      split; [reflexivity|]. split; [repeat constructor | apply Hp]. }
  all: destruct (Wire.line state) as [l|], (Wire.column state) as [c|]; simpl;
    try destruct (l <? 0); try destruct (c <? 0); simpl;
    repeat (split; [reflexivity|]); rewrite <- ?app_assoc; simpl;
    eexists; (split; [reflexivity|]); (split; [repeat constructor | apply Hp]).
Qed.

Lemma vs_handleClose_no_path state w :
  Wire.filePath state = None ->
  handleClose state w =
  (Normal FellThrough, with_sync (set_isHandlingExternalUpdate false) w).
Proof.
  intro Hp. run_handler. rewrite Hp. reflexivity.
Qed.

Lemma vs_handleClose_frame state w :
  let r := handleClose state w in
  sent (snd r) = sent w
  /\ isHandlingExternalUpdate (sync (snd r)) = false
  /\ errorMessages (window (snd r)) = errorMessages (window w)
  /\ exists added,
      calls (window (snd r)) = (calls (window w) ++ added)%list
      /\ Forall (fun call => snd call = true) added.
Proof.
  destruct (Wire.filePath state) as [p|] eqn:Hp.
  - rewrite (vs_handleClose w state p Hp). simpl.
    destruct (find_editorToClose (file_fsPath p) (window w)) as [doc|].
    + destruct (first_matching_tab doc 0 (tabGroups (window w))) as [[j tab]|];
        simpl; repeat (split; [reflexivity|]).
      * eexists. split; [reflexivity | repeat constructor].
      * exists []. rewrite app_nil_r. split; [reflexivity | constructor].
    + simpl. repeat (split; [reflexivity|]).
      exists []. rewrite app_nil_r. split; [reflexivity | constructor].
  - rewrite (vs_handleClose_no_path state w Hp). simpl.
    repeat (split; [reflexivity|]).
    exists []. rewrite app_nil_r. split; [reflexivity | constructor].
Qed.

(** Every run of [handleIncomingState] completes, sends nothing, makes its
    editor-control calls with the echo guard set, and leaves the guard
    cleared if it was cleared before. *)
Lemma vs_handleIncomingState_frame state w :
  let r := handleIncomingState state w in
  fst r = Normal tt
  /\ sent (snd r) = sent w
  /\ (isHandlingExternalUpdate (sync w) = false ->
      isHandlingExternalUpdate (sync (snd r)) = false)
  /\ exists added,
      calls (window (snd r)) = (calls (window w) ++ added)%list
      /\ Forall (fun call => snd call = true) added.
Proof.
  assert (Hnone : forall w0 : World,
             exists added : list (Call * bool),
               calls (window w0) = (calls (window w0) ++ added)%list
               /\ Forall (fun call => snd call = true) added).
  { intro w0. exists []. rewrite app_nil_r. split; [reflexivity | constructor]. }
  unfold handleIncomingState.
  destruct (Wire.member_is (Wire.source state) "vscode"); simpl.
  { split; [reflexivity|]. split; [reflexivity|]. split; [auto|]. apply Hnone. }
  assert (Hsel : forall w1 : World,
             sent w1 = sent w ->
             (isHandlingExternalUpdate (sync w) = false ->
              isHandlingExternalUpdate (sync w1) = false) ->
             (exists added, calls (window w1) = (calls (window w) ++ added)%list
                            /\ Forall (fun call => snd call = true) added) ->
             let r := (if negb (Wire.truthy (Wire.isActive state)) then ret tt
                       else handleSelect state) w1 in
             fst r = Normal tt
             /\ sent (snd r) = sent w
             /\ (isHandlingExternalUpdate (sync w) = false ->
                 isHandlingExternalUpdate (sync (snd r)) = false)
             /\ exists added,
                 calls (window (snd r)) = (calls (window w) ++ added)%list
                 /\ Forall (fun call => snd call = true) added).
  { intros w1 Hs Hg (added & Hc & Hall).
    destruct (negb (Wire.truthy (Wire.isActive state))); simpl.
    - split; [reflexivity|]. split; [exact Hs|]. split; [exact Hg|].
      exists added. auto.
    - destruct (vs_handleSelect_frame state w1) as (Hn & Hs' & Hg' & more & Hc' & Hall' & _).
      split; [exact Hn|]. split; [congruence|]. split; [auto|].
      exists (added ++ more)%list. split.
      + rewrite Hc', Hc, app_assoc. reflexivity.
      + apply Forall_app. auto. }
  destruct (Wire.member_is (Wire.action state) "close").
  - unfold bind.
    destruct (vs_handleClose_frame state w) as (Hs & Hg & _ & Hcalls).
    destruct (handleClose state w) as [[[]|err] w1] eqn:Hclose; simpl in *.
    + split; [reflexivity|]. split; [exact Hs|]. split; [intros _; exact Hg|].
      exact Hcalls.
    + apply Hsel; auto.
    + exfalso. destruct (Wire.filePath state) as [p|] eqn:Hp.
      * rewrite (vs_handleClose w state p Hp) in Hclose. discriminate.
      * rewrite (vs_handleClose_no_path state w Hp) in Hclose. discriminate.
  - unfold bind. simpl. apply Hsel; auto.
Qed.
End VSCodeHandlerFrame.


(** ** Claims about the incoming filter *)

(** C4: a message whose [source] is the receiving peer's own role is
    discarded: the extension's and the plugin's whole state (session
    fields, editor, queue of pending blocks, frames sent) is unchanged. *)
Theorem C4_self_echo_discarded {platform : VSCode.Platform} :
  (forall (w : VSCode.World) (m : Wire.Object),
      Wire.source m = Some "vscode" ->
      VSCode.onMessage (Wire.Json m) w = w)
  /\
  (forall (w : JetBrains.World) (m : Wire.Object),
      Wire.source m = Some "jetbrains" ->
      JetBrains.onMessage (Wire.Json m) w = w).
Proof.
  split; intros w m Hsrc.
  - simpl. rewrite (vs_self_echo w m Hsrc). reflexivity.
  - unfold JetBrains.onMessage.
    destruct (JetBrains.fromJson (Wire.Json m)) as [state|] eqn:Hdec; [|reflexivity].
    simpl in Hdec.
    destruct (_ && _) in Hdec; [|discriminate].
    injection Hdec as <-. simpl. rewrite Hsrc. reflexivity.
Qed.

Section Example_C4.
#[local] Existing Instance Scenario.posix.

Lemma C4_self_echo_discarded_witness :
  VSCode.onMessage (Wire.Json (Scenario.select_x "vscode" true))
                   (Scenario.vs_connected false)
  = Scenario.vs_connected false
  /\ JetBrains.onMessage (Wire.Json (Scenario.select_x "jetbrains" true))
                         Scenario.jb_connected
     = Scenario.jb_connected.
Proof.
  split.
  - apply (proj1 C4_self_echo_discarded). reflexivity.
  - apply (proj2 C4_self_echo_discarded). reflexivity.
Defined.
End Example_C4.

(** C1: a [select] message of the remote peer is applied exactly when it
    says [isActive = true].  Applied: the extension makes editor-control
    calls (and, for a readable file and a position with non-negative
    coordinates, ends with the file open and active and the caret at
    [(line, column)]); the plugin queues the block that opens the file and
    moves the caret.  Not applied: the whole state is unchanged.  In both
    cases nothing is sent. *)
Theorem C1_select_requires_remote_activation {platform : VSCode.Platform} :
  forall (p : string) (l c : Z) (src : string) (active : bool),
    let m := Wire.mkObject (Some p) (Some l) (Some c) (Some src)
                           (Some active) (Some "select") in
    (src <> "vscode" ->
     forall w : VSCode.World,
       let w' := VSCode.onMessage (Wire.Json m) w in
       (VSCode.calls (VSCode.window w') <> VSCode.calls (VSCode.window w)
        <-> active = true)
       /\ (active = false -> w' = w)
       /\ VSCode.sent w' = VSCode.sent w
       /\ (active = true ->
           let file := VSCode.file_fsPath p in
           VSCode.mem file (VSCode.textDocuments (VSCode.window w))
           || VSCode.mem file (VSCode.disk (VSCode.window w)) = true ->
           0 <= l -> 0 <= c ->
           VSCode.mem file (VSCode.textDocuments (VSCode.window w')) = true
           /\ VSCode.activeTextEditor (VSCode.window w') = Some file
           /\ VSCode.caret (VSCode.views (VSCode.window w') file) = (Some l, Some c)))
    /\
    (src <> "jetbrains" ->
     JetBrains.is_Int l = true -> JetBrains.is_Int c = true ->
     forall w : JetBrains.World,
       let state := JetBrains.mkEditorState (Some p) l c (Some src) active
                                            (Some "select") in
       let w' := JetBrains.onMessage (Wire.Json m) w in
       (JetBrains.edt w' <> JetBrains.edt w <-> active = true)
       /\ (active = false -> w' = w)
       /\ JetBrains.sent w' = JetBrains.sent w
       /\ JetBrains.ide w' = JetBrains.ide w
       /\ (active = true ->
           JetBrains.edt w' = (JetBrains.edt w ++ [JetBrains.SelectTask state])%list
           /\ forall w2 : JetBrains.World,
               JetBrains.mem p (JetBrains.vfs (JetBrains.ide w2)) = true ->
               0 <= l -> 0 <= c ->
               let w3 := JetBrains.run_task (JetBrains.SelectTask state) w2 in
               JetBrains.selectedFile (JetBrains.ide w3) = Some p
               /\ JetBrains.caret (JetBrains.views (JetBrains.ide w3) p) = (l, c)
               /\ JetBrains.sent w3 = JetBrains.sent w2)).
Proof.
  intros p l c src active m. split.
  - intros Hsrc w w'. subst w'. simpl.
    assert (Hremote : Wire.member_is (Wire.source m) "vscode" = false)
      by (apply member_is_other; exact Hsrc).
    assert (Hact : Wire.member_is (Wire.action m) "close" = false) by reflexivity.
    destruct active.
    + rewrite (vs_select_applied w m Hremote Hact eq_refl).
      destruct (vs_handleSelect_frame m w) as (_ & Hsent & _ & added & Hcalls & _ & Hfirst).
      destruct (Hfirst p eq_refl) as [rest ->].
      split; [|split; [discriminate | split; [exact Hsent|]]].
      * split; [reflexivity|]. intros _. rewrite Hcalls. apply app_cons_neq.
      * intros _ Hr Hl Hc.
        destruct (vs_handleSelect_ok w m p (VSCode.file_fsPath p) l c
                    eq_refl eq_refl eq_refl eq_refl Hr Hl Hc)
          as (_ & _ & _ & _ & Hdoc & _ & Hactive & Hcaret & _).
        auto.
    + rewrite (vs_select_discarded w m Hremote Hact eq_refl). simpl.
      split; [|split; [reflexivity | split; [reflexivity | discriminate]]].
      split; [congruence | discriminate].
  - intros Hsrc Hl Hc w state w'. subst w'.
    unfold JetBrains.onMessage. subst m.
    rewrite (jb_fromJson_complete p l c src active "select" Hl Hc). fold state.
    change (JetBrains.source state) with (Some src).
    rewrite (member_is_other src "jetbrains" Hsrc). simpl negb. cbv iota.
    assert (Hact : Wire.member_is (JetBrains.action state) "close" = false)
      by reflexivity.
    destruct active.
    + rewrite (jb_select_queued w state Hact eq_refl). simpl.
      split; [|split; [discriminate | split; [reflexivity | split; [reflexivity|]]]].
      * split; [reflexivity|]. intros _. apply app_one_neq.
      * intros _. split; [reflexivity|]. intros w2 Hvfs Hl0 Hc0.
        destruct (jb_run_select_ok w2 state p eq_refl Hvfs Hl0 Hc0)
          as (_ & Hsent & _ & Hsel & _ & Hcaret & _).
        auto.
    + rewrite (jb_select_discarded w state Hact eq_refl).
      split; [|split; [reflexivity | split; [reflexivity | split; [reflexivity | discriminate]]]].
      split; [congruence | discriminate].
Qed.

Section Example_C1.
#[local] Existing Instance Scenario.posix.

Lemma C1_select_requires_remote_activation_witness :
  let w := VSCode.onMessage (Wire.Json (Scenario.select_x "jetbrains" true))
                            (Scenario.vs_connected false) in
  VSCode.activeTextEditor (VSCode.window w) = Some Scenario.x_py
  /\ VSCode.caret (VSCode.views (VSCode.window w) Scenario.x_py) = (Some 10, Some 4)
  /\ VSCode.onMessage (Wire.Json (Scenario.select_x "jetbrains" false))
                      (Scenario.vs_connected false)
     = Scenario.vs_connected false
  /\ JetBrains.edt
       (JetBrains.onMessage (Wire.Json (Scenario.select_x "vscode" true))
                            Scenario.jb_connected)
     <> JetBrains.edt Scenario.jb_connected
  /\ JetBrains.onMessage (Wire.Json (Scenario.select_x "vscode" false))
                         Scenario.jb_connected
     = Scenario.jb_connected.
Proof.
  assert (Hvs : "jetbrains" <> "vscode") by discriminate.
  assert (Hjb : "vscode" <> "jetbrains") by discriminate.
  pose proof (proj1 (C1_select_requires_remote_activation
                       Scenario.x_py 10 4 "jetbrains" true) Hvs
                    (Scenario.vs_connected false)) as (_ & _ & _ & Happlied).
  pose proof (proj1 (C1_select_requires_remote_activation
                       Scenario.x_py 10 4 "jetbrains" false) Hvs
                    (Scenario.vs_connected false)) as (_ & Hdropped & _).
  pose proof (proj2 (C1_select_requires_remote_activation
                       Scenario.x_py 10 4 "vscode" true) Hjb eq_refl eq_refl
                    Scenario.jb_connected) as (Hqueued & _).
  pose proof (proj2 (C1_select_requires_remote_activation
                       Scenario.x_py 10 4 "vscode" false) Hjb eq_refl eq_refl
                    Scenario.jb_connected) as (_ & Hjdropped & _).
  destruct (Happlied eq_refl eq_refl) as (_ & Ha & Hc); [lia | lia |].
  exact (conj Ha (conj Hc (conj (Hdropped eq_refl)
           (conj (proj2 Hqueued eq_refl) (Hjdropped eq_refl))))).
Defined.
End Example_C1.

(** ** Which tab the [close] block closes *)

Section FirstWith.
Context {A : Type}.
Variable f : A -> bool.

Lemma first_with_find (l : list A) (x : A) : first_with f l x -> find f l = Some x.
Proof.
  intros (pre & post & -> & Hpre & Hx).
  induction Hpre as [|y ys Hy _ IH]; simpl.
  - rewrite Hx. reflexivity.
  - rewrite Hy. exact IH.
Qed.

Lemma none_with_find (l : list A) : none_with f l -> find f l = None.
Proof.
  intro H. induction H as [|y ys Hy _ IH]; simpl; [reflexivity|].
  rewrite Hy. exact IH.
Qed.
End FirstWith.

Section VSCodeClose.
Import VSCode.
Context {platform : Platform}.

Lemma vs_tab_matches_lower (doc tab : string) :
  tab_matches doc tab = true -> toLowerCase tab = toLowerCase doc.
Proof.
  unfold tab_matches. intro H. apply orb_true_iff in H. destruct H as [H|H].
  - apply String.eqb_eq in H. congruence.
  - apply String.eqb_eq in H. exact H.
Qed.

Lemma vs_editor_matches_lower (target doc : string) :
  editor_matches target doc = true -> toLowerCase doc = toLowerCase target.
Proof.
  unfold editor_matches. intro H. apply orb_true_iff in H. destruct H as [H|H].
  - apply String.eqb_eq in H. congruence.
  - apply String.eqb_eq in H. exact H.
Qed.

Lemma vs_document_matches_cases (target doc : string) :
  document_matches target doc = true ->
  toLowerCase doc = toLowerCase target \/ uri_toString doc = uri_toString target.
Proof.
  unfold document_matches. intro H.
  apply orb_true_iff in H. destruct H as [H|H].
  - apply orb_true_iff in H. destruct H as [H|H].
    + apply String.eqb_eq in H. left. congruence.
    + apply String.eqb_eq in H. right. exact H.
  - apply String.eqb_eq in H. left. exact H.
Qed.

Lemma vs_find_editorToClose_first (target : string) (e : Window) (doc : string) :
  first_with (document_matches target) (textDocuments e) doc
  \/ (none_with (document_matches target) (textDocuments e)
      /\ first_with (editor_matches target) (visibleTextEditors e) doc) ->
  find_editorToClose target e = Some doc
  /\ (toLowerCase doc = toLowerCase target \/ uri_toString doc = uri_toString target).
Proof.
  unfold find_editorToClose. intros [Hd | [Hnone He]].
  - rewrite (first_with_find _ _ _ Hd). split; [reflexivity|].
    destruct Hd as (_ & _ & _ & _ & Hm). apply vs_document_matches_cases, Hm.
  - rewrite (none_with_find _ _ Hnone). split; [apply first_with_find, He|].
    destruct He as (_ & _ & _ & _ & Hm). left. apply vs_editor_matches_lower, Hm.
Qed.

Lemma vs_find_editorToClose_none (target : string) (e : Window) :
  none_with (document_matches target) (textDocuments e) ->
  none_with (editor_matches target) (visibleTextEditors e) ->
  find_editorToClose target e = None.
Proof.
  unfold find_editorToClose. intros Hd He.
  rewrite (none_with_find _ _ Hd). apply none_with_find, He.
Qed.

Lemma vs_first_matching_tab_none (doc : string) (groups : list (list string)) :
  forall i : nat,
    Forall (none_with (tab_matches doc)) groups ->
    first_matching_tab doc i groups = None.
Proof.
  induction groups as [|g gs IH]; intros i H; simpl; [reflexivity|].
  inversion H as [|? ? Hg Hgs]; subst.
  rewrite (none_with_find _ _ Hg). apply IH, Hgs.
Qed.

Lemma vs_first_matching_tab_first (doc tab : string) (g1 g2 : list string)
      (gs2 : list (list string)) (gs1 : list (list string)) :
  forall i : nat,
    Forall (none_with (tab_matches doc)) gs1 ->
    none_with (tab_matches doc) g1 ->
    tab_matches doc tab = true ->
    first_matching_tab doc i (gs1 ++ (g1 ++ tab :: g2) :: gs2)%list
    = Some ((i + List.length gs1)%nat, tab).
Proof.
  induction gs1 as [|g gs IH]; intros i Hgs Hg1 Hm; simpl.
  - assert (Hf : first_with (tab_matches doc) (g1 ++ tab :: g2)%list tab)
      by (exists g1, g2; auto).
    rewrite (first_with_find _ _ _ Hf). rewrite Nat.add_0_r. reflexivity.
  - inversion Hgs as [|? ? Hg Hrest]; subst.
    rewrite (none_with_find _ _ Hg).
    rewrite (IH (S i) Hrest Hg1 Hm). f_equal. f_equal. lia.
Qed.

Lemma vs_remove_first_unmatched (doc tab : string) (g1 g2 : list string) :
  none_with (tab_matches doc) g1 ->
  tab_matches doc tab = true ->
  remove_first tab (g1 ++ tab :: g2)%list = (g1 ++ g2)%list.
Proof.
  intros Hg1 Hm. induction Hg1 as [|x xs Hx _ IH]; simpl.
  - rewrite String.eqb_refl. reflexivity.
  - destruct (String.eqb_spec x tab) as [->|Hne]; [congruence|].
    rewrite IH. reflexivity.
Qed.

Lemma vs_close_in_group_first (doc tab : string) (g1 g2 : list string)
      (gs1 gs2 : list (list string)) :
  none_with (tab_matches doc) g1 ->
  tab_matches doc tab = true ->
  close_in_group (List.length gs1) tab (gs1 ++ (g1 ++ tab :: g2) :: gs2)%list
  = (gs1 ++ (g1 ++ g2) :: gs2)%list.
Proof.
  intros Hg1 Hm. induction gs1 as [|g gs IH]; simpl.
  - rewrite (vs_remove_first_unmatched doc tab g1 g2 Hg1 Hm). reflexivity.
  - rewrite IH. reflexivity.
Qed.

(** What the [close] block does to the window, told by what matches the
    path of the frame. *)
Lemma vs_handleClose_outcome (state : SyncState) (w : World) (p : string) :
  Wire.filePath state = Some p ->
  let target := file_fsPath p in
  let w' := snd (handleClose state w) in
  let cleared := with_sync (set_isHandlingExternalUpdate false) w in
  sent w' = sent w
  /\ errorMessages (window w') = errorMessages (window w)
  /\ sync w' = set_isHandlingExternalUpdate false (sync w)
  /\ (none_with (document_matches target) (textDocuments (window w)) ->
      none_with (editor_matches target) (visibleTextEditors (window w)) ->
      w' = cleared)
  /\ forall doc : string,
      first_with (document_matches target) (textDocuments (window w)) doc
      \/ (none_with (document_matches target) (textDocuments (window w))
          /\ first_with (editor_matches target) (visibleTextEditors (window w)) doc) ->
      (toLowerCase doc = toLowerCase target \/ uri_toString doc = uri_toString target)
      /\ (Forall (none_with (tab_matches doc)) (tabGroups (window w)) -> w' = cleared)
      /\ forall (gs1 : list (list string)) (g1 : list string) (tab : string)
                (g2 : list string) (gs2 : list (list string)),
          tabGroups (window w) = (gs1 ++ (g1 ++ tab :: g2) :: gs2)%list ->
          Forall (none_with (tab_matches doc)) gs1 ->
          none_with (tab_matches doc) g1 ->
          tab_matches doc tab = true ->
          calls (window w')
          = (calls (window w) ++ [(TabGroupsClose tab, true)])%list
          /\ tabGroups (window w') = (gs1 ++ (g1 ++ g2) :: gs2)%list
          /\ toLowerCase tab = toLowerCase doc.
Proof.
  intros Hp target w' cleared. subst w' cleared.
  rewrite (vs_handleClose w state p Hp). fold target. simpl.
  split; [|split; [|split; [|split]]].
  - destruct (find_editorToClose target (window w)) as [doc|]; [|reflexivity].
    destruct (first_matching_tab doc 0 (tabGroups (window w))) as [[j tab]|];
      reflexivity.
  - destruct (find_editorToClose target (window w)) as [doc|]; [|reflexivity].
    destruct (first_matching_tab doc 0 (tabGroups (window w))) as [[j tab]|];
      reflexivity.
  - destruct (find_editorToClose target (window w)) as [doc|]; [|reflexivity].
    destruct (first_matching_tab doc 0 (tabGroups (window w))) as [[j tab]|];
      reflexivity.
  - intros Hd He. rewrite (vs_find_editorToClose_none target (window w) Hd He).
    reflexivity.
  - intros doc Hdoc.
    destruct (vs_find_editorToClose_first target (window w) doc Hdoc) as [Hfind Hlow].
    rewrite Hfind. split; [exact Hlow|]. split.
    + intro Hnone. rewrite (vs_first_matching_tab_none doc _ 0%nat Hnone). reflexivity.
    + intros gs1 g1 tab g2 gs2 Hgroups Hgs1 Hg1 Hm.
      rewrite Hgroups.
      rewrite (vs_first_matching_tab_first doc tab g1 g2 gs2 gs1 0%nat Hgs1 Hg1 Hm).
      simpl. rewrite Hgroups.
      rewrite (vs_close_in_group_first doc tab g1 g2 gs1 gs2 Hg1 Hm).
      split; [reflexivity|]. split; [reflexivity|].
      apply vs_tab_matches_lower, Hm.
Qed.
End VSCodeClose.

(** C2: a [close] message of the remote peer is applied whatever its
    [isActive] says.  The extension runs its close block and returns: the
    outcome is the same for both values of [isActive], nothing is sent and
    no error is shown.  With [target] the [fsPath] of [Uri.file] of the
    path: when no loaded document and no visible editor passes the test of
    the block, or the document that does has no tab that passes the tab
    test, nothing changes (only the echo guard is cleared); otherwise the
    first such tab of the first group that has one is closed, and no other.
    The plugin queues its close block for both values of [isActive]; that
    block does nothing for a path the file system does not resolve, and
    calls [closeFile] otherwise, which leaves the tabs as they are when the
    file is not open. *)
Theorem C2_close_is_unconditional {platform : VSCode.Platform} :
  forall (p : string) (l c : Z) (src : string),
    let m (active : bool) :=
      Wire.mkObject (Some p) (Some l) (Some c) (Some src) (Some active) (Some "close") in
    (src <> "vscode" ->
     forall (w : VSCode.World) (active : bool),
       let w' := VSCode.onMessage (Wire.Json (m active)) w in
       let target := VSCode.file_fsPath p in
       let docs := VSCode.textDocuments (VSCode.window w) in
       let editors := VSCode.visibleTextEditors (VSCode.window w) in
       let groups := VSCode.tabGroups (VSCode.window w) in
       let cleared := VSCode.with_sync (VSCode.set_isHandlingExternalUpdate false) w in
       VSCode.handleIncomingState (m active) w
       = (VSCode.Normal tt, snd (VSCode.handleClose (m active) w))
       /\ w' = VSCode.onMessage (Wire.Json (m (negb active))) w
       /\ VSCode.sent w' = VSCode.sent w
       /\ VSCode.errorMessages (VSCode.window w') = VSCode.errorMessages (VSCode.window w)
       /\ VSCode.isHandlingExternalUpdate (VSCode.sync w') = false
       /\ (none_with (VSCode.document_matches target) docs ->
           none_with (VSCode.editor_matches target) editors ->
           w' = cleared)
       /\ forall doc : string,
           first_with (VSCode.document_matches target) docs doc
           \/ (none_with (VSCode.document_matches target) docs
               /\ first_with (VSCode.editor_matches target) editors doc) ->
           (VSCode.toLowerCase doc = VSCode.toLowerCase target
            \/ VSCode.uri_toString doc = VSCode.uri_toString target)
           /\ (Forall (none_with (VSCode.tab_matches doc)) groups -> w' = cleared)
           /\ forall (gs1 : list (list string)) (g1 : list string) (tab : string)
                     (g2 : list string) (gs2 : list (list string)),
               groups = (gs1 ++ (g1 ++ tab :: g2) :: gs2)%list ->
               Forall (none_with (VSCode.tab_matches doc)) gs1 ->
               none_with (VSCode.tab_matches doc) g1 ->
               VSCode.tab_matches doc tab = true ->
               VSCode.calls (VSCode.window w')
               = (VSCode.calls (VSCode.window w)
                  ++ [(VSCode.TabGroupsClose tab, true)])%list
               /\ VSCode.tabGroups (VSCode.window w')
                  = (gs1 ++ (g1 ++ g2) :: gs2)%list
               /\ VSCode.toLowerCase tab = VSCode.toLowerCase doc)
    /\
    (src <> "jetbrains" ->
     JetBrains.is_Int l = true -> JetBrains.is_Int c = true ->
     forall (w : JetBrains.World) (active : bool),
       let state (a : bool) :=
         JetBrains.mkEditorState (Some p) l c (Some src) a (Some "close") in
       let w' := JetBrains.onMessage (Wire.Json (m active)) w in
       JetBrains.edt w' = (JetBrains.edt w ++ [JetBrains.CloseTask (state active)])%list
       /\ JetBrains.ide w' = JetBrains.ide w
       /\ JetBrains.sent w' = JetBrains.sent w
       /\ forall w2 : JetBrains.World,
           let w3 := JetBrains.run_task (JetBrains.CloseTask (state active)) w2 in
           w3 = JetBrains.run_task (JetBrains.CloseTask (state (negb active))) w2
           /\ JetBrains.sent w3 = JetBrains.sent w2
           /\ JetBrains.service w3 = JetBrains.service w2
           /\ (JetBrains.mem p (JetBrains.vfs (JetBrains.ide w2)) = false -> w3 = w2)
           /\ (JetBrains.mem p (JetBrains.vfs (JetBrains.ide w2)) = true ->
               JetBrains.calls (JetBrains.ide w3)
               = (JetBrains.calls (JetBrains.ide w2)
                  ++ [(JetBrains.CloseFile p,
                       JetBrains.isHandlingExternalUpdate (JetBrains.service w2))])%list
               /\ JetBrains.openFiles (JetBrains.ide w3)
                  = JetBrains.remove_first p (JetBrains.openFiles (JetBrains.ide w2)))
           /\ (JetBrains.mem p (JetBrains.openFiles (JetBrains.ide w2)) = false ->
               JetBrains.selectedFile (JetBrains.ide w2) <> Some p ->
               JetBrains.openFiles (JetBrains.ide w3) = JetBrains.openFiles (JetBrains.ide w2)
               /\ JetBrains.selectedFile (JetBrains.ide w3)
                  = JetBrains.selectedFile (JetBrains.ide w2))).
Proof.
  intros p l c src m. split.
  - intros Hsrc w active w' target docs editors groups cleared.
    subst w' target docs editors groups cleared.
    assert (Hremote : forall a, Wire.member_is (Wire.source (m a)) "vscode" = false)
      by (intro a; apply member_is_other; exact Hsrc).
    assert (Happ : forall a,
               VSCode.handleIncomingState (m a) w
               = (VSCode.Normal tt, snd (VSCode.handleClose (m a) w)))
      by (intro a; apply (vs_close_applied w (m a) (Hremote a) p); reflexivity).
    assert (Hcl : forall a,
               VSCode.handleClose (m a) w = VSCode.handleClose (m true) w).
    { intro a. rewrite (vs_handleClose w (m a) p eq_refl).
      rewrite (vs_handleClose w (m true) p eq_refl). reflexivity. }
    change (VSCode.onMessage (Wire.Json (m active)) w)
      with (snd (VSCode.handleIncomingState (m active) w)).
    change (VSCode.onMessage (Wire.Json (m (negb active))) w)
      with (snd (VSCode.handleIncomingState (m (negb active)) w)).
    rewrite !Happ. rewrite (Hcl active), (Hcl (negb active)).
    cbn [snd].
    destruct (vs_handleClose_outcome (m true) w p eq_refl)
      as (Hsent & Herr & Hsync & Hnone & Hdoc).
    split; [reflexivity|]. split; [reflexivity|].
    split; [exact Hsent|]. split; [exact Herr|].
    split; [rewrite Hsync; reflexivity|].
    split; [exact Hnone | exact Hdoc].
  - intros Hsrc Hl Hc w active state w'. subst w'.
    unfold JetBrains.onMessage. subst m. cbv beta.
    rewrite (jb_fromJson_complete p l c src active "close" Hl Hc).
    change (JetBrains.mkEditorState (Some p) l c (Some src) active (Some "close"))
      with (state active).
    change (JetBrains.source (state active)) with (Some src).
    rewrite (member_is_other src "jetbrains" Hsrc). simpl negb. cbv iota.
    rewrite (jb_close_queued w (state active) eq_refl). simpl.
    split; [reflexivity|]. split; [reflexivity|]. split; [reflexivity|].
    intros w2.
    rewrite (jb_run_close w2 (state active) p eq_refl).
    rewrite (jb_run_close w2 (state (negb active)) p eq_refl).
    split; [reflexivity|].
    destruct (JetBrains.mem p (JetBrains.vfs (JetBrains.ide w2))) eqn:Hvfs.
    + split; [reflexivity|]. split; [reflexivity|]. split; [discriminate|].
      split; [intros _; split; reflexivity|].
      intros Hm Hs.
      destruct (jb_closeFile_not_open w2 (state active) p eq_refl Hm Hs) as (Ho & Hsel & _). auto.
    + split; [reflexivity|]. split; [reflexivity|]. split; [reflexivity|].
      split; [discriminate|]. intros _ _. split; reflexivity.
Qed.

Section Example_C2.
#[local] Existing Instance Scenario.posix.

Lemma C2_close_is_unconditional_witness :
  VSCode.tabGroups
    (VSCode.window
       (VSCode.onMessage (Wire.Json (Scenario.close_x "jetbrains" false))
                         (Scenario.vs_connected true)))
  = [[]]
  /\ VSCode.tabGroups
       (VSCode.window
          (VSCode.onMessage
             (Wire.Json (Wire.mkObject (Some "X.PY") (Some 0) (Some 0) (Some "jetbrains")
                                       (Some false) (Some "close")))
             (Scenario.vs_connected true)))
     = [[]]
  /\ JetBrains.edt
       (JetBrains.onMessage (Wire.Json (Scenario.close_x "vscode" false))
                            Scenario.jb_connected)
     = [JetBrains.CloseTask
          (JetBrains.mkEditorState (Some Scenario.x_py) 0 0 (Some "vscode") false
                                   (Some "close"))].
Proof.
  assert (Hvs : "jetbrains" <> "vscode") by discriminate.
  assert (Hjb : "vscode" <> "jetbrains") by discriminate.
  pose proof (proj1 (C2_close_is_unconditional Scenario.x_py 0 0 "jetbrains") Hvs
                    (Scenario.vs_connected true) false)
    as (_ & _ & _ & _ & _ & _ & Hvsclose).
  pose proof (proj1 (C2_close_is_unconditional "X.PY" 0 0 "jetbrains") Hvs
                    (Scenario.vs_connected true) false)
    as (_ & _ & _ & _ & _ & _ & Hvsother).
  pose proof (proj2 (C2_close_is_unconditional Scenario.x_py 0 0 "vscode") Hjb
                    eq_refl eq_refl Scenario.jb_connected false) as (Hqueued & _).
  assert (Hgroups : VSCode.tabGroups (VSCode.window (Scenario.vs_connected true))
                    = ([] ++ ([] ++ Scenario.x_py :: []) :: [])%list)
    by (vm_compute; reflexivity).
  assert (Hm : VSCode.tab_matches Scenario.x_py Scenario.x_py = true)
    by (vm_compute; reflexivity).
  split; [|split].
  - assert (Hdoc : first_with (VSCode.document_matches (VSCode.file_fsPath Scenario.x_py))
                     (VSCode.textDocuments (VSCode.window (Scenario.vs_connected true)))
                     Scenario.x_py).
    { exists [], []. split; [vm_compute; reflexivity|].
      split; [constructor | vm_compute; reflexivity]. }
    destruct (Hvsclose Scenario.x_py (or_introl Hdoc)) as (_ & _ & Htab).
    destruct (Htab [] [] Scenario.x_py [] [] Hgroups (Forall_nil _) (Forall_nil _) Hm)
      as (_ & Htabs & _).
    exact Htabs.
  - assert (Hdoc : first_with (VSCode.document_matches (VSCode.file_fsPath "X.PY"))
                     (VSCode.textDocuments (VSCode.window (Scenario.vs_connected true)))
                     Scenario.x_py).
    { exists [], []. split; [vm_compute; reflexivity|].
      split; [constructor | vm_compute; reflexivity]. }
    destruct (Hvsother Scenario.x_py (or_introl Hdoc)) as (_ & _ & Htab).
    destruct (Htab [] [] Scenario.x_py [] [] Hgroups (Forall_nil _) (Forall_nil _) Hm)
      as (_ & Htabs & _).
    exact Htabs.
  - exact Hqueued.
Defined.
End Example_C2.

Lemma C3_outgoing_filter_witness :
  VSCode.sent (VSCode.updateState (Scenario.close_x "vscode" false)
                                  (Scenario.vs_connected false))
  = [Scenario.close_x "vscode" false]
  /\ VSCode.sent (VSCode.updateState (Scenario.select_x "vscode" false)
                                     (Scenario.vs_connected false))
     = []
  /\ JetBrains.sent
       (JetBrains.updateState
          (JetBrains.newEditorState Scenario.x_py 0 0 false "close")
          Scenario.jb_connected)
     = [JetBrains.toJson (JetBrains.newEditorState Scenario.x_py 0 0 false "close")]
  /\ JetBrains.sent
       (JetBrains.updateState
          (JetBrains.newEditorState Scenario.x_py 10 4 false "select")
          Scenario.jb_connected)
     = [].
Proof.
  pose proof (proj1 C3_outgoing_filter (Scenario.vs_connected false)
                    (Scenario.close_x "vscode" false) eq_refl) as (_ & Hc & _).
  pose proof (proj1 C3_outgoing_filter (Scenario.vs_connected false)
                    (Scenario.select_x "vscode" false) eq_refl) as (_ & _ & Hs).
  pose proof (proj2 C3_outgoing_filter
                    [JetBrains.Toggle; JetBrains.SocketOpen 0] Scenario.jb_ide
                    (JetBrains.newEditorState Scenario.x_py 0 0 false "close")
                    eq_refl) as (_ & Hjc & _).
  pose proof (proj2 C3_outgoing_filter
                    [JetBrains.Toggle; JetBrains.SocketOpen 0] Scenario.jb_ide
                    (JetBrains.newEditorState Scenario.x_py 10 4 false "select")
                    eq_refl) as (_ & _ & Hjs).
  exact (conj (Hc eq_refl)
           (conj (proj2 (Hs eq_refl) eq_refl)
              (conj (Hjc eq_refl) (proj2 (Hjs eq_refl) eq_refl)))).
Defined.

Lemma jb_connectWebSocket_active (w : JetBrains.World) :
  JetBrains.svcActive (JetBrains.service (JetBrains.connectWebSocket w))
  = JetBrains.svcActive (JetBrains.service w).
Proof. unfold JetBrains.connectWebSocket. break_match; reflexivity. Qed.

Lemma jb_updateState_keeps_active (state : JetBrains.EditorState) (w : JetBrains.World) :
  JetBrains.svcActive (JetBrains.service (JetBrains.updateState state w))
  = JetBrains.svcActive (JetBrains.service w).
Proof.
  unfold JetBrains.updateState.
  repeat break_match; simpl;
    first [congruence | rewrite jb_connectWebSocket_active; congruence].
Qed.

(** ** Focus changes and the last-known local state *)

Lemma vs_onDidChangeWindowState_unfold (w : VSCode.World) (cur : VSCode.SyncState)
      (focused : bool) :
  VSCode.currentState (VSCode.sync w) = Some cur ->
  VSCode.onDidChangeWindowState focused w
  = VSCode.updateState
      (Wire.mkObject (Wire.filePath cur) (Wire.line cur) (Wire.column cur)
                     (Some "vscode") (Some focused) (Wire.action cur))
      (VSCode.with_sync (VSCode.set_isActive focused) w).
Proof.
  intro H. unfold VSCode.onDidChangeWindowState. simpl. rewrite H. reflexivity.
Qed.

(** C10: [updateState] stores its argument in [currentState] first, whether
    or not the frame is then sent (no open client, or a [select] of an
    inactive extension); the next focus change re-broadcasts exactly that
    stored state, with [isActive] and [source] overwritten. *)
Theorem C10_updateState_records_unconditionally :
  forall (w : VSCode.World) (state : VSCode.SyncState),
    let w1 := VSCode.updateState state w in
    VSCode.currentState (VSCode.sync w1) = Some state
    /\ (VSCode.client_open w = false ->
        VSCode.sent w1 = VSCode.sent w)
    /\ (Wire.member_is (Wire.action state) "close" = false ->
        VSCode.isActive (VSCode.sync w) = false ->
        VSCode.sent w1 = VSCode.sent w)
    /\ forall focused : bool,
        let again :=
          Wire.mkObject (Wire.filePath state) (Wire.line state) (Wire.column state)
                        (Some "vscode") (Some focused) (Wire.action state) in
        let w2 := VSCode.onDidChangeWindowState focused w1 in
        w2 = VSCode.updateState again
               (VSCode.with_sync (VSCode.set_isActive focused) w1)
        /\ VSCode.currentState (VSCode.sync w2) = Some again
        /\ (VSCode.client_open w = true -> focused = true ->
            VSCode.sent w2 = (VSCode.sent w1 ++ [again])%list).
Proof.
  intros w state w1.
  assert (Hrec : VSCode.currentState (VSCode.sync w1) = Some state)
    by apply vs_updateState_records.
  split; [exact Hrec|]. split; [|split].
  - intro Hclosed. subst w1. rewrite vs_updateState_sent, Hclosed. reflexivity.
  - intros Hact Hinactive. subst w1.
    rewrite vs_updateState_sent, Hact, Hinactive, andb_false_r. reflexivity.
  - intros focused again w2. subst w2.
    rewrite (vs_onDidChangeWindowState_unfold w1 state focused Hrec). fold again.
    split; [reflexivity|]. split; [apply vs_updateState_records|].
    intros Hopen ->. rewrite vs_updateState_sent.
    assert (Hopen1 : VSCode.client_open
                       (VSCode.with_sync (VSCode.set_isActive true) w1) = true).
    { unfold VSCode.client_open in *. simpl.
      destruct (vs_updateState_keeps w state) as (_ & _ & _ & Hclient).
      fold w1 in Hclient. rewrite Hclient. exact Hopen. }
    rewrite Hopen1. simpl. rewrite orb_true_r. reflexivity.
Qed.

Lemma C10_updateState_records_unconditionally_witness :
  let w := Scenario.vs_connected false in
  let state := Scenario.select_x "vscode" false in
  let w1 := VSCode.updateState state w in
  VSCode.sent w1 = []
  /\ VSCode.currentState (VSCode.sync w1) = Some state
  /\ VSCode.sent (VSCode.onDidChangeWindowState true w1)
     = [Scenario.select_x "vscode" true].
Proof.
  intros w state w1.
  destruct (C10_updateState_records_unconditionally w state)
    as (Hrec & _ & Hskip & Hfocus).
  destruct (Hfocus true) as (_ & _ & Hsent).
  exact (conj (Hskip eq_refl eq_refl) (conj Hrec (Hsent eq_refl eq_refl))).
Defined.

(** C8 as the code has it.  The extension, with an open connection and a
    last-known state: a focus change stores that state with the new
    [isActive]; the stored state is sent when the extension became active,
    and when it became inactive only if it is a [close]; a [select] is then
    kept and not sent.  The plugin keeps no last state: gaining focus sends
    the selected editor's caret as an active [select], losing focus sends
    nothing. *)
Theorem C8_focus_change_rebroadcast :
  (forall (w : VSCode.World) (cur : VSCode.SyncState) (focused : bool),
      VSCode.currentState (VSCode.sync w) = Some cur ->
      VSCode.client_open w = true ->
      let state :=
        Wire.mkObject (Wire.filePath cur) (Wire.line cur) (Wire.column cur)
                      (Some "vscode") (Some focused) (Wire.action cur) in
      let w' := VSCode.onDidChangeWindowState focused w in
      VSCode.isActive (VSCode.sync w') = focused
      /\ VSCode.currentState (VSCode.sync w') = Some state
      /\ (focused = true -> VSCode.sent w' = (VSCode.sent w ++ [state])%list)
      /\ (focused = false -> Wire.action cur = Some "close" ->
          VSCode.sent w' = (VSCode.sent w ++ [state])%list)
      /\ (focused = false -> Wire.action cur <> Some "close" ->
          VSCode.sent w' = VSCode.sent w))
  /\
  (forall (evs : list JetBrains.Event) (e : JetBrains.Ide) (file : string),
      let w := JetBrains.run evs (JetBrains.init e) in
      JetBrains.client_open w = true ->
      JetBrains.selectedFile (JetBrains.ide w) = Some file ->
      let pos := JetBrains.caret (JetBrains.views (JetBrains.ide w) file) in
      let gained := JetBrains.windowGainedFocus true w in
      let lost := JetBrains.windowLostFocus w in
      JetBrains.svcActive (JetBrains.service gained) = true
      /\ JetBrains.sent gained
         = (JetBrains.sent w
            ++ [JetBrains.toJson
                  (JetBrains.newEditorState file (fst pos) (snd pos) true "select")])%list
      /\ JetBrains.svcActive (JetBrains.service lost) = false
      /\ JetBrains.sent lost = JetBrains.sent w).
Proof.
  split.
  - intros w cur focused Hcur Hopen state w'. subst w'.
    rewrite (vs_onDidChangeWindowState_unfold w cur focused Hcur). fold state.
    assert (Hopen' : VSCode.client_open
                       (VSCode.with_sync (VSCode.set_isActive focused) w) = true)
      by exact Hopen.
    destruct (vs_updateState_keeps
                (VSCode.with_sync (VSCode.set_isActive focused) w) state)
      as (_ & Hactive & _).
    split; [rewrite Hactive; reflexivity|].
    split; [apply vs_updateState_records|].
    rewrite vs_updateState_sent, Hopen'. simpl.
    split; [|split].
    + intros ->. rewrite orb_true_r. reflexivity.
    + intros -> Hclose. rewrite Hclose. reflexivity.
    + intros -> Hother. apply member_is_false in Hother. rewrite Hother. reflexivity.
  - intros evs e file w Hopen Hsel pos gained lost. subst gained lost.
    unfold JetBrains.windowGainedFocus, JetBrains.windowLostFocus, JetBrains.send_selected.
    simpl. rewrite Hsel. unfold JetBrains.updateStateFromEditor. simpl. fold pos.
    assert (Hg : JetBrains.isHandlingExternalUpdate (JetBrains.service w) = false)
      by apply jb_reachable_guard.
    split; [|split; [|split]].
    + rewrite jb_updateState_keeps_active. reflexivity.
    + rewrite jb_updateState_sent; [reflexivity | exact Hg | exact Hopen].
    + rewrite jb_updateState_keeps_active. reflexivity.
    + rewrite jb_updateState_sent; [reflexivity | exact Hg | exact Hopen].
Qed.

Lemma C8_focus_change_rebroadcast_witness :
  VSCode.sent (VSCode.onDidChangeWindowState true Scenario.vs_editing)
  = (VSCode.sent Scenario.vs_editing ++ [Scenario.select_x "vscode" true])%list
  /\ VSCode.sent (VSCode.onDidChangeWindowState false Scenario.vs_editing)
     = VSCode.sent Scenario.vs_editing
  /\ JetBrains.sent (JetBrains.windowLostFocus Scenario.jb_editing)
     = JetBrains.sent Scenario.jb_editing.
Proof.
  assert (Hother : Wire.action (Scenario.select_x "vscode" true) <> Some "close")
    by discriminate.
  pose proof (proj1 C8_focus_change_rebroadcast Scenario.vs_editing
                    (Scenario.select_x "vscode" true) true eq_refl eq_refl)
    as (_ & _ & Hgain & _).
  pose proof (proj1 C8_focus_change_rebroadcast Scenario.vs_editing
                    (Scenario.select_x "vscode" true) false eq_refl eq_refl)
    as (_ & _ & _ & _ & Hloss).
  pose proof (proj2 C8_focus_change_rebroadcast
                    [JetBrains.GainedFocus true; JetBrains.Toggle; JetBrains.SocketOpen 0]
                    Scenario.jb_ide Scenario.x_py eq_refl eq_refl)
    as (_ & _ & _ & Hjb).
  exact (conj (Hgain eq_refl) (conj (Hloss eq_refl Hother) Hjb)).
Defined.

Section Example_C8.
#[local] Existing Instance Scenario.posix.

(** C8 as the specification states it fails: the focused extension has a
    last-known state (a [select]) and an open connection, the window loses
    focus, and nothing is sent; likewise for the plugin. *)
Lemma C8_not_resent_on_focus_loss :
  VSCode.currentState (VSCode.sync Scenario.vs_editing)
  = Some (Scenario.select_x "vscode" true)
  /\ VSCode.isActive (VSCode.sync Scenario.vs_editing) = true
  /\ VSCode.client_open Scenario.vs_editing = true
  /\ VSCode.isActive
       (VSCode.sync (VSCode.step (VSCode.WindowState false) Scenario.vs_editing))
     = false
  /\ VSCode.sent (VSCode.step (VSCode.WindowState false) Scenario.vs_editing)
     = VSCode.sent Scenario.vs_editing
  /\ JetBrains.svcActive (JetBrains.service Scenario.jb_editing) = true
  /\ JetBrains.client_open Scenario.jb_editing = true
  /\ JetBrains.sent (JetBrains.step JetBrains.LostFocus Scenario.jb_editing)
     = JetBrains.sent Scenario.jb_editing.
Proof. repeat match goal with |- _ /\ _ => split end; vm_compute; reflexivity. Qed.
End Example_C8.

(** ** The enable/disable toggle *)

(** C9 as the code has it: the toggle negates the enabled flag, so a second
    toggle restores the flag the first one changed.  Switching off ends in
    Disabled: not connected, and neither server nor socket is held any
    more; the extension has called [close] on its server and on its client
    socket, if it had them, the plugin has called [close] on its socket
    only if that socket was open, so a socket that was still connecting is
    dropped without being closed.  Switching on ends in Connecting (the
    extension listens again and shows the waiting icon, the plugin has a
    fresh socket that is not open yet and is marked reconnecting) and
    closes nothing. *)
Theorem C9_toggle_flips_enabled :
  (forall w : VSCode.World,
      let w1 := VSCode.toggleAutoReconnect w in
      let w2 := VSCode.toggleAutoReconnect w1 in
      VSCode.autoReconnect (VSCode.sync w1) = negb (VSCode.autoReconnect (VSCode.sync w))
      /\ VSCode.autoReconnect (VSCode.sync w2) = VSCode.autoReconnect (VSCode.sync w)
      /\ (VSCode.autoReconnect (VSCode.sync w) = true ->
          VSCode.isConnected (VSCode.sync w1) = false
          /\ VSCode.jetbrainsClient (VSCode.sync w1) = None
          /\ VSCode.wss (VSCode.sync w1) = None
          /\ VSCode.statusBarItem (VSCode.sync w1) = VSCode.sync_ignored
          /\ VSCode.closedSockets w1
             = (VSCode.closedSockets w
                ++ match VSCode.jetbrainsClient (VSCode.sync w) with
                   | Some client => [VSCode.wsId client]
                   | None => []
                   end)%list
          /\ VSCode.closedServers w1
             = (VSCode.closedServers w
                ++ match VSCode.wss (VSCode.sync w) with
                   | Some server => [VSCode.port server]
                   | None => []
                   end)%list)
      /\ (VSCode.autoReconnect (VSCode.sync w) = false ->
          VSCode.closedSockets w1 = VSCode.closedSockets w
          /\ (VSCode.wss (VSCode.sync w) = None ->
              VSCode.closedServers w1 = VSCode.closedServers w)
          /\ VSCode.wss (VSCode.sync w1) = Some (VSCode.mkServer (VSCode.configPort w))
          /\ (VSCode.isConnected (VSCode.sync w) = false ->
              VSCode.isConnected (VSCode.sync w1) = false
              /\ VSCode.statusBarItem (VSCode.sync w1) = VSCode.sync_spin)))
  /\
  (forall w : JetBrains.World,
      let w1 := JetBrains.toggleAutoReconnect w in
      let w2 := JetBrains.toggleAutoReconnect w1 in
      JetBrains.autoReconnect (JetBrains.service w1)
      = negb (JetBrains.autoReconnect (JetBrains.service w))
      /\ JetBrains.autoReconnect (JetBrains.service w2)
         = JetBrains.autoReconnect (JetBrains.service w)
      /\ (JetBrains.autoReconnect (JetBrains.service w) = true ->
          JetBrains.isConnected (JetBrains.service w1) = false
          /\ JetBrains.isReconnecting (JetBrains.service w1) = false
          /\ JetBrains.webSocket (JetBrains.service w1) = None
          /\ JetBrains.closedSockets w1
             = (JetBrains.closedSockets w
                ++ match JetBrains.webSocket (JetBrains.service w) with
                   | Some client =>
                       if JetBrains.isOpen client then [JetBrains.clientId client] else []
                   | None => []
                   end)%list)
      /\ (JetBrains.autoReconnect (JetBrains.service w) = false ->
          JetBrains.closedSockets w1 = JetBrains.closedSockets w
          /\ JetBrains.isConnected (JetBrains.service w1)
             = JetBrains.isConnected (JetBrains.service w)
          /\ JetBrains.isReconnecting (JetBrains.service w1) = true
          /\ JetBrains.webSocket (JetBrains.service w1)
             = Some (JetBrains.mkClient (JetBrains.nextClient w) false))).
Proof.
  split; intros w w1 w2; subst w2 w1.
  - unfold VSCode.toggleAutoReconnect, VSCode.setupServer, VSCode.updateStatusBarItem.
    destruct w as [[srv cl cur act icon con auto g] e port closed servers snt]. simpl.
    destruct auto; simpl.
    + destruct cl, srv; simpl; rewrite ?app_nil_r; repeat split; intros;
        try discriminate.
    + destruct cl, srv, con; simpl; repeat split; intros; try discriminate.
  - unfold JetBrains.toggleAutoReconnect, JetBrains.connectWebSocket, JetBrains.close_client.
    destruct w as [[ws act g con rec auto] e q cls nc cn sl closed snt]. simpl.
    destruct auto; simpl.
    + destruct ws as [[id [|]]|]; simpl; rewrite ?app_nil_r; repeat split; intros;
        try discriminate.
    + destruct ws as [[id [|]]|]; simpl; repeat split; intros; try discriminate.
Qed.

Lemma C9_toggle_flips_enabled_witness :
  let w := Scenario.vs_connected true in
  VSCode.statusBarItem (VSCode.sync (VSCode.toggleAutoReconnect w)) = VSCode.sync_ignored
  /\ VSCode.statusBarItem
       (VSCode.sync (VSCode.toggleAutoReconnect (VSCode.toggleAutoReconnect w)))
     = VSCode.sync_spin
  /\ JetBrains.webSocket
       (JetBrains.service (JetBrains.toggleAutoReconnect Scenario.jb_connected))
     = None
  /\ JetBrains.isReconnecting
       (JetBrains.service
          (JetBrains.toggleAutoReconnect
             (JetBrains.toggleAutoReconnect Scenario.jb_connected)))
     = true
  /\ VSCode.closedSockets (VSCode.toggleAutoReconnect w) = [1%nat]
  /\ VSCode.closedServers (VSCode.toggleAutoReconnect w) = [3000]
  /\ JetBrains.closedSockets (JetBrains.toggleAutoReconnect Scenario.jb_connected)
     = [0%nat]
  /\ JetBrains.closedSockets
       (JetBrains.toggleAutoReconnect
          (JetBrains.toggleAutoReconnect (JetBrains.init Scenario.jb_ide)))
     = [].
Proof.
  intro w.
  pose proof (proj1 C9_toggle_flips_enabled w) as (_ & _ & Hoff & _).
  pose proof (proj1 C9_toggle_flips_enabled (VSCode.toggleAutoReconnect w))
    as (_ & _ & _ & Hon).
  pose proof (proj2 C9_toggle_flips_enabled Scenario.jb_connected) as (_ & _ & Hjoff & _).
  pose proof (proj2 C9_toggle_flips_enabled
                    (JetBrains.toggleAutoReconnect Scenario.jb_connected))
    as (_ & _ & _ & Hjon).
  pose proof (proj2 C9_toggle_flips_enabled
                    (JetBrains.toggleAutoReconnect (JetBrains.init Scenario.jb_ide)))
    as (_ & _ & Hjconnecting & _).
  destruct (Hoff eq_refl) as (_ & _ & _ & Hicon & Hclosed & Hserver).
  destruct (Hon eq_refl) as (_ & _ & _ & Hspin).
  destruct (Hspin eq_refl) as (_ & Hspin').
  destruct (Hjoff eq_refl) as (_ & _ & Hnone & Hjclosed).
  destruct (Hjon eq_refl) as (_ & _ & Hrec & _).
  destruct (Hjconnecting eq_refl) as (_ & _ & _ & Hdropped).
  exact (conj Hicon (conj Hspin' (conj Hnone (conj Hrec
           (conj Hclosed (conj Hserver (conj Hjclosed Hdropped))))))).
Defined.

(** C9 as the specification states it fails: from the state right after
    start-up, toggling twice leaves sync disabled, toggling once leaves it
    enabled. *)
Lemma C9_toggle_not_idempotent :
  let w := VSCode.init Scenario.vs_window true 3000 in
  let j := JetBrains.init Scenario.jb_ide in
  VSCode.autoReconnect (VSCode.sync (VSCode.toggleAutoReconnect w)) = true
  /\ VSCode.autoReconnect
       (VSCode.sync (VSCode.toggleAutoReconnect (VSCode.toggleAutoReconnect w)))
     = false
  /\ VSCode.toggleAutoReconnect (VSCode.toggleAutoReconnect w)
     <> VSCode.toggleAutoReconnect w
  /\ JetBrains.autoReconnect (JetBrains.service (JetBrains.toggleAutoReconnect j)) = true
  /\ JetBrains.autoReconnect
       (JetBrains.service (JetBrains.toggleAutoReconnect (JetBrains.toggleAutoReconnect j)))
     = false
  /\ JetBrains.toggleAutoReconnect (JetBrains.toggleAutoReconnect j)
     <> JetBrains.toggleAutoReconnect j.
Proof.
  intros w j.
  split; [reflexivity|]. split; [reflexivity|]. split.
  - intro H. apply (f_equal (fun x => VSCode.autoReconnect (VSCode.sync x))) in H.
    discriminate H.
  - split; [reflexivity|]. split; [reflexivity|].
    intro H.
    apply (f_equal (fun x => JetBrains.autoReconnect (JetBrains.service x))) in H.
    discriminate H.
Qed.

(** ** Decoding *)

Section VSCodeErrors.
Import VSCode.
Context {platform : Platform}.

Ltac run_select_block :=
  unfold handleSelect, try_catch_finally, bind, setHandling,
    modify, get, ret, throw, Uri_file, openTextDocument, showTextDocument,
    Position, set_selection, revealRange, showErrorMessage, record, bind,
    modify, get, ret, throw.

(** The only message [handleIncomingState] ever shows. *)
Lemma vs_handleSelect_errors state w :
  exists added : list string,
    errorMessages (window (snd (handleSelect state w)))
    = (errorMessages (window w) ++ added)%list
    /\ Forall (fun msg => msg = ("Failed to open file: "
                                 ++ template (Wire.filePath state))%string) added.
Proof.
  run_select_block.
  destruct (Wire.filePath state) as [path|]; simpl.
  2:{ eexists. split; [reflexivity | repeat constructor]. }
  generalize (file_fsPath path) as p. intro p.
  destruct (mem p (textDocuments (window w)));
    [| destruct (mem p (disk (window w)))]; simpl.
  3:{ eexists. split; [reflexivity | repeat constructor]. }
  all: destruct (Wire.line state) as [l|], (Wire.column state) as [c|]; simpl;
    try destruct (l <? 0); try destruct (c <? 0); simpl;
    first [ exists []; rewrite app_nil_r; split; [reflexivity | constructor]
          | eexists; split; [reflexivity | repeat constructor] ].
Qed.

Lemma vs_handleIncomingState_errors state w :
  exists added : list string,
    errorMessages (window (snd (handleIncomingState state w)))
    = (errorMessages (window w) ++ added)%list
    /\ Forall (fun msg => msg = ("Failed to open file: "
                                 ++ template (Wire.filePath state))%string) added.
Proof.
  assert (Hnone : forall w1 : World,
             errorMessages (window w1) = errorMessages (window w) ->
             exists added : list string,
               errorMessages (window w1) = (errorMessages (window w) ++ added)%list
               /\ Forall (fun msg => msg = ("Failed to open file: "
                                            ++ template (Wire.filePath state))%string)
                         added).
  { intros w1 H. exists []. rewrite app_nil_r. split; [exact H | constructor]. }
  assert (Hsel : forall w1 : World,
             errorMessages (window w1) = errorMessages (window w) ->
             exists added : list string,
               errorMessages
                 (window (snd ((if negb (Wire.truthy (Wire.isActive state)) then ret tt
                                else handleSelect state) w1)))
               = (errorMessages (window w) ++ added)%list
               /\ Forall (fun msg => msg = ("Failed to open file: "
                                            ++ template (Wire.filePath state))%string)
                         added).
  { intros w1 H. destruct (negb _); simpl; [apply Hnone, H|].
    destruct (vs_handleSelect_errors state w1) as (added & Ha & Hall).
    exists added. rewrite Ha, H. auto. }
  unfold handleIncomingState.
  destruct (Wire.member_is (Wire.source state) "vscode"); simpl.
  { apply Hnone. reflexivity. }
  unfold bind.
  destruct (Wire.member_is (Wire.action state) "close").
  - destruct (vs_handleClose_frame state w) as (_ & _ & Herr & _).
    destruct (handleClose state w) as [[[]|err] w1]; simpl in *.
    + apply Hnone, Herr.
    + apply Hsel, Herr.
    + apply Hnone, Herr.
  - simpl. apply Hsel. reflexivity.
Qed.
End VSCodeErrors.

(** C7 as the code has it.  The extension refuses exactly the text that is
    not JSON: it shows [Error handling sync message] and nothing else
    changes, while for a parsed object the only message it can show is the
    [Failed to open file] of the [select] block.  The plugin refuses text
    that is not JSON and, besides, an object whose [line] or [column] is no
    32-bit integer; a refused frame changes nothing.  No member is
    required: Gson fills an absent member with the JVM default ([null]
    path or action, line 0, column 0), the extension handles an object
    without [action] like a [select].  An absent [source] is handled like
    the other peer's, an absent [isActive] like [false]. *)
Theorem C7_decoding_requires_no_member {platform : VSCode.Platform} :
  (forall (data : Wire.Frame) (w : VSCode.World),
      let w' := VSCode.onMessage data w in
      let refused :=
        VSCode.errorMessages (VSCode.window w')
        = (VSCode.errorMessages (VSCode.window w)
           ++ ["Error handling sync message"])%list in
      (refused <-> data = Wire.NotJson)
      /\ (data = Wire.NotJson ->
          w' = VSCode.with_window
                 (VSCode.push_errorMessage "Error handling sync message") w)
      /\ (forall o : Wire.Object,
             data = Wire.Json o ->
             exists added : list string,
               VSCode.errorMessages (VSCode.window w')
               = (VSCode.errorMessages (VSCode.window w) ++ added)%list
               /\ Forall (fun msg =>
                            msg = ("Failed to open file: "
                                   ++ VSCode.template (Wire.filePath o))%string)
                         added))
  /\ (forall message : Wire.Frame,
         (JetBrains.fromJson message = None
          <-> message = Wire.NotJson
              \/ exists o : Wire.Object,
                  message = Wire.Json o
                  /\ JetBrains.is_Int (match Wire.line o with Some z => z | None => 0 end)
                     && JetBrains.is_Int (match Wire.column o with Some z => z | None => 0 end)
                     = false)
         /\ forall w : JetBrains.World,
             JetBrains.fromJson message = None -> JetBrains.onMessage message w = w)
  /\ (forall o : Wire.Object,
         let l := match Wire.line o with Some z => z | None => 0 end in
         let c := match Wire.column o with Some z => z | None => 0 end in
         JetBrains.is_Int l = true -> JetBrains.is_Int c = true ->
         JetBrains.fromJson (Wire.Json o)
         = Some (JetBrains.mkEditorState (Wire.filePath o) l c (Wire.source o)
                   (match Wire.isActive o with Some b => b | None => false end)
                   (Wire.action o)))
  /\ (forall (o : Wire.Object) (w : VSCode.World),
         (Wire.source o = None ->
          VSCode.onMessage (Wire.Json o) w
          = VSCode.onMessage (Wire.Json (Wire.with_source (Some "jetbrains") o)) w)
         /\ (Wire.isActive o = None ->
             VSCode.onMessage (Wire.Json o) w
             = VSCode.onMessage (Wire.Json (Wire.with_isActive (Some false) o)) w)
         /\ (Wire.action o = None ->
             VSCode.onMessage (Wire.Json o) w
             = VSCode.onMessage (Wire.Json (Wire.with_action (Some "select") o)) w))
  /\ (forall (o : Wire.Object) (w : JetBrains.World),
         (Wire.source o = None ->
          forall state : JetBrains.EditorState,
            JetBrains.fromJson (Wire.Json o) = Some state ->
            JetBrains.source state = None
            /\ JetBrains.onMessage (Wire.Json o) w
               = JetBrains.handleIncomingState state w)
         /\ (Wire.isActive o = None ->
             JetBrains.onMessage (Wire.Json o) w
             = JetBrains.onMessage (Wire.Json (Wire.with_isActive (Some false) o)) w)).
Proof.
  split; [|split; [|split; [|split]]].
  - intros data w w' refused. subst w' refused.
    destruct data as [|o].
    + split; [split; reflexivity|]. split; [reflexivity|]. intros o Ho. discriminate Ho.
    + simpl VSCode.onMessage.
      destruct (vs_handleIncomingState_errors o w) as (added & Ha & Hall).
      split; [|split; [discriminate|]].
      * split; [|discriminate]. intro H. exfalso. rewrite Ha in H.
        apply app_inv_head in H. subst added.
        inversion Hall as [|? ? Hmsg _]. simpl in Hmsg. discriminate Hmsg.
      * intros o' Ho'. injection Ho' as <-. exists added. auto.
  - intro message. split; [split|].
    + destruct message as [|o]; simpl; [auto|].
      destruct (_ && _) eqn:Hint; [discriminate|].
      intros _. right. exists o. auto.
    + intros [-> | (o & -> & Hint)]; simpl; [reflexivity|].
      rewrite Hint. reflexivity.
    + intros w H. unfold JetBrains.onMessage. rewrite H. reflexivity.
  - intros o l c Hl Hc. subst l c. unfold JetBrains.fromJson.
    rewrite Hl, Hc. destruct (Wire.isActive o); reflexivity.
  - intros o w. split; [|split]; intro H; simpl.
    + unfold VSCode.handleIncomingState. simpl. rewrite H. simpl.
      unfold VSCode.handleClose, VSCode.handleSelect. reflexivity.
    + unfold VSCode.handleIncomingState. simpl. rewrite H. simpl.
      unfold VSCode.handleClose, VSCode.handleSelect. reflexivity.
    + unfold VSCode.handleIncomingState. simpl. rewrite H. simpl.
      unfold VSCode.handleSelect. reflexivity.
  - intros o w. split; intro H.
    + intros state Hdec. unfold JetBrains.onMessage. rewrite Hdec.
      unfold JetBrains.fromJson in Hdec.
      destruct (_ && _) in Hdec; [|discriminate].
      injection Hdec as <-. simpl. rewrite H. split; reflexivity.
    + unfold JetBrains.onMessage, JetBrains.fromJson. simpl.
      destruct (_ && _); [|reflexivity]. simpl. rewrite H. reflexivity.
Qed.

Section Example_C7.
#[local] Existing Instance Scenario.posix.

Lemma C7_decoding_requires_no_member_witness :
  JetBrains.fromJson (Wire.Json (Scenario.bare_close "vscode"))
  = Some (JetBrains.mkEditorState (Some Scenario.x_py) 0 0 (Some "vscode") false
                                  (Some "close"))
  /\ VSCode.onMessage
       (Wire.Json (Wire.mkObject (Some Scenario.x_py) (Some 10) (Some 4) None None
                                 (Some "select")))
       (Scenario.vs_connected false)
     = VSCode.onMessage (Wire.Json (Scenario.select_x "jetbrains" false))
                        (Scenario.vs_connected false)
  /\ JetBrains.onMessage
       (Wire.Json (Wire.mkObject (Some Scenario.x_py) (Some 2147483648) (Some 0)
                                 (Some "vscode") (Some true) (Some "select")))
       Scenario.jb_connected
     = Scenario.jb_connected.
Proof.
  destruct C7_decoding_requires_no_member as (_ & Hrefused & Hgson & Hvs & _).
  split; [|split].
  - exact (Hgson (Scenario.bare_close "vscode") eq_refl eq_refl).
  - destruct (Hvs (Wire.mkObject (Some Scenario.x_py) (Some 10) (Some 4) None None
                                 (Some "select"))
                  (Scenario.vs_connected false)) as [Hsrc _].
    destruct (Hvs (Wire.mkObject (Some Scenario.x_py) (Some 10) (Some 4)
                                 (Some "jetbrains") None (Some "select"))
                  (Scenario.vs_connected false)) as (_ & Hact & _).
    exact (eq_trans (Hsrc eq_refl) (Hact eq_refl)).
  - destruct (Hrefused
                (Wire.Json (Wire.mkObject (Some Scenario.x_py) (Some 2147483648) (Some 0)
                                          (Some "vscode") (Some true) (Some "select"))))
      as [Hiff Hdrop].
    apply Hdrop. apply (proj2 Hiff). right. eexists. split; reflexivity.
Defined.
End Example_C7.

Section Example_C7_b.
#[local] Existing Instance Scenario.posix.

(** C7 as the specification states it fails: a [close] frame without
    [line], [column] and [isActive] is not dropped, both peers apply it;
    a frame without [action] is applied as a [select]. *)
Lemma C7_frames_lacking_members_are_applied :
  Wire.lacks_required (Scenario.bare_close "jetbrains") = true
  /\ VSCode.tabGroups (VSCode.window (Scenario.vs_connected false)) = [[Scenario.x_py]]
  /\ VSCode.tabGroups
       (VSCode.window
          (VSCode.step (VSCode.Message (Wire.Json (Scenario.bare_close "jetbrains")))
                       (Scenario.vs_connected false)))
     = [[]]
  /\ JetBrains.openFiles
       (JetBrains.ide
          (JetBrains.run
             [JetBrains.SocketMessage (Wire.Json (Scenario.bare_close "vscode"));
              JetBrains.RunEdt]
             Scenario.jb_connected))
     = []
  /\ Wire.lacks_required (Scenario.no_action "jetbrains") = true
  /\ VSCode.caret
       (VSCode.views
          (VSCode.window
             (VSCode.step (VSCode.Message (Wire.Json (Scenario.no_action "jetbrains")))
                          (Scenario.vs_connected false)))
          Scenario.x_py)
     = (Some 10, Some 4)
  /\ JetBrains.caret
       (JetBrains.views
          (JetBrains.ide
             (JetBrains.run
                [JetBrains.SocketMessage (Wire.Json (Scenario.no_action "vscode"));
                 JetBrains.RunEdt]
                Scenario.jb_connected))
          Scenario.x_py)
     = (10, 4).
Proof. repeat match goal with |- _ /\ _ => split end; vm_compute; reflexivity. Qed.
End Example_C7_b.


(** ** The echo guard while an update is applied *)

Section JetBrainsCalls.
Import JetBrains.

Lemma jb_connectWebSocket_ide w : ide (connectWebSocket w) = ide w.
Proof. unfold connectWebSocket. break_match; reflexivity. Qed.

Lemma jb_updateState_ide state w : ide (updateState state w) = ide w.
Proof.
  unfold updateState.
  repeat break_match; simpl; first [reflexivity | apply jb_connectWebSocket_ide].
Qed.

Lemma jb_send_selected_ide w : ide (send_selected w) = ide w.
Proof.
  unfold send_selected, updateStateFromEditor.
  break_match; [apply jb_updateState_ide | reflexivity].
Qed.

Lemma jb_close_client_ide w : ide (close_client w) = ide w.
Proof. unfold close_client. repeat break_match; reflexivity. Qed.

Lemma jb_mark_socket_ide id b w : ide (mark_socket id b w) = ide w.
Proof. unfold mark_socket. repeat break_match; reflexivity. Qed.

Lemma jb_handleIncomingState_ide state w : ide (handleIncomingState state w) = ide w.
Proof. unfold handleIncomingState. repeat break_match; reflexivity. Qed.

(** A queued block logs each of its calls with the guard as it is when the
    block runs. *)
Lemma jb_run_task_calls t w :
  exists added,
    calls (ide (run_task t w)) = (calls (ide w) ++ added)%list
    /\ Forall (fun call => snd call = isHandlingExternalUpdate (service w)) added.
Proof.
  assert (Hnone : exists added,
             calls (ide w) = (calls (ide w) ++ added)%list
             /\ Forall (fun call => snd call = isHandlingExternalUpdate (service w)) added).
  { exists []. rewrite app_nil_r. split; [reflexivity | constructor]. }
  destruct t as [state|state|]; simpl.
  - unfold run_close. repeat break_match; try exact Hnone.
    simpl. eexists. split; [reflexivity | repeat constructor].
  - unfold run_select. repeat break_match; try exact Hnone;
      simpl; rewrite <- ?app_assoc; simpl;
      eexists; (split; [reflexivity | repeat constructor]).
  - rewrite jb_connectWebSocket_ide. exact Hnone.
Qed.

Lemma jb_step_calls ev w :
  isHandlingExternalUpdate (service w) = false ->
  exists added,
    calls (ide (step ev w)) = (calls (ide w) ++ added)%list
    /\ Forall (fun call => snd call = false) added.
Proof.
  intro Hg.
  assert (Hsame : forall w', ide w' = ide w ->
             exists added,
               calls (ide w') = (calls (ide w) ++ added)%list
               /\ Forall (fun call => snd call = false) added).
  { intros w' ->. exists []. rewrite app_nil_r. split; [reflexivity | constructor]. }
  destruct ev; simpl.
  - apply Hsame. unfold toggleAutoReconnect. break_match; simpl.
    + rewrite jb_close_client_ide. reflexivity.
    + rewrite jb_connectWebSocket_ide. reflexivity.
  - apply Hsame. unfold restartConnection. rewrite jb_connectWebSocket_ide. simpl.
    rewrite jb_close_client_ide. reflexivity.
  - apply Hsame. unfold onOpen. rewrite jb_send_selected_ide. simpl.
    rewrite jb_mark_socket_ide. reflexivity.
  - apply Hsame. unfold onClose. break_match; simpl; rewrite jb_mark_socket_ide;
      reflexivity.
  - apply Hsame. reflexivity.
  - apply Hsame. unfold onMessage. repeat break_match; try reflexivity.
    rewrite jb_handleIncomingState_ide. reflexivity.
  - apply Hsame. reflexivity.
  - apply Hsame. unfold retryElapsed. break_match; reflexivity.
  - destruct (edt w) as [|t q]; [apply Hsame; reflexivity|].
    destruct (jb_run_task_calls t (set_edt q w)) as (added & Hc & Hall).
    exists added. split; [exact Hc|]. simpl in Hall. rewrite Hg in Hall. exact Hall.
  - apply Hsame. unfold fileOpened. repeat break_match; try reflexivity.
    unfold setupCaretListener, updateStateFromEditor. simpl.
    rewrite jb_updateState_ide. reflexivity.
  - apply Hsame. unfold fileClosed.
    break_match; [reflexivity | rewrite jb_updateState_ide; reflexivity].
  - apply Hsame. unfold selectionChanged. repeat break_match; try reflexivity.
    unfold setupCaretListener, updateStateFromEditor. simpl.
    rewrite jb_updateState_ide. reflexivity.
  - apply Hsame. break_match; [|reflexivity]. unfold caretPositionChanged.
    unfold updateStateFromEditor.
    break_match; [rewrite jb_updateState_ide; reflexivity | reflexivity].
  - apply Hsame. unfold windowGainedFocus. break_match; [|reflexivity].
    rewrite jb_send_selected_ide. reflexivity.
  - apply Hsame. unfold windowLostFocus. rewrite jb_send_selected_ide. reflexivity.
  - exists []. rewrite app_nil_r. split; [reflexivity | constructor].
Qed.

(** In the plugin no editor-control call is ever made under the echo guard:
    the handler clears the flag before the block it queued runs. *)
Lemma jb_calls_never_guarded (evs : list Event) :
  forall w : World,
    isHandlingExternalUpdate (service w) = false ->
    Forall (fun call => snd call = false) (calls (ide w)) ->
    Forall (fun call => snd call = false) (calls (ide (run evs w))).
Proof.
  induction evs as [|ev evs IH]; intros w Hg Hc; simpl; [exact Hc|].
  apply IH; [apply jb_step_guard; exact Hg|].
  destruct (jb_step_calls ev w Hg) as (added & -> & Hall).
  apply Forall_app. auto.
Qed.
End JetBrainsCalls.

(** C5 at the failing input.  The plugin is connected and shows [/x.py];
    a [close] for it arrives.  When [onMessage] returns, the guard is
    already cleared and the close has not been applied: it waits in the
    queue.  The queued block then closes the file with the guard cleared,
    and the [fileClosed] notification that follows is not suppressed: the
    close is sent back to the extension. *)
Theorem C5_plugin_applies_with_guard_cleared :
  let message := Wire.Json (Scenario.close_x "vscode" false) in
  let w1 := JetBrains.step (JetBrains.SocketMessage message) Scenario.jb_connected in
  let w2 := JetBrains.step JetBrains.RunEdt w1 in
  let w3 := JetBrains.step (JetBrains.FileClosed Scenario.x_py) w2 in
  JetBrains.isHandlingExternalUpdate (JetBrains.service w1) = false
  /\ JetBrains.calls (JetBrains.ide w1) = []
  /\ JetBrains.openFiles (JetBrains.ide w1) = [Scenario.x_py]
  /\ JetBrains.edt w1
     = [JetBrains.CloseTask
          (JetBrains.mkEditorState (Some Scenario.x_py) 0 0 (Some "vscode") false
                                   (Some "close"))]
  /\ JetBrains.calls (JetBrains.ide w2) = [(JetBrains.CloseFile Scenario.x_py, false)]
  /\ JetBrains.openFiles (JetBrains.ide w2) = []
  /\ JetBrains.sent w2 = []
  /\ JetBrains.sent w3
     = [JetBrains.toJson (JetBrains.newEditorState Scenario.x_py 0 0 false "close")].
Proof.
  cbv zeta. repeat match goal with |- _ /\ _ => split end; vm_compute; reflexivity.
Qed.

Section Example_vs_close_applied_under_guard.
#[local] Existing Instance Scenario.posix.

(** The same message in the extension: the tab is closed while the guard is
    set, and the guard is cleared afterwards. *)
Lemma vs_close_applied_under_guard :
  let w1 := VSCode.step (VSCode.Message (Wire.Json (Scenario.close_x "jetbrains" false)))
                        (Scenario.vs_connected false) in
  VSCode.calls (VSCode.window w1) = [(VSCode.TabGroupsClose Scenario.x_py, true)]
  /\ VSCode.isHandlingExternalUpdate (VSCode.sync w1) = false
  /\ VSCode.step (VSCode.TabsChanged [Some Scenario.x_py])
                 (VSCode.with_sync (VSCode.set_isHandlingExternalUpdate true) w1)
     = VSCode.with_sync (VSCode.set_isHandlingExternalUpdate true) w1.
Proof.
  cbv zeta. split; [vm_compute; reflexivity|]. split; [vm_compute; reflexivity|].
  reflexivity.
Qed.
End Example_vs_close_applied_under_guard.

(** ** Scrolling *)

Section Example_C6.
#[local] Existing Instance Scenario.posix.

(** C6 at the failing input.  The extension shows lines 0 to 39 of
    [/x.py]; a [select] for line 30 arrives from the active plugin.  Line 30
    is on screen, yet [revealRange] is called with [InCenter] and the view
    scrolls from line 0 to line 10.  The plugin, for the same message, moves
    the caret and does not scroll. *)
Theorem C6_extension_scrolls_visible_position :
  let w := Scenario.vs_connected false in
  let w' := VSCode.step (VSCode.Message (Wire.Json (Scenario.select_visible "jetbrains"))) w in
  let j := JetBrains.run
             [JetBrains.SocketMessage (Wire.Json (Scenario.select_visible "vscode"));
              JetBrains.RunEdt]
             Scenario.jb_connected in
  VSCode.line_visible (VSCode.views (VSCode.window w) Scenario.x_py) 30 = true
  /\ VSCode.calls (VSCode.window w')
     = [(VSCode.OpenTextDocument Scenario.x_py, true);
        (VSCode.ShowTextDocument Scenario.x_py, true);
        (VSCode.SetSelection (Some 30) (Some 0), true);
        (VSCode.RevealRange (Some 30) (Some 0) VSCode.InCenter, true)]
  /\ VSCode.top (VSCode.views (VSCode.window w) Scenario.x_py) = 0
  /\ VSCode.top (VSCode.views (VSCode.window w') Scenario.x_py) = 10
  /\ JetBrains.calls (JetBrains.ide j) = [(JetBrains.MoveToLogicalPosition 30 0, false)]
  /\ JetBrains.top (JetBrains.views (JetBrains.ide j) Scenario.x_py) = 0.
Proof.
  cbv zeta. repeat match goal with |- _ /\ _ => split end; vm_compute; reflexivity.
Qed.
End Example_C6.


(** * Further properties of the two peers *)

(** ** The plugin's codec *)

(** X1: what [toJson] writes, [fromJson] reads back: encoding a state whose
    line and column are [Int]s and decoding the frame gives the state
    again, whichever of its nullable members are [null]. *)
Theorem X1_toJson_fromJson_round_trip :
  forall state : JetBrains.EditorState,
    JetBrains.is_Int (JetBrains.line state) = true ->
    JetBrains.is_Int (JetBrains.column state) = true ->
    JetBrains.fromJson (Wire.Json (JetBrains.toJson state)) = Some state.
Proof.
  intros [p l c src a act] Hl Hc. simpl in *. rewrite Hl, Hc. reflexivity.
Qed.

Lemma X1_toJson_fromJson_round_trip_witness :
  JetBrains.fromJson
    (Wire.Json (JetBrains.toJson (JetBrains.newEditorState Scenario.x_py 10 4 true "select")))
  = Some (JetBrains.newEditorState Scenario.x_py 10 4 true "select").
Proof.
  apply X1_toJson_fromJson_round_trip; reflexivity.
Defined.

(** X2: decoding a frame and encoding the result fills in what the frame
    left out: an absent line or column is written as 0, an absent
    [isActive] as [false]; an absent path, source or action stays absent.
    A frame that has line, column and [isActive] comes back unchanged. *)
Theorem X2_fromJson_toJson_normalises :
  forall (o : Wire.Object) (state : JetBrains.EditorState),
    JetBrains.fromJson (Wire.Json o) = Some state ->
    JetBrains.toJson state
    = Wire.mkObject (Wire.filePath o)
        (Some (match Wire.line o with Some z => z | None => 0 end))
        (Some (match Wire.column o with Some z => z | None => 0 end))
        (Wire.source o)
        (Some (match Wire.isActive o with Some b => b | None => false end))
        (Wire.action o)
    /\ (forall l c a,
           Wire.line o = Some l -> Wire.column o = Some c ->
           Wire.isActive o = Some a ->
           JetBrains.toJson state = o).
Proof.
  intros o state H. unfold JetBrains.fromJson in H.
  destruct (_ && _) in H; [|discriminate]. injection H as <-.
  split.
  - unfold JetBrains.toJson. simpl. destruct (Wire.isActive o); reflexivity.
  - intros l c a Hl Hc Ha. unfold JetBrains.toJson. simpl.
    rewrite Hl, Hc, Ha. simpl. destruct o; simpl in *. congruence.
Qed.

Lemma X2_fromJson_toJson_normalises_witness :
  JetBrains.toJson
    (JetBrains.mkEditorState (Some Scenario.x_py) 0 0 (Some "vscode") false (Some "close"))
  = Wire.mkObject (Some Scenario.x_py) (Some 0) (Some 0) (Some "vscode") (Some false)
                  (Some "close").
Proof.
  exact (proj1 (X2_fromJson_toJson_normalises (Scenario.bare_close "vscode") _ eq_refl)).
Defined.

(** ** The frames a peer sends *)

Section VSCodeSent.
Import VSCode.
Context {platform : Platform}.

Lemma vs_updateState_added state w :
  sent (updateState state w) = sent w
  \/ sent (updateState state w) = (sent w ++ [state])%list.
Proof.
  rewrite vs_updateState_sent. destruct (_ && _); auto.
Qed.

Lemma vs_updateState_client_open state w :
  client_open (updateState state w) = client_open w.
Proof.
  unfold client_open. destruct (vs_updateState_keeps w state) as (_ & _ & _ & ->).
  reflexivity.
Qed.

Lemma vs_updateState_isActive state w :
  isActive (sync (updateState state w)) = isActive (sync w).
Proof. apply (vs_updateState_keeps w state). Qed.

(** The [for (const tab of e.closed)] loop of [onDidChangeTabs]: one
    [close] frame per file tab, in the order of the tabs. *)
Lemma vs_onDidChangeTabs_loop_sent closed : forall w,
  sent (onDidChangeTabs_loop closed w)
  = (sent w ++
     if client_open w
     then map (fun p => local_state p 0 0 "close" w)
              (flat_map (fun tab => match tab with Some p => [p] | None => [] end) closed)
     else [])%list
  /\ isActive (sync (onDidChangeTabs_loop closed w)) = isActive (sync w)
  /\ client_open (onDidChangeTabs_loop closed w) = client_open w.
Proof.
  induction closed as [|[p|] rest IH]; intro w; simpl.
  - destruct (client_open w); rewrite app_nil_r; auto.
  - destruct (IH (updateState (local_state p 0 0 "close" w) w)) as (Hs & Ha & Ho).
    rewrite Hs, Ha, Ho, vs_updateState_client_open, vs_updateState_isActive.
    rewrite vs_updateState_sent.
    split; [|split; reflexivity].
    destruct (client_open w); simpl.
    + rewrite <- app_assoc. simpl. f_equal. f_equal.
      apply map_ext. intro q. unfold local_state.
      rewrite vs_updateState_isActive. reflexivity.
    + rewrite !app_nil_r. reflexivity.
  - apply IH.
Qed.

Lemma vs_step_sent_own :
  forall (ev : Event) (w : World),
  exists added : list SyncState,
    sent (step ev w) = (sent w ++ added)%list
    /\ Forall (fun m => Wire.source m = Some "vscode"
                        /\ Wire.isActive m = Some (isActive (sync (step ev w))))
              added.
Proof.
  intros ev w.
  assert (Hnone : forall w' : World, sent w' = sent w ->
             exists added : list SyncState,
               sent w' = (sent w ++ added)%list
               /\ Forall (fun m => Wire.source m = Some "vscode"
                                   /\ Wire.isActive m = Some (isActive (sync w')))
                         added).
  { intros w' ->. exists []. rewrite app_nil_r. split; [reflexivity | constructor]. }
  assert (Hone : forall (w1 : World) (state : SyncState),
             sent w1 = sent w ->
             Wire.source state = Some "vscode" ->
             Wire.isActive state = Some (isActive (sync w1)) ->
             exists added : list SyncState,
               sent (updateState state w1) = (sent w ++ added)%list
               /\ Forall (fun m => Wire.source m = Some "vscode"
                                   /\ Wire.isActive m
                                      = Some (isActive (sync (updateState state w1))))
                         added).
  { intros w1 state Hs Hsrc Hact. rewrite vs_updateState_isActive.
    destruct (vs_updateState_added state w1) as [H|H]; rewrite H, Hs.
    - exists []. rewrite app_nil_r. split; [reflexivity | constructor].
    - exists [state]. split; [reflexivity|]. repeat constructor; assumption. }
  destruct ev; simpl.
  - apply Hnone. unfold toggleAutoReconnect, updateStatusBarItem, setupServer.
    repeat break_match; reflexivity.
  - apply Hnone. unfold onConnection, updateStatusBarItem.
    repeat break_match; reflexivity.
  - apply Hnone. unfold onSocketClose, updateStatusBarItem.
    repeat break_match; reflexivity.
  - apply Hnone. reflexivity.
  - apply Hnone. reflexivity.
  - apply Hnone. unfold socketClosing. repeat break_match; reflexivity.
  - apply Hnone. destruct data as [|state]; simpl; [reflexivity|].
    apply (vs_handleIncomingState_frame state w).
  - unfold onDidChangeTabs. destruct (isHandlingExternalUpdate (sync w)).
    + apply Hnone. reflexivity.
    + destruct (vs_onDidChangeTabs_loop_sent closed w) as (Hs & Ha & _).
      eexists. split; [exact Hs|]. rewrite Ha.
      destruct (client_open w); [|constructor].
      apply Forall_map. apply Forall_forall. intros p _. split; reflexivity.
  - unfold onDidChangeActiveTextEditor. destruct editor as [[p [l c]]|].
    + destruct (negb _); [|apply Hnone; reflexivity].
      apply Hone; reflexivity.
    + apply Hnone. reflexivity.
  - unfold onDidCloseTextDocument.
    destruct (negb _); [|apply Hnone; reflexivity]. apply Hone; reflexivity.
  - unfold onDidChangeTextEditorSelection.
    destruct (_ && _); [|apply Hnone; reflexivity]. apply Hone; reflexivity.
  - unfold onDidChangeWindowState. simpl.
    destruct (currentState (sync w)) as [cur|].
    + apply Hone; reflexivity.
    + exists []. rewrite app_nil_r. split; [reflexivity | constructor].
  - apply Hnone. reflexivity.
Qed.

(** Along a run, the frames sent all name the extension. *)
Lemma vs_run_sent_own evs : forall w,
  exists added : list SyncState,
    sent (run evs w) = (sent w ++ added)%list
    /\ Forall (fun m => Wire.source m = Some "vscode") added.
Proof.
  induction evs as [|ev evs IH]; intro w; simpl.
  - exists []. rewrite app_nil_r. split; [reflexivity | constructor].
  - destruct (IH (step ev w)) as (rest & Hr & Hall).
    destruct (vs_step_sent_own ev w) as (first & Hf & Hown).
    exists (first ++ rest)%list. split.
    + rewrite Hr, Hf, app_assoc. reflexivity.
    + apply Forall_app. split; [|exact Hall].
      eapply Forall_impl; [|exact Hown]. intros m [H _]. exact H.
Qed.
End VSCodeSent.

(** X3: every frame the extension sends names the extension as its source
    and carries the activation the extension has when the handler
    returns; no handler removes or reorders frames already sent. *)
Theorem X3_extension_frames_carry_role_and_activation {platform : VSCode.Platform} :
  forall (ev : VSCode.Event) (w : VSCode.World),
  exists added : list VSCode.SyncState,
    VSCode.sent (VSCode.step ev w) = (VSCode.sent w ++ added)%list
    /\ Forall (fun m => Wire.source m = Some "vscode"
                        /\ Wire.isActive m
                           = Some (VSCode.isActive (VSCode.sync (VSCode.step ev w))))
              added.
Proof.
  intros ev w. destruct (vs_step_sent_own ev w) as (added & Hsent & Hown).
  exists added. split; assumption.
Qed.

(** X4: when tabs are closed in the extension while a client is connected,
    one [close] frame per closed file tab is sent, in the order of the
    tabs, whether or not the extension is active; tabs that show no file
    are skipped.  While the echo guard is set the notification is
    ignored. *)
Theorem X4_closed_tabs_are_all_reported :
  forall (closed : list (option string)) (w : VSCode.World),
    VSCode.client_open w = true ->
    let files :=
      flat_map (fun tab => match tab with Some p => [p] | None => [] end) closed in
    let frame (p : string) :=
      Wire.mkObject (Some p) (Some 0) (Some 0) (Some "vscode")
                    (Some (VSCode.isActive (VSCode.sync w))) (Some "close") in
    (VSCode.isHandlingExternalUpdate (VSCode.sync w) = false ->
     VSCode.sent (VSCode.onDidChangeTabs closed w)
     = (VSCode.sent w ++ map frame files)%list)
    /\ (VSCode.isHandlingExternalUpdate (VSCode.sync w) = true ->
        VSCode.onDidChangeTabs closed w = w).
Proof.
  intros closed w Hopen files frame. unfold VSCode.onDidChangeTabs. split; intros ->.
  - destruct (vs_onDidChangeTabs_loop_sent closed w) as (Hs & _).
    rewrite Hs, Hopen. reflexivity.
  - reflexivity.
Qed.

Lemma X4_closed_tabs_are_all_reported_witness :
  VSCode.sent
    (VSCode.onDidChangeTabs [Some "/a.py"; None; Some "/b.py"] (Scenario.vs_connected false))
  = [Wire.mkObject (Some "/a.py") (Some 0) (Some 0) (Some "vscode") (Some false) (Some "close");
     Wire.mkObject (Some "/b.py") (Some 0) (Some 0) (Some "vscode") (Some false) (Some "close")].
Proof.
  exact (proj1 (X4_closed_tabs_are_all_reported
                  [Some "/a.py"; None; Some "/b.py"] (Scenario.vs_connected false) eq_refl)
               eq_refl).
Defined.

Section JetBrainsSent.
Import JetBrains.

Lemma jb_connectWebSocket_sent w : sent (connectWebSocket w) = sent w.
Proof. unfold connectWebSocket. break_match; reflexivity. Qed.

Lemma jb_close_client_sent w : sent (close_client w) = sent w.
Proof. unfold close_client. repeat break_match; reflexivity. Qed.

Lemma jb_mark_socket_sent id b w : sent (mark_socket id b w) = sent w.
Proof. unfold mark_socket. repeat break_match; reflexivity. Qed.

Lemma jb_mark_socket_active id b w :
  svcActive (service (mark_socket id b w)) = svcActive (service w).
Proof. unfold mark_socket. repeat break_match; reflexivity. Qed.

Lemma jb_handleIncomingState_sent state w : sent (handleIncomingState state w) = sent w.
Proof. unfold handleIncomingState. repeat break_match; reflexivity. Qed.

Lemma jb_run_task_sent t w : sent (run_task t w) = sent w.
Proof.
  destruct t; simpl.
  - unfold run_close. repeat break_match; reflexivity.
  - unfold run_select. repeat break_match; reflexivity.
  - apply jb_connectWebSocket_sent.
Qed.

Lemma jb_updateState_added state w :
  sent (updateState state w) = sent w
  \/ sent (updateState state w) = (sent w ++ [toJson state])%list.
Proof.
  unfold updateState.
  repeat break_match; simpl; auto; left; apply jb_connectWebSocket_sent.
Qed.

Lemma jb_step_sent_own :
  forall (ev : Event) (w : World),
  exists added : list Wire.Object,
    sent (step ev w) = (sent w ++ added)%list
    /\ Forall (fun m => Wire.source m = Some "jetbrains"
                        /\ Wire.isActive m = Some (svcActive (service (step ev w))))
              added.
Proof.
  intros ev w.
  assert (Hnone : forall w' : World, sent w' = sent w ->
             exists added : list Wire.Object,
               sent w' = (sent w ++ added)%list
               /\ Forall (fun m => Wire.source m = Some "jetbrains"
                                   /\ Wire.isActive m = Some (svcActive (service w')))
                         added).
  { intros w' ->. exists []. rewrite app_nil_r. split; [reflexivity | constructor]. }
  assert (Hone : forall (w1 : World) (path : string) (l c : Z) (act : string),
             sent w1 = sent w ->
             let state := newEditorState path l c (svcActive (service w1)) act in
             exists added : list Wire.Object,
               sent (updateState state w1) = (sent w ++ added)%list
               /\ Forall (fun m => Wire.source m = Some "jetbrains"
                                   /\ Wire.isActive m
                                      = Some (svcActive (service (updateState state w1))))
                         added).
  { intros w1 path l c act Hs state. rewrite jb_updateState_keeps_active.
    destruct (jb_updateState_added state w1) as [H|H]; rewrite H, Hs.
    - exists []. rewrite app_nil_r. split; [reflexivity | constructor].
    - exists [toJson state]. split; [reflexivity|]. repeat constructor. }
  assert (Hsel : forall w1 : World, sent w1 = sent w ->
             exists added : list Wire.Object,
               sent (send_selected w1) = (sent w ++ added)%list
               /\ Forall (fun m => Wire.source m = Some "jetbrains"
                                   /\ Wire.isActive m
                                      = Some (svcActive (service (send_selected w1))))
                         added).
  { intros w1 Hs. unfold send_selected, updateStateFromEditor.
    destruct (selectedFile (ide w1)) as [file|].
    - apply Hone. exact Hs.
    - exists []. rewrite app_nil_r. split; [exact Hs | constructor]. }
  destruct ev; simpl.
  - apply Hnone. unfold toggleAutoReconnect. break_match; simpl.
    + rewrite jb_close_client_sent. reflexivity.
    + rewrite jb_connectWebSocket_sent. reflexivity.
  - apply Hnone. unfold restartConnection. rewrite jb_connectWebSocket_sent. simpl.
    rewrite jb_close_client_sent. reflexivity.
  - unfold onOpen. apply Hsel. simpl. rewrite jb_mark_socket_sent. reflexivity.
  - apply Hnone. unfold onClose. break_match; simpl; rewrite jb_mark_socket_sent;
      reflexivity.
  - apply Hnone. reflexivity.
  - apply Hnone. unfold onMessage. repeat break_match; try reflexivity.
    rewrite jb_handleIncomingState_sent. reflexivity.
  - apply Hnone. reflexivity.
  - apply Hnone. unfold retryElapsed. break_match; reflexivity.
  - destruct (edt w) as [|t q]; [apply Hnone; reflexivity|].
    apply Hnone. rewrite jb_run_task_sent. reflexivity.
  - unfold fileOpened. destruct (isHandlingExternalUpdate (service w)).
    + apply Hnone. reflexivity.
    + destruct (selectedFile (ide w)) as [it|]; [|apply Hnone; reflexivity].
      unfold setupCaretListener, updateStateFromEditor.
      destruct (Hone w file (fst (caret (views (ide w) it)))
                     (snd (caret (views (ide w) it))) "select" eq_refl)
        as (added & Hs & Hall).
      exists added. split; [exact Hs | exact Hall].
  - unfold fileClosed. destruct (isHandlingExternalUpdate (service w)).
    + apply Hnone. reflexivity.
    + apply Hone. reflexivity.
  - unfold selectionChanged. destruct newFile as [file|]; [|apply Hnone; reflexivity].
    destruct (isHandlingExternalUpdate (service w)).
    + apply Hnone. reflexivity.
    + destruct (selectedFile (ide w)) as [it|]; [|apply Hnone; reflexivity].
      unfold setupCaretListener, updateStateFromEditor.
      destruct (Hone w file (fst (caret (views (ide w) it)))
                     (snd (caret (views (ide w) it))) "select" eq_refl)
        as (added & Hs & Hall).
      exists added. split; [exact Hs | exact Hall].
  - destruct (nth_error (caretListeners w) listener) as [[editor file]|];
      [|apply Hnone; reflexivity].
    unfold caretPositionChanged. destruct (negb _); [|apply Hnone; reflexivity].
    apply Hone. reflexivity.
  - unfold windowGainedFocus. destruct showing; [|apply Hnone; reflexivity].
    apply Hsel. reflexivity.
  - unfold windowLostFocus. apply Hsel. reflexivity.
  - apply Hnone. reflexivity.
Qed.

Lemma jb_run_sent_own evs : forall w,
  exists added : list Wire.Object,
    sent (run evs w) = (sent w ++ added)%list
    /\ Forall (fun m => Wire.source m = Some "jetbrains") added.
Proof.
  induction evs as [|ev evs IH]; intro w; simpl.
  - exists []. rewrite app_nil_r. split; [reflexivity | constructor].
  - destruct (IH (step ev w)) as (rest & Hr & Hall).
    destruct (jb_step_sent_own ev w) as (first & Hf & Hown).
    exists (first ++ rest)%list. split.
    + rewrite Hr, Hf, app_assoc. reflexivity.
    + apply Forall_app. split; [|exact Hall].
      eapply Forall_impl; [|exact Hown]. intros m [H _]. exact H.
Qed.
End JetBrainsSent.

(** X5: every frame the plugin sends names the plugin as its source and
    carries the activation the plugin has when the handler returns; no
    handler removes or reorders frames already sent. *)
Theorem X5_plugin_frames_carry_role_and_activation :
  forall (ev : JetBrains.Event) (w : JetBrains.World),
  exists added : list Wire.Object,
    JetBrains.sent (JetBrains.step ev w) = (JetBrains.sent w ++ added)%list
    /\ Forall (fun m => Wire.source m = Some "jetbrains"
                        /\ Wire.isActive m
                           = Some (JetBrains.svcActive
                                     (JetBrains.service (JetBrains.step ev w))))
              added.
Proof.
  intros ev w. destruct (jb_step_sent_own ev w) as (added & Hsent & Hown).
  exists added. split; assumption.
Qed.

(** X6: a frame a peer has sent, in any run from its start, is discarded if
    it comes back to that peer: the receiving state is left exactly as it
    is. *)
Theorem X6_own_frames_are_discarded_on_return {platform : VSCode.Platform} :
  (forall (evs : list VSCode.Event) (e : VSCode.Window) (focused : bool) (port : Z)
          (m : Wire.Object) (w : VSCode.World),
      In m (VSCode.sent (VSCode.run evs (VSCode.init e focused port))) ->
      VSCode.onMessage (Wire.Json m) w = w)
  /\
  (forall (evs : list JetBrains.Event) (e : JetBrains.Ide)
          (m : Wire.Object) (w : JetBrains.World),
      In m (JetBrains.sent (JetBrains.run evs (JetBrains.init e))) ->
      JetBrains.onMessage (Wire.Json m) w = w).
Proof.
  split.
  - intros evs e focused port m w Hin.
    destruct (vs_run_sent_own evs (VSCode.init e focused port)) as (added & Hs & Hall).
    rewrite Hs in Hin. simpl in Hin.
    rewrite Forall_forall in Hall. specialize (Hall m Hin).
    simpl. rewrite (vs_self_echo w m Hall). reflexivity.
  - intros evs e m w Hin.
    destruct (jb_run_sent_own evs (JetBrains.init e)) as (added & Hs & Hall).
    rewrite Hs in Hin. simpl in Hin.
    rewrite Forall_forall in Hall. specialize (Hall m Hin).
    unfold JetBrains.onMessage.
    destruct (JetBrains.fromJson (Wire.Json m)) as [state|] eqn:Hdec; [|reflexivity].
    unfold JetBrains.fromJson in Hdec.
    destruct (_ && _) in Hdec; [|discriminate].
    injection Hdec as <-. simpl. rewrite Hall. reflexivity.
Qed.

Section Example_X6.
#[local] Existing Instance Scenario.posix.

Lemma X6_own_frames_are_discarded_on_return_witness :
  VSCode.onMessage (Wire.Json (Scenario.select_x "vscode" true)) (Scenario.vs_connected false)
  = Scenario.vs_connected false.
Proof.
  apply (proj1 X6_own_frames_are_discarded_on_return
               [VSCode.Toggle; VSCode.Connection 1 "jetbrains";
                VSCode.SelectionChanged Scenario.x_py 10 4]
               Scenario.vs_window true 3000).
  vm_compute. left. reflexivity.
Defined.
End Example_X6.

(** ** What an incoming frame can change *)

Section VSCodeSession.
Import VSCode.
Context {platform : Platform}.

Lemma vs_sync_eta (s : Sync) (b : bool) :
  isHandlingExternalUpdate s = b -> set_isHandlingExternalUpdate b s = s.
Proof. intros <-. destruct s; reflexivity. Qed.

Lemma vs_handleSelect_session state w :
  let w' := snd (handleSelect state w) in
  set_isHandlingExternalUpdate false (sync w') = set_isHandlingExternalUpdate false (sync w)
  /\ configPort w' = configPort w /\ closedSockets w' = closedSockets w.
Proof.
  unfold handleSelect, try_catch_finally, bind, setHandling,
    modify, get, ret, throw, Uri_file, openTextDocument, showTextDocument,
    Position, set_selection, revealRange, showErrorMessage, record, bind,
    modify, get, ret, throw.
  destruct (Wire.filePath state) as [path|]; simpl; [|auto].
  generalize (file_fsPath path) as p. intro p.
  destruct (mem p (textDocuments (window w)));
    [| destruct (mem p (disk (window w)))]; simpl; auto;
    destruct (Wire.line state) as [l|], (Wire.column state) as [c|]; simpl;
    try destruct (l <? 0); try destruct (c <? 0); simpl; auto.
Qed.

Lemma vs_handleClose_session state w :
  let w' := snd (handleClose state w) in
  set_isHandlingExternalUpdate false (sync w') = set_isHandlingExternalUpdate false (sync w)
  /\ configPort w' = configPort w /\ closedSockets w' = closedSockets w.
Proof.
  destruct (Wire.filePath state) as [p|] eqn:Hp.
  - rewrite (vs_handleClose w state p Hp). simpl.
    destruct (find_editorToClose (file_fsPath p) (window w)) as [doc|]; [|auto].
    destruct (first_matching_tab doc 0 (tabGroups (window w))) as [[j tab]|]; auto.
  - rewrite (vs_handleClose_no_path state w Hp). simpl. auto.
Qed.

Lemma vs_handleIncomingState_session state w :
  let w' := snd (handleIncomingState state w) in
  set_isHandlingExternalUpdate false (sync w') = set_isHandlingExternalUpdate false (sync w)
  /\ configPort w' = configPort w /\ closedSockets w' = closedSockets w.
Proof.
  unfold handleIncomingState.
  destruct (Wire.member_is (Wire.source state) "vscode"); simpl; [auto|].
  assert (Hsel : forall w1 : World,
             set_isHandlingExternalUpdate false (sync w1)
             = set_isHandlingExternalUpdate false (sync w)
             /\ configPort w1 = configPort w /\ closedSockets w1 = closedSockets w ->
             let w' := snd ((if negb (Wire.truthy (Wire.isActive state)) then ret tt
                             else handleSelect state) w1) in
             set_isHandlingExternalUpdate false (sync w')
             = set_isHandlingExternalUpdate false (sync w)
             /\ configPort w' = configPort w /\ closedSockets w' = closedSockets w).
  { intros w1 (Hs & Hp & Hc). destruct (negb _); simpl; [auto|].
    destruct (vs_handleSelect_session state w1) as (Hs' & Hp' & Hc').
    repeat split; congruence. }
  unfold bind.
  destruct (Wire.member_is (Wire.action state) "close").
  - pose proof (vs_handleClose_session state w) as Hclose.
    destruct (handleClose state w) as [[[]|err] w1]; simpl in *.
    + exact Hclose.
    + apply Hsel. exact Hclose.
    + exact Hclose.
  - simpl. apply Hsel. auto.
Qed.
End VSCodeSession.

(** X7: an incoming frame, whatever it holds, changes nothing of the
    session: from a state with the echo guard clear, the extension's fields
    (server, client, last-known local state, activation, connection flags)
    and the frames sent are as before, and in the plugin only the queue of
    blocks can grow, by at most one block. *)
Theorem X7_incoming_frames_leave_the_session_alone {platform : VSCode.Platform} :
  (forall (data : Wire.Frame) (w : VSCode.World),
      VSCode.isHandlingExternalUpdate (VSCode.sync w) = false ->
      let w' := VSCode.onMessage data w in
      VSCode.sync w' = VSCode.sync w
      /\ VSCode.sent w' = VSCode.sent w
      /\ VSCode.configPort w' = VSCode.configPort w
      /\ VSCode.closedSockets w' = VSCode.closedSockets w)
  /\
  (forall (message : Wire.Frame) (w : JetBrains.World),
      JetBrains.isHandlingExternalUpdate (JetBrains.service w) = false ->
      let w' := JetBrains.onMessage message w in
      JetBrains.service w' = JetBrains.service w
      /\ JetBrains.ide w' = JetBrains.ide w
      /\ JetBrains.sent w' = JetBrains.sent w
      /\ JetBrains.caretListeners w' = JetBrains.caretListeners w
      /\ (JetBrains.edt w' = JetBrains.edt w
          \/ exists t, JetBrains.edt w' = (JetBrains.edt w ++ [t])%list)).
Proof.
  split.
  - intros data w Hg w'. subst w'. destruct data as [|state]; simpl.
    + repeat split; reflexivity.
    + destruct (vs_handleIncomingState_session state w) as (Hs & Hp & Hc).
      destruct (vs_handleIncomingState_frame state w) as (_ & Hsent & Hg' & _).
      specialize (Hg' Hg).
      split; [|split; [exact Hsent | split; [exact Hp | exact Hc]]].
      rewrite <- (vs_sync_eta _ false Hg'), <- (vs_sync_eta (VSCode.sync w) false Hg).
      exact Hs.
  - intros message w Hg w'. subst w'. unfold JetBrains.onMessage.
    destruct (JetBrains.fromJson message) as [state|]; [|repeat split; auto].
    destruct (negb _); [|repeat split; auto].
    unfold JetBrains.handleIncomingState.
    destruct w as [[ws act g con rec auto] e q cls nc cn sl closed snt].
    simpl in Hg. subst g.
    repeat break_match; simpl; repeat split; auto; right; eexists; reflexivity.
Qed.

Section Example_X7.
#[local] Existing Instance Scenario.posix.

Lemma X7_incoming_frames_leave_the_session_alone_witness :
  VSCode.sync (VSCode.onMessage (Wire.Json (Scenario.select_x "jetbrains" true))
                                Scenario.vs_editing)
  = VSCode.sync Scenario.vs_editing
  /\ JetBrains.service
       (JetBrains.onMessage (Wire.Json (Scenario.select_x "vscode" true))
                            Scenario.jb_editing)
     = JetBrains.service Scenario.jb_editing.
Proof.
  split.
  - apply (proj1 X7_incoming_frames_leave_the_session_alone). reflexivity.
  - apply (proj2 X7_incoming_frames_leave_the_session_alone). reflexivity.
Defined.
End Example_X7.

(** ** The extension's connection state *)

Section VSCodeStatus.
Import VSCode.
Context {platform : Platform}.

Lemma vs_updateState_status state w :
  let w' := updateState state w in
  statusBarItem (sync w') = statusBarItem (sync w)
  /\ isConnected (sync w') = isConnected (sync w)
  /\ autoReconnect (sync w') = autoReconnect (sync w).
Proof.
  unfold updateState.
  destruct (client_open _); [destruct (_ || _)|]; repeat split; reflexivity.
Qed.

Lemma vs_onDidChangeTabs_loop_status closed : forall w,
  let w' := onDidChangeTabs_loop closed w in
  statusBarItem (sync w') = statusBarItem (sync w)
  /\ isConnected (sync w') = isConnected (sync w)
  /\ autoReconnect (sync w') = autoReconnect (sync w).
Proof.
  induction closed as [|[p|] rest IH]; intro w; simpl.
  - auto.
  - destruct (IH (updateState (local_state p 0 0 "close" w) w)) as (-> & -> & ->).
    apply vs_updateState_status.
  - apply IH.
Qed.

Lemma vs_step_status ev w :
  statusBarItem (sync w)
  = (if isConnected (sync w) then check
     else if negb (autoReconnect (sync w)) then sync_ignored else sync_spin) ->
  statusBarItem (sync (step ev w))
  = (if isConnected (sync (step ev w)) then check
     else if negb (autoReconnect (sync (step ev w))) then sync_ignored else sync_spin).
Proof.
  intro H.
  assert (Hkeep : forall w' : World,
             statusBarItem (sync w') = statusBarItem (sync w)
             /\ isConnected (sync w') = isConnected (sync w)
             /\ autoReconnect (sync w') = autoReconnect (sync w) ->
             statusBarItem (sync w')
             = (if isConnected (sync w') then check
                else if negb (autoReconnect (sync w')) then sync_ignored else sync_spin)).
  { intros w' (-> & -> & ->). exact H. }
  destruct ev; simpl.
  - unfold toggleAutoReconnect, updateStatusBarItem, setupServer.
    repeat break_match; reflexivity.
  - unfold onConnection, updateStatusBarItem.
    destruct (String.eqb clientType "jetbrains"); [|exact H].
    destruct (jetbrainsClient (sync w)); reflexivity.
  - unfold onSocketClose, updateStatusBarItem.
    destruct (jetbrainsClient (sync w)) as [c|]; [|exact H].
    destruct (Nat.eqb (wsId c) ws); [reflexivity | exact H].
  - reflexivity.
  - exact H.
  - unfold socketClosing.
    destruct (jetbrainsClient (sync w)) as [c|]; [|exact H].
    destruct (Nat.eqb (wsId c) ws); exact H.
  - destruct data as [|state]; simpl; [exact H|].
    apply Hkeep.
    destruct (vs_handleIncomingState_session state w) as (Hs & _).
    repeat split.
    + apply (f_equal statusBarItem) in Hs. exact Hs.
    + apply (f_equal isConnected) in Hs. exact Hs.
    + apply (f_equal autoReconnect) in Hs. exact Hs.
  - unfold onDidChangeTabs. destruct (isHandlingExternalUpdate (sync w)); [exact H|].
    apply Hkeep. apply vs_onDidChangeTabs_loop_status.
  - unfold onDidChangeActiveTextEditor. destruct editor as [[p [l c]]|]; [|exact H].
    destruct (isHandlingExternalUpdate (sync w)); simpl; [exact H|].
    apply Hkeep. apply vs_updateState_status.
  - unfold onDidCloseTextDocument.
    destruct (isHandlingExternalUpdate (sync w)); simpl; [exact H|].
    apply Hkeep. apply vs_updateState_status.
  - unfold onDidChangeTextEditorSelection.
    destruct (match activeTextEditor (window w) with
              | Some a => String.eqb a p | None => false end); simpl; [|exact H].
    destruct (isHandlingExternalUpdate (sync w)); simpl; [exact H|].
    apply Hkeep. apply vs_updateState_status.
  - unfold onDidChangeWindowState. simpl.
    destruct (currentState (sync w)) as [cur|]; [|exact H].
    apply Hkeep.
    apply (vs_updateState_status _ (with_sync (set_isActive focused) w)).
  - exact H.
Qed.
End VSCodeStatus.

(** X8: in every state the extension reaches, the status bar icon agrees
    with the connection flags: the check mark exactly while a client is
    connected, otherwise the crossed-out icon while sync is off and the
    spinner while it is on and waiting. *)
Theorem X8_status_icon_follows_connection_state {platform : VSCode.Platform} :
  forall (evs : list VSCode.Event) (e : VSCode.Window) (focused : bool) (port : Z),
    let w := VSCode.run evs (VSCode.init e focused port) in
    VSCode.statusBarItem (VSCode.sync w)
    = (if VSCode.isConnected (VSCode.sync w) then VSCode.check
       else if negb (VSCode.autoReconnect (VSCode.sync w)) then VSCode.sync_ignored
            else VSCode.sync_spin).
Proof.
  intros evs e focused port.
  assert (Hrun : forall (l : list VSCode.Event) (w0 : VSCode.World),
             VSCode.statusBarItem (VSCode.sync w0)
             = (if VSCode.isConnected (VSCode.sync w0) then VSCode.check
                else if negb (VSCode.autoReconnect (VSCode.sync w0))
                     then VSCode.sync_ignored else VSCode.sync_spin) ->
             VSCode.statusBarItem (VSCode.sync (VSCode.run l w0))
             = (if VSCode.isConnected (VSCode.sync (VSCode.run l w0)) then VSCode.check
                else if negb (VSCode.autoReconnect (VSCode.sync (VSCode.run l w0)))
                     then VSCode.sync_ignored else VSCode.sync_spin)).
  { induction l as [|ev l IH]; intros w0 H; simpl; [exact H|].
    apply IH. apply vs_step_status. exact H. }
  apply Hrun. reflexivity.
Qed.

(** X9: the extension holds one client.  A socket that names another role
    than [jetbrains] is closed at once and changes nothing else.  When a
    second plugin socket connects, the first is closed and replaced, and
    the close notification of the replaced socket, arriving afterwards,
    does not disconnect the new one. *)
Theorem X9_one_client_at_a_time {platform : VSCode.Platform} :
  forall (w : VSCode.World),
    (forall (ws : nat) (clientType : string),
        clientType <> "jetbrains" ->
        VSCode.onConnection ws clientType w = VSCode.push_closed ws w)
    /\ (forall a b : nat,
           a <> b ->
           let w2 := VSCode.run [VSCode.Connection a "jetbrains";
                                 VSCode.Connection b "jetbrains";
                                 VSCode.SocketClose a] w in
           VSCode.jetbrainsClient (VSCode.sync w2)
           = Some (VSCode.mkWebSocket b VSCode.OPEN)
           /\ VSCode.isConnected (VSCode.sync w2) = true
           /\ VSCode.statusBarItem (VSCode.sync w2) = VSCode.check
           /\ VSCode.closedSockets w2
              = (VSCode.closedSockets w
                 ++ match VSCode.jetbrainsClient (VSCode.sync w) with
                    | Some old => [VSCode.wsId old]
                    | None => []
                    end
                 ++ [a])%list).
Proof.
  intro w. split.
  - intros ws clientType H. unfold VSCode.onConnection.
    destruct (String.eqb_spec clientType "jetbrains"); [contradiction | reflexivity].
  - intros a b Hab w2. subst w2. simpl.
    unfold VSCode.onSocketClose, VSCode.onConnection, VSCode.updateStatusBarItem. simpl.
    assert (Hne : Nat.eqb b a = false) by (apply Nat.eqb_neq; congruence).
    destruct (VSCode.jetbrainsClient (VSCode.sync w)) as [old|]; simpl; rewrite Hne; simpl.
    + repeat split. rewrite <- app_assoc. reflexivity.
    + repeat split.
Qed.

Section Example_X9.
#[local] Existing Instance Scenario.posix.

Lemma X9_one_client_at_a_time_witness :
  VSCode.jetbrainsClient
    (VSCode.sync
       (VSCode.run [VSCode.Connection 1 "jetbrains"; VSCode.Connection 2 "jetbrains";
                    VSCode.SocketClose 1]
                   (VSCode.init Scenario.vs_window true 3000)))
  = Some (VSCode.mkWebSocket 2 VSCode.OPEN)
  /\ VSCode.onConnection 7 "vscode" (Scenario.vs_connected true)
     = VSCode.push_closed 7 (Scenario.vs_connected true).
Proof.
  assert (H12 : 1%nat <> 2%nat) by discriminate.
  assert (Hrole : "vscode" <> "jetbrains") by discriminate.
  split.
  - exact (proj1 (proj2 (X9_one_client_at_a_time (VSCode.init Scenario.vs_window true 3000))
                        1%nat 2%nat H12)).
  - exact (proj1 (X9_one_client_at_a_time (Scenario.vs_connected true)) 7%nat "vscode" Hrole).
Defined.
End Example_X9.

(** ** Nothing is sent without an open connection *)

Section VSCodeOffline.
Import VSCode.
Context {platform : Platform}.

Lemma vs_updateState_offline state w :
  client_open w = false ->
  sent (updateState state w) = sent w /\ client_open (updateState state w) = false.
Proof.
  intro H. rewrite vs_updateState_sent, vs_updateState_client_open, H. auto.
Qed.

Lemma vs_step_offline ev w :
  client_open w = false ->
  (forall ws, ev <> Connection ws "jetbrains") ->
  sent (step ev w) = sent w /\ client_open (step ev w) = false.
Proof.
  intros H Hev. destruct ev; simpl.
  - unfold toggleAutoReconnect, updateStatusBarItem, setupServer, client_open in *.
    destruct w as [[srv cl cur act icon con auto g] e port closed servers snt]. simpl in *.
    destruct auto, cl, srv; simpl; auto.
  - unfold onConnection. destruct (String.eqb_spec clientType "jetbrains") as [->|Hne].
    + exfalso. apply (Hev ws). reflexivity.
    + auto.
  - unfold onSocketClose, updateStatusBarItem, client_open in *.
    destruct w as [[srv cl cur act icon con auto g] e port closed servers snt]. simpl in *.
    destruct cl as [c|]; [|auto].
    destruct (Nat.eqb (wsId c) ws); simpl; auto.
  - split; [reflexivity | exact H].
  - split; [reflexivity | exact H].
  - unfold socketClosing, client_open in *.
    destruct (jetbrainsClient (sync w)) as [c|] eqn:Hc; [|rewrite Hc; auto].
    destruct (Nat.eqb (wsId c) ws); simpl; [auto | rewrite Hc; auto].
  - destruct data as [|state]; simpl; [auto|].
    destruct (vs_handleIncomingState_frame state w) as (_ & Hs & _).
    destruct (vs_handleIncomingState_session state w) as (Hsync & _).
    split; [exact Hs|]. unfold client_open in *.
    apply (f_equal jetbrainsClient) in Hsync. simpl in Hsync. rewrite Hsync. exact H.
  - unfold onDidChangeTabs. destruct (isHandlingExternalUpdate (sync w)); [auto|].
    destruct (vs_onDidChangeTabs_loop_sent closed w) as (Hs & _ & Ho).
    rewrite Hs, Ho, H, app_nil_r. auto.
  - unfold onDidChangeActiveTextEditor. destruct editor as [[p [l c]]|]; [|auto].
    destruct (isHandlingExternalUpdate (sync w)); simpl; [auto|].
    apply vs_updateState_offline, H.
  - unfold onDidCloseTextDocument.
    destruct (isHandlingExternalUpdate (sync w)); simpl; [auto|].
    apply vs_updateState_offline, H.
  - unfold onDidChangeTextEditorSelection.
    destruct (match activeTextEditor (window w) with
              | Some a => String.eqb a p | None => false end); simpl; [|auto].
    destruct (isHandlingExternalUpdate (sync w)); simpl; [auto|].
    apply vs_updateState_offline, H.
  - unfold onDidChangeWindowState. simpl.
    destruct (currentState (sync w)) as [cur|]; [|auto].
    apply (vs_updateState_offline _ (with_sync (set_isActive focused) w)). exact H.
  - split; [reflexivity | exact H].
Qed.
End VSCodeOffline.

Section JetBrainsOffline.
Import JetBrains.

Lemma jb_connectWebSocket_offline w :
  client_open w = false -> client_open (connectWebSocket w) = false.
Proof.
  unfold connectWebSocket, client_open.
  destruct w as [[ws act g con rec auto] e q cls nc cn sl closed snt]. simpl.
  intro H. destruct auto; simpl; auto.
Qed.

Lemma jb_updateState_offline state w :
  client_open w = false ->
  sent (updateState state w) = sent w /\ client_open (updateState state w) = false.
Proof.
  intro H. unfold updateState.
  destruct (isHandlingExternalUpdate (service w)); [auto|].
  unfold client_open in H.
  destruct (webSocket (service w)) as [client|] eqn:Hws.
  - rewrite H. destruct (negb (isReconnecting (service w))).
    + rewrite jb_connectWebSocket_sent. split; [reflexivity|].
      apply jb_connectWebSocket_offline. unfold client_open. rewrite Hws. exact H.
    + split; [reflexivity|]. unfold client_open. rewrite Hws. exact H.
  - rewrite jb_connectWebSocket_sent. split; [reflexivity|].
    apply jb_connectWebSocket_offline. unfold client_open. rewrite Hws. reflexivity.
Qed.

Lemma jb_send_selected_offline w :
  client_open w = false ->
  sent (send_selected w) = sent w /\ client_open (send_selected w) = false.
Proof.
  intro H. unfold send_selected, updateStateFromEditor.
  destruct (selectedFile (ide w)); [apply jb_updateState_offline, H | auto].
Qed.

Lemma jb_step_offline ev w :
  client_open w = false ->
  (forall id, ev <> SocketOpen id) ->
  sent (step ev w) = sent w /\ client_open (step ev w) = false.
Proof.
  intros H Hev. destruct ev; simpl.
  - unfold toggleAutoReconnect, connectWebSocket, close_client, client_open in *.
    destruct w as [[ws act g con rec auto] e q cls nc cn sl closed snt]. simpl in *.
    destruct auto, ws as [[id [|]]|]; simpl in *; try discriminate; auto.
  - unfold restartConnection, connectWebSocket, close_client, client_open in *.
    destruct w as [[ws act g con rec auto] e q cls nc cn sl closed snt]. simpl in *.
    destruct auto, ws as [[id [|]]|]; simpl in *; try discriminate; auto.
  - exfalso. apply (Hev id). reflexivity.
  - unfold onClose, mark_socket, client_open in *.
    destruct w as [[ws act g con rec auto] e q cls nc cn sl closed snt]. simpl in *.
    destruct ws as [[cid op]|]; simpl in *.
    + destruct (Nat.eqb cid id); simpl; destruct (negb rec && auto); simpl; auto.
    + destruct (negb rec && auto); simpl; auto.
  - split; [reflexivity | exact H].
  - unfold onMessage. destruct (fromJson message) as [state|]; [|auto].
    destruct (negb _); [|auto].
    rewrite jb_handleIncomingState_sent. split; [reflexivity|].
    unfold handleIncomingState, client_open in *.
    destruct (Wire.member_is (action state) "close"); [exact H|].
    destruct (negb (isActive state)); exact H.
  - split; [reflexivity | exact H].
  - unfold retryElapsed. destruct (sleeping w); split; try reflexivity; exact H.
  - destruct (edt w) as [|t q]; [auto|].
    rewrite jb_run_task_sent. split; [reflexivity|].
    destruct t; simpl.
    + unfold run_close, closeFile.
      destruct (filePath state) as [path|]; [|exact H].
      destruct (mem path (vfs (ide (set_edt q w)))); exact H.
    + unfold run_select.
      destruct (filePath state) as [path|]; [|exact H].
      destruct (mem path (vfs (ide (set_edt q w)))); [|exact H].
      repeat break_match; exact H.
    + apply jb_connectWebSocket_offline. exact H.
  - unfold fileOpened. destruct (isHandlingExternalUpdate (service w)); [auto|].
    destruct (selectedFile (ide w)) as [it|]; [|auto].
    unfold setupCaretListener, updateStateFromEditor.
    apply (jb_updateState_offline _ w H).
  - unfold fileClosed. destruct (isHandlingExternalUpdate (service w)); [auto|].
    apply jb_updateState_offline, H.
  - unfold selectionChanged. destruct newFile as [file|]; [|auto].
    destruct (isHandlingExternalUpdate (service w)); [auto|].
    destruct (selectedFile (ide w)) as [it|]; [|auto].
    unfold setupCaretListener, updateStateFromEditor.
    apply (jb_updateState_offline _ w H).
  - destruct (nth_error (caretListeners w) listener) as [l|]; [|auto].
    unfold caretPositionChanged, updateStateFromEditor.
    destruct (negb _); [|auto]. apply jb_updateState_offline, H.
  - unfold windowGainedFocus. destruct showing; [|auto].
    apply (jb_send_selected_offline (with_service (set_isActive true) w)). exact H.
  - unfold windowLostFocus.
    apply (jb_send_selected_offline (with_service (set_isActive false) w)). exact H.
  - split; [reflexivity | exact H].
Qed.
End JetBrainsOffline.

(** X10: while the extension has no open client socket it sends nothing:
    in any run that contains no connection of a plugin socket, whatever
    the user does in the editor and whatever arrives, the list of frames
    sent stays as it was. *)
Theorem X10_extension_sends_nothing_without_client {platform : VSCode.Platform} :
  forall (evs : list VSCode.Event) (w : VSCode.World),
    VSCode.client_open w = false ->
    Forall (fun ev => forall ws, ev <> VSCode.Connection ws "jetbrains") evs ->
    VSCode.sent (VSCode.run evs w) = VSCode.sent w
    /\ VSCode.client_open (VSCode.run evs w) = false.
Proof.
  induction evs as [|ev evs IH]; intros w H Hevs; simpl; [auto|].
  inversion Hevs as [|? ? Hev Hrest]; subst.
  destruct (vs_step_offline ev w H Hev) as [Hs Ho].
  destruct (IH (VSCode.step ev w) Ho Hrest) as [Hs' Ho'].
  split; [congruence | exact Ho'].
Qed.

Section Example_X10.
#[local] Existing Instance Scenario.posix.

Lemma X10_extension_sends_nothing_without_client_witness :
  VSCode.sent
    (VSCode.run [VSCode.Toggle; VSCode.SelectionChanged Scenario.x_py 10 4;
                 VSCode.DocumentClosed Scenario.x_py; VSCode.WindowState false]
                (VSCode.init Scenario.vs_window true 3000))
  = [].
Proof.
  refine (proj1 (X10_extension_sends_nothing_without_client
                   [VSCode.Toggle; VSCode.SelectionChanged Scenario.x_py 10 4;
                    VSCode.DocumentClosed Scenario.x_py; VSCode.WindowState false]
                   (VSCode.init Scenario.vs_window true 3000) eq_refl _)).
  repeat constructor; intros ws H; discriminate H.
Defined.
End Example_X10.

(** X11: while the plugin's socket is not open it sends nothing: in any run
    in which no socket opens, the frames sent stay as they were and the
    socket stays closed, however often [updateState] tries to
    reconnect. *)
Theorem X11_plugin_sends_nothing_before_open :
  forall (evs : list JetBrains.Event) (w : JetBrains.World),
    JetBrains.client_open w = false ->
    Forall (fun ev => forall id, ev <> JetBrains.SocketOpen id) evs ->
    JetBrains.sent (JetBrains.run evs w) = JetBrains.sent w
    /\ JetBrains.client_open (JetBrains.run evs w) = false.
Proof.
  induction evs as [|ev evs IH]; intros w H Hevs; simpl; [auto|].
  inversion Hevs as [|? ? Hev Hrest]; subst.
  destruct (jb_step_offline ev w H Hev) as [Hs Ho].
  destruct (IH (JetBrains.step ev w) Ho Hrest) as [Hs' Ho'].
  split; [congruence | exact Ho'].
Qed.

Lemma X11_plugin_sends_nothing_before_open_witness :
  JetBrains.sent
    (JetBrains.run [JetBrains.GainedFocus true; JetBrains.Toggle;
                    JetBrains.FileClosed Scenario.x_py; JetBrains.ConnectFailed;
                    JetBrains.RetryElapsed; JetBrains.RunEdt]
                   (JetBrains.init Scenario.jb_ide))
  = [].
Proof.
  refine (proj1 (X11_plugin_sends_nothing_before_open
                   [JetBrains.GainedFocus true; JetBrains.Toggle;
                    JetBrains.FileClosed Scenario.x_py; JetBrains.ConnectFailed;
                    JetBrains.RetryElapsed; JetBrains.RunEdt]
                   (JetBrains.init Scenario.jb_ide) eq_refl _)).
  repeat constructor; intros id H; discriminate H.
Defined.

(** ** Listeners under the echo guard *)

(** X12: while the echo guard is set, the editor listeners of both peers do
    nothing at all: closed tabs, a change of the active editor, a closed
    document and a moved caret leave the extension's state as it is, and
    an opened or closed file, a changed selection and a moved caret leave
    the plugin's.  The focus listeners are different: the extension's does
    not look at the guard (on gaining focus with a client connected it
    still re-sends the last state), the plugin's store the new activation
    and send nothing. *)
Theorem X12_guard_silences_editor_listeners :
  (forall w : VSCode.World,
      VSCode.isHandlingExternalUpdate (VSCode.sync w) = true ->
      (forall closed, VSCode.onDidChangeTabs closed w = w)
      /\ (forall editor, VSCode.onDidChangeActiveTextEditor editor w = w)
      /\ (forall p, VSCode.onDidCloseTextDocument p w = w)
      /\ (forall p l c, VSCode.onDidChangeTextEditorSelection p l c w = w)
      /\ (forall cur,
             VSCode.currentState (VSCode.sync w) = Some cur ->
             VSCode.client_open w = true ->
             VSCode.sent (VSCode.onDidChangeWindowState true w)
             = (VSCode.sent w
                ++ [Wire.mkObject (Wire.filePath cur) (Wire.line cur) (Wire.column cur)
                                  (Some "vscode") (Some true) (Wire.action cur)])%list))
  /\
  (forall w : JetBrains.World,
      JetBrains.isHandlingExternalUpdate (JetBrains.service w) = true ->
      (forall file, JetBrains.fileOpened file w = w)
      /\ (forall file, JetBrains.fileClosed file w = w)
      /\ (forall newFile, JetBrains.selectionChanged newFile w = w)
      /\ (forall listener, JetBrains.caretPositionChanged listener w = w)
      /\ JetBrains.windowGainedFocus true w
         = JetBrains.with_service (JetBrains.set_isActive true) w
      /\ JetBrains.windowLostFocus w
         = JetBrains.with_service (JetBrains.set_isActive false) w).
Proof.
  split; intros w Hg.
  - split; [|split; [|split; [|split]]].
    + intro closed. unfold VSCode.onDidChangeTabs. rewrite Hg. reflexivity.
    + intros [[p [l c]]|]; simpl; [rewrite Hg|]; reflexivity.
    + intro p. unfold VSCode.onDidCloseTextDocument. rewrite Hg. reflexivity.
    + intros p l c. unfold VSCode.onDidChangeTextEditorSelection. rewrite Hg.
      rewrite andb_false_r. reflexivity.
    + intros cur Hcur Hopen.
      rewrite (vs_onDidChangeWindowState_unfold w cur true Hcur).
      rewrite vs_updateState_sent.
      change (VSCode.client_open (VSCode.with_sync (VSCode.set_isActive true) w))
        with (VSCode.client_open w).
      rewrite Hopen. simpl. rewrite orb_true_r. reflexivity.
  - split; [|split; [|split; [|split; [|split]]]].
    + intro file. unfold JetBrains.fileOpened. rewrite Hg. reflexivity.
    + intro file. unfold JetBrains.fileClosed. rewrite Hg. reflexivity.
    + intros [file|]; simpl; [rewrite Hg|]; reflexivity.
    + intro listener. unfold JetBrains.caretPositionChanged. rewrite Hg. reflexivity.
    + unfold JetBrains.windowGainedFocus, JetBrains.send_selected,
        JetBrains.updateStateFromEditor, JetBrains.updateState. simpl.
      rewrite Hg. destruct (JetBrains.selectedFile (JetBrains.ide w)); reflexivity.
    + unfold JetBrains.windowLostFocus, JetBrains.send_selected,
        JetBrains.updateStateFromEditor, JetBrains.updateState. simpl.
      rewrite Hg. destruct (JetBrains.selectedFile (JetBrains.ide w)); reflexivity.
Qed.

Lemma X12_guard_silences_editor_listeners_witness :
  let w := VSCode.with_sync (VSCode.set_isHandlingExternalUpdate true) Scenario.vs_editing in
  let j := JetBrains.with_service (JetBrains.set_isHandlingExternalUpdate true)
                                  Scenario.jb_editing in
  VSCode.onDidCloseTextDocument Scenario.x_py w = w
  /\ JetBrains.fileClosed Scenario.x_py j = j.
Proof.
  intros w j.
  destruct (proj1 X12_guard_silences_editor_listeners w eq_refl) as (_ & _ & Hvs & _).
  destruct (proj2 X12_guard_silences_editor_listeners j eq_refl) as (_ & Hjb & _).
  exact (conj (Hvs Scenario.x_py) (Hjb Scenario.x_py)).
Defined.

(** ** From one peer to the other *)


Section Example_X13.
#[local] Existing Instance Scenario.posix.

End Example_X13.


Section Example_X14.
#[local] Existing Instance Scenario.posix.

End Example_X14.

(** ** Reconnecting *)

(** X15: close notifications schedule at most one retry.  [onClose] starts
    a sleeping retry thread only when sync is on and no reconnect is under
    way, and marks the reconnect as under way; a further close
    notification, for the same or for another socket, starts none. *)
Theorem X15_close_schedules_one_retry :
  forall (w : JetBrains.World) (id1 id2 : nat),
    let w1 := JetBrains.onClose id1 w in
    let w2 := JetBrains.onClose id2 w1 in
    JetBrains.sleeping w1
    = (if negb (JetBrains.isReconnecting (JetBrains.service w))
          && JetBrains.autoReconnect (JetBrains.service w)
       then S (JetBrains.sleeping w) else JetBrains.sleeping w)
    /\ JetBrains.sleeping w2 = JetBrains.sleeping w1
    /\ JetBrains.isConnected (JetBrains.service w2) = false
    /\ (JetBrains.autoReconnect (JetBrains.service w) = true ->
        JetBrains.isReconnecting (JetBrains.service w2) = true).
Proof.
  intros w id1 id2 w1 w2. subst w2 w1.
  unfold JetBrains.onClose, JetBrains.mark_socket.
  destruct w as [[ws act g con rec auto] e q cls nc cn sl closed snt]. simpl.
  destruct ws as [[cid op]|]; simpl.
  - destruct (Nat.eqb cid id1); simpl; destruct rec, auto; simpl;
      try destruct (Nat.eqb cid id2); try destruct (Nat.eqb id1 id2); simpl;
      repeat split; auto.
  - destruct rec, auto; simpl; repeat split; auto.
Qed.

Lemma X15_close_schedules_one_retry_witness :
  JetBrains.sleeping
    (JetBrains.onClose 0 (JetBrains.onClose 0 Scenario.jb_connected))
  = 1%nat.
Proof.
  destruct (X15_close_schedules_one_retry Scenario.jb_connected 0%nat 0%nat)
    as (H1 & H2 & _).
  rewrite H2, H1. reflexivity.
Defined.

(** X16: a retry that outlives a disable does no harm.  When sync is
    switched off and a sleeping retry thread then wakes and its block
    runs, no socket is created and no connection attempt is started: the
    plugin stays disabled, with no socket, not connected and not
    reconnecting. *)
Theorem X16_retry_after_disable_connects_nothing :
  forall w : JetBrains.World,
    JetBrains.autoReconnect (JetBrains.service w) = true ->
    JetBrains.edt w = [] ->
    let w' := JetBrains.run [JetBrains.Toggle; JetBrains.RetryElapsed; JetBrains.RunEdt] w in
    JetBrains.autoReconnect (JetBrains.service w') = false
    /\ JetBrains.webSocket (JetBrains.service w') = None
    /\ JetBrains.isConnected (JetBrains.service w') = false
    /\ JetBrains.isReconnecting (JetBrains.service w') = false
    /\ JetBrains.connecting w' = JetBrains.connecting w
    /\ JetBrains.nextClient w' = JetBrains.nextClient w
    /\ JetBrains.edt w' = [].
Proof.
  intros w Hauto Hedt w'. subst w'.
  destruct w as [[ws act g con rec auto] e q cls nc cn sl closed snt].
  simpl in Hauto, Hedt. subst auto q.
  unfold JetBrains.run. simpl fold_left.
  unfold JetBrains.step, JetBrains.toggleAutoReconnect, JetBrains.close_client,
    JetBrains.retryElapsed, JetBrains.invokeLater. simpl.
  destruct ws as [[cid [|]]|]; simpl; destruct sl; simpl; repeat split.
Qed.

Lemma X16_retry_after_disable_connects_nothing_witness :
  let w := JetBrains.run [JetBrains.SocketClose 0] Scenario.jb_connected in
  JetBrains.sleeping w = 1%nat
  /\ JetBrains.webSocket
       (JetBrains.service
          (JetBrains.run [JetBrains.Toggle; JetBrains.RetryElapsed; JetBrains.RunEdt] w))
     = None.
Proof.
  intro w. split; [reflexivity|].
  exact (proj1 (proj2 (X16_retry_after_disable_connects_nothing w eq_refl eq_refl))).
Defined.

(** X17: a retry that outlives a disable followed by an enable connects a
    second time.  Switching sync off does not cancel a sleeping retry
    thread; if sync is switched on again before the thread wakes, the
    enable creates a socket and starts a connection attempt, and the
    woken retry creates another socket, which replaces the first without
    closing it, and starts a second attempt. *)
Theorem X17_retry_after_reenable_connects_twice :
  forall w : JetBrains.World,
    JetBrains.autoReconnect (JetBrains.service w) = true ->
    JetBrains.edt w = [] ->
    (0 < JetBrains.sleeping w)%nat ->
    let off := JetBrains.step JetBrains.Toggle w in
    let on := JetBrains.step JetBrains.Toggle off in
    let w' := JetBrains.run [JetBrains.RetryElapsed; JetBrains.RunEdt] on in
    JetBrains.sleeping off = JetBrains.sleeping w
    /\ JetBrains.webSocket (JetBrains.service on)
       = Some (JetBrains.mkClient (JetBrains.nextClient w) false)
    /\ JetBrains.connecting on = S (JetBrains.connecting w)
    /\ JetBrains.webSocket (JetBrains.service w')
       = Some (JetBrains.mkClient (S (JetBrains.nextClient w)) false)
    /\ JetBrains.connecting w' = S (S (JetBrains.connecting w))
    /\ JetBrains.closedSockets w' = JetBrains.closedSockets off.
Proof.
  intros w Hauto Hedt Hsl off on w'. subst w' on off.
  destruct w as [[ws act g con rec auto] e q cls nc cn sl closed snt].
  simpl in Hauto, Hedt, Hsl. subst auto q.
  destruct sl as [|sl]; [lia|].
  unfold JetBrains.run. simpl fold_left.
  unfold JetBrains.step, JetBrains.toggleAutoReconnect, JetBrains.close_client,
    JetBrains.retryElapsed, JetBrains.invokeLater, JetBrains.connectWebSocket. simpl.
  destruct ws as [[cid [|]]|]; simpl; repeat split.
Qed.

Lemma X17_retry_after_reenable_connects_twice_witness :
  let w := JetBrains.run [JetBrains.SocketClose 0] Scenario.jb_connected in
  JetBrains.connecting
    (JetBrains.run [JetBrains.RetryElapsed; JetBrains.RunEdt]
       (JetBrains.step JetBrains.Toggle (JetBrains.step JetBrains.Toggle w)))
  = S (S (JetBrains.connecting w)).
Proof.
  intro w.
  assert (Hauto : JetBrains.autoReconnect (JetBrains.service w) = true)
    by (vm_compute; reflexivity).
  assert (Hedt : JetBrains.edt w = []) by (vm_compute; reflexivity).
  assert (Hsl : (0 < JetBrains.sleeping w)%nat) by (vm_compute; lia).
  destruct (X17_retry_after_reenable_connects_twice w Hauto Hedt Hsl)
    as (_ & _ & _ & _ & H & _).
  exact H.
Defined.

(** X18: [updateState] on a socket that is missing or not open sends
    nothing; it starts a connection attempt exactly when sync is on and
    either there is no socket or no reconnect is under way, so listeners
    firing during a reconnect do not stack attempts. *)
Theorem X18_updateState_reconnects_once :
  forall (state : JetBrains.EditorState) (w : JetBrains.World),
    JetBrains.isHandlingExternalUpdate (JetBrains.service w) = false ->
    JetBrains.client_open w = false ->
    let w' := JetBrains.updateState state w in
    let attempt :=
      JetBrains.autoReconnect (JetBrains.service w)
      && (match JetBrains.webSocket (JetBrains.service w) with
          | Some _ => negb (JetBrains.isReconnecting (JetBrains.service w))
          | None => true
          end) in
    JetBrains.sent w' = JetBrains.sent w
    /\ JetBrains.connecting w'
       = (if attempt then S (JetBrains.connecting w) else JetBrains.connecting w)
    /\ (attempt = true -> JetBrains.isReconnecting (JetBrains.service w') = true)
    /\ JetBrains.connecting (JetBrains.updateState state w') = JetBrains.connecting w'.
Proof.
  intros state w Hg Hopen w' attempt. subst w' attempt.
  unfold JetBrains.updateState, JetBrains.connectWebSocket, JetBrains.client_open in *.
  destruct w as [[ws act g con rec auto] e q cls nc cn sl closed snt].
  simpl in *. subst g.
  destruct ws as [[cid op]|]; simpl in *.
  - subst op. destruct rec, auto; simpl; repeat split; auto; discriminate.
  - destruct auto; simpl; repeat split; auto; discriminate.
Qed.

Lemma X18_updateState_reconnects_once_witness :
  let w := JetBrains.run [JetBrains.SocketClose 0] Scenario.jb_connected in
  JetBrains.connecting
    (JetBrains.updateState (JetBrains.newEditorState Scenario.x_py 1 2 false "select") w)
  = JetBrains.connecting w.
Proof.
  intro w.
  exact (proj1 (proj2 (X18_updateState_reconnects_once
                         (JetBrains.newEditorState Scenario.x_py 1 2 false "select")
                         w eq_refl eq_refl))).
Defined.

(** ** Frames that cannot be applied *)

Section VSCodeFailure.
Import VSCode.
Context {platform : Platform}.

Ltac run_select_handler :=
  unfold handleSelect, try_catch_finally, bind, setHandling,
    modify, get, ret, throw, Uri_file, openTextDocument, showTextDocument,
    Position, set_selection, revealRange, showErrorMessage, record, bind,
    modify, get, ret, throw.

Lemma vs_handleSelect_no_path state w :
  Wire.filePath state = None ->
  handleSelect state w =
  (Normal tt,
   with_sync (set_isHandlingExternalUpdate false)
     (with_window (push_errorMessage "Failed to open file: undefined") w)).
Proof.
  intro Hp. run_select_handler. rewrite Hp. reflexivity.
Qed.

Lemma vs_handleSelect_negative state w path p l c :
  Wire.filePath state = Some path ->
  file_fsPath path = p ->
  Wire.line state = l -> Wire.column state = c ->
  mem p (textDocuments (window w)) || mem p (disk (window w)) = true ->
  (match l with Some z => z <? 0 | None => false end)
  || (match c with Some z => z <? 0 | None => false end) = true ->
  let w' := snd (handleSelect state w) in
  activeTextEditor (window w') = Some p
  /\ existsb (mem p) (tabGroups (window w')) = true
  /\ views (window w') = views (window w)
  /\ errorMessages (window w')
     = (errorMessages (window w) ++ [("Failed to open file: " ++ path)%string])%list
  /\ calls (window w')
     = (calls (window w) ++ [(OpenTextDocument p, true); (ShowTextDocument p, true)])%list
  /\ isHandlingExternalUpdate (sync w') = false
  /\ sent w' = sent w.
Proof.
  intros Hp Hfile Hl Hc Hread Hthrow.
  assert (Htab : forall g gs,
             existsb (mem p) ((if mem p g then g else (g ++ [p])%list) :: gs) = true).
  { intros g gs. simpl. destruct (mem p g) eqn:Hg; [rewrite Hg; reflexivity|].
    unfold mem at 1. rewrite existsb_app. simpl. rewrite String.eqb_refl.
    rewrite orb_true_r. reflexivity. }
  run_select_handler. rewrite Hp, Hl, Hc. simpl. rewrite Hfile.
  destruct (mem p (textDocuments (window w))) eqn:Hd; simpl.
  - rewrite Hthrow. simpl. repeat (split; [try reflexivity|]); try reflexivity.
    + destruct (tabGroups (window w)) as [|g gs]; [|apply Htab].
      simpl. unfold mem. simpl. rewrite String.eqb_refl. reflexivity.
    + rewrite <- app_assoc. reflexivity.
  - simpl in Hread. rewrite Hread. simpl. rewrite Hthrow. simpl.
    repeat (split; [try reflexivity|]); try reflexivity.
    + destruct (tabGroups (window w)) as [|g gs]; [|apply Htab].
      simpl. unfold mem. simpl. rewrite String.eqb_refl. reflexivity.
    + rewrite <- app_assoc. reflexivity.
Qed.
End VSCodeFailure.

(** X19: a [select] the extension cannot open.  For a frame of the other
    peer that is no [close] and whose [isActive] is truthy: if it has no
    [filePath], or its file is neither loaded nor readable, the extension
    shows [Failed to open file: ...] with the path (or [undefined]), leaves
    tabs, active editor, scroll positions and the session fields other
    than the guard as they are, sends nothing and ends with the guard
    clear. *)
Theorem X19_unopenable_select_is_reported {platform : VSCode.Platform} :
  forall (o : Wire.Object) (w : VSCode.World),
    Wire.member_is (Wire.source o) "vscode" = false ->
    Wire.member_is (Wire.action o) "close" = false ->
    Wire.truthy (Wire.isActive o) = true ->
    match Wire.filePath o with
    | Some p =>
        VSCode.mem (VSCode.file_fsPath p) (VSCode.textDocuments (VSCode.window w)) = false
        /\ VSCode.mem (VSCode.file_fsPath p) (VSCode.disk (VSCode.window w)) = false
    | None => True
    end ->
    let w' := VSCode.step (VSCode.Message (Wire.Json o)) w in
    VSCode.errorMessages (VSCode.window w')
    = (VSCode.errorMessages (VSCode.window w)
       ++ [("Failed to open file: " ++ VSCode.template (Wire.filePath o))%string])%list
    /\ VSCode.tabGroups (VSCode.window w') = VSCode.tabGroups (VSCode.window w)
    /\ VSCode.textDocuments (VSCode.window w') = VSCode.textDocuments (VSCode.window w)
    /\ VSCode.activeTextEditor (VSCode.window w') = VSCode.activeTextEditor (VSCode.window w)
    /\ VSCode.views (VSCode.window w') = VSCode.views (VSCode.window w)
    /\ VSCode.sync w' = VSCode.set_isHandlingExternalUpdate false (VSCode.sync w)
    /\ VSCode.sent w' = VSCode.sent w.
Proof.
  intros o w Hsrc Hact Hactive Hpath w'. subst w'.
  change (VSCode.step (VSCode.Message (Wire.Json o)) w)
    with (snd (VSCode.handleIncomingState o w)).
  rewrite (vs_select_applied w o Hsrc Hact Hactive).
  destruct (Wire.filePath o) as [p|] eqn:Hp.
  - destruct Hpath as [Hd Hf].
    rewrite (vs_handleSelect_unreadable w o p (VSCode.file_fsPath p) Hp eq_refl Hd Hf).
    simpl. repeat split; reflexivity.
  - rewrite (vs_handleSelect_no_path o w Hp). simpl. repeat split; reflexivity.
Qed.

Section Example_X19.
#[local] Existing Instance Scenario.posix.

Lemma X19_unopenable_select_is_reported_witness :
  VSCode.errorMessages
    (VSCode.window
       (VSCode.step
          (VSCode.Message
             (Wire.Json (Wire.mkObject (Some "/missing.py") (Some 1) (Some 2)
                                       (Some "jetbrains") (Some true) (Some "select"))))
          (Scenario.vs_connected false)))
  = ["Failed to open file: /missing.py"].
Proof.
  exact (proj1 (X19_unopenable_select_is_reported
                  (Wire.mkObject (Some "/missing.py") (Some 1) (Some 2)
                                 (Some "jetbrains") (Some true) (Some "select"))
                  (Scenario.vs_connected false)
                  eq_refl eq_refl eq_refl (conj eq_refl eq_refl))).
Defined.
End Example_X19.

(** X20: a [close] without a path falls through to the [select] code.  In
    the extension, [Uri.file] throws on the absent [filePath], the [catch]
    of the [close] block only logs, and control reaches the activation
    check: from an inactive sender nothing but the guard changes; from an
    active sender the [select] block runs and reports
    [Failed to open file: undefined]. *)
Theorem X20_close_without_path_falls_through {platform : VSCode.Platform} :
  forall (o : Wire.Object) (w : VSCode.World),
    Wire.member_is (Wire.source o) "vscode" = false ->
    Wire.member_is (Wire.action o) "close" = true ->
    Wire.filePath o = None ->
    let w' := VSCode.step (VSCode.Message (Wire.Json o)) w in
    VSCode.sync w' = VSCode.set_isHandlingExternalUpdate false (VSCode.sync w)
    /\ VSCode.sent w' = VSCode.sent w
    /\ VSCode.window w'
       = (if Wire.truthy (Wire.isActive o)
          then VSCode.push_errorMessage "Failed to open file: undefined" (VSCode.window w)
          else VSCode.window w).
Proof.
  intros o w Hsrc Hact Hp w'. subst w'.
  change (VSCode.step (VSCode.Message (Wire.Json o)) w)
    with (snd (VSCode.handleIncomingState o w)).
  unfold VSCode.handleIncomingState. rewrite Hsrc, Hact. cbv beta iota.
  unfold VSCode.bind. rewrite (vs_handleClose_no_path o w Hp).
  destruct (Wire.truthy (Wire.isActive o)); simpl.
  - rewrite (vs_handleSelect_no_path o _ Hp). simpl. repeat split; reflexivity.
  - repeat split; reflexivity.
Qed.

Section Example_X20.
#[local] Existing Instance Scenario.posix.

Lemma X20_close_without_path_falls_through_witness :
  VSCode.errorMessages
    (VSCode.window
       (VSCode.step
          (VSCode.Message
             (Wire.Json (Wire.mkObject None None None (Some "jetbrains") (Some true)
                                       (Some "close"))))
          (Scenario.vs_connected false)))
  = ["Failed to open file: undefined"].
Proof.
  destruct (X20_close_without_path_falls_through
              (Wire.mkObject None None None (Some "jetbrains") (Some true) (Some "close"))
              (Scenario.vs_connected false) eq_refl eq_refl eq_refl) as (_ & _ & H).
  rewrite H. reflexivity.
Defined.
End Example_X20.

(** X21: a negative coordinate fails after the file is shown.  In both
    peers the position object is built only after the file has been opened
    and selected, and its constructor refuses a negative line or column:
    the file ends up selected with its caret and scroll position
    untouched.  The extension then reports [Failed to open file] for a
    file it did open; the plugin only logs. *)
Theorem X21_negative_position_opens_without_moving {platform : VSCode.Platform} :
  (forall (o : Wire.Object) (w : VSCode.World) (p : string) (l c : Z),
      Wire.member_is (Wire.source o) "vscode" = false ->
      Wire.member_is (Wire.action o) "close" = false ->
      Wire.truthy (Wire.isActive o) = true ->
      Wire.filePath o = Some p ->
      Wire.line o = Some l -> Wire.column o = Some c ->
      let file := VSCode.file_fsPath p in
      VSCode.mem file (VSCode.textDocuments (VSCode.window w))
      || VSCode.mem file (VSCode.disk (VSCode.window w)) = true ->
      l < 0 \/ c < 0 ->
      let w' := VSCode.step (VSCode.Message (Wire.Json o)) w in
      VSCode.activeTextEditor (VSCode.window w') = Some file
      /\ existsb (VSCode.mem file) (VSCode.tabGroups (VSCode.window w')) = true
      /\ VSCode.views (VSCode.window w') = VSCode.views (VSCode.window w)
      /\ VSCode.errorMessages (VSCode.window w')
         = (VSCode.errorMessages (VSCode.window w) ++ [("Failed to open file: " ++ p)%string])%list)
  /\ (forall (state : JetBrains.EditorState) (w : JetBrains.World) (p : string),
         JetBrains.filePath state = Some p ->
         JetBrains.mem p (JetBrains.vfs (JetBrains.ide w)) = true ->
         JetBrains.line state < 0 \/ JetBrains.column state < 0 ->
         let w' := JetBrains.run_task (JetBrains.SelectTask state) w in
         JetBrains.selectedFile (JetBrains.ide w') = Some p
         /\ JetBrains.views (JetBrains.ide w') = JetBrains.views (JetBrains.ide w)
         /\ JetBrains.service w' = JetBrains.service w
         /\ JetBrains.sent w' = JetBrains.sent w).
Proof.
  split.
  - intros o w p l c Hsrc Hact Hactive Hp Hl Hc file Hread Hneg w'. subst w'.
    change (VSCode.step (VSCode.Message (Wire.Json o)) w)
      with (snd (VSCode.handleIncomingState o w)).
    rewrite (vs_select_applied w o Hsrc Hact Hactive).
    assert (Hb : (l <? 0) || (c <? 0) = true).
    { destruct (Z.ltb_spec l 0); [reflexivity|].
      destruct (Z.ltb_spec c 0); [reflexivity | lia]. }
    destruct (vs_handleSelect_negative o w p file (Some l) (Some c) Hp eq_refl Hl Hc
                Hread Hb)
      as (Ha & Ht & Hv & He & _).
    repeat split; assumption.
  - intros state w p Hp Hvfs Hneg w'. subst w'.
    simpl. unfold JetBrains.run_select. rewrite Hp, Hvfs.
    assert (Hb : (JetBrains.line state <? 0) || (JetBrains.column state <? 0) = true).
    { destruct (Z.ltb_spec (JetBrains.line state) 0); [reflexivity|].
      destruct (Z.ltb_spec (JetBrains.column state) 0); [reflexivity | lia]. }
    destruct (JetBrains.selectedFile (JetBrains.ide w)) as [s|] eqn:Hs.
    + destruct (String.eqb_spec s p) as [->|Hne].
      * rewrite Hb. repeat split; assumption.
      * unfold JetBrains.openFile.
        match goal with
        | |- context [if ?b then _ else _] =>
            replace b with true
        end.
        repeat split; reflexivity.
    + unfold JetBrains.openFile.
      match goal with
      | |- context [if ?b then _ else _] =>
          replace b with true
      end.
      repeat split; reflexivity.
Qed.

Section Example_X21.
#[local] Existing Instance Scenario.posix.

Lemma X21_negative_position_opens_without_moving_witness :
  VSCode.errorMessages
    (VSCode.window
       (VSCode.step
          (VSCode.Message
             (Wire.Json (Wire.mkObject (Some Scenario.x_py) (Some (-1)) (Some 0)
                                       (Some "jetbrains") (Some true) (Some "select"))))
          (Scenario.vs_connected false)))
  = ["Failed to open file: /x.py"]
  /\ JetBrains.selectedFile
       (JetBrains.ide
          (JetBrains.run_task
             (JetBrains.SelectTask
                (JetBrains.mkEditorState (Some Scenario.x_py) (-1) 0 (Some "vscode") true
                                         (Some "select")))
             Scenario.jb_connected))
     = Some Scenario.x_py.
Proof.
  destruct X21_negative_position_opens_without_moving as [Hvs Hjb].
  split.
  - assert (Hneg : -1 < 0 \/ 0 < 0) by (left; lia).
    destruct (Hvs (Wire.mkObject (Some Scenario.x_py) (Some (-1)) (Some 0)
                                 (Some "jetbrains") (Some true) (Some "select"))
                  (Scenario.vs_connected false) Scenario.x_py (-1) 0
                  eq_refl eq_refl eq_refl eq_refl eq_refl eq_refl eq_refl Hneg)
      as (_ & _ & _ & He).
    exact He.
  - assert (Hneg : -1 < 0 \/ 0 < 0) by (left; lia).
    exact (proj1 (Hjb (JetBrains.mkEditorState (Some Scenario.x_py) (-1) 0 (Some "vscode")
                                                true (Some "select"))
                      Scenario.jb_connected Scenario.x_py eq_refl eq_refl Hneg)).
Defined.
End Example_X21.

(** X22: a frame that names no file the plugin can find changes nothing.
    With an empty event queue and the guard clear, a frame of the other
    peer whose [filePath] is absent or not in the local file system leaves
    the plugin exactly as it was once its queued block has run, whatever
    its action: the block finds no file and only logs. *)
Theorem X22_plugin_ignores_unfindable_file :
  forall (o : Wire.Object) (w : JetBrains.World),
    JetBrains.edt w = [] ->
    JetBrains.isHandlingExternalUpdate (JetBrains.service w) = false ->
    match Wire.filePath o with
    | Some p => JetBrains.mem p (JetBrains.vfs (JetBrains.ide w)) = false
    | None => True
    end ->
    JetBrains.run [JetBrains.SocketMessage (Wire.Json o); JetBrains.RunEdt] w = w.
Proof.
  intros o w Hedt Hg Hpath.
  destruct w as [[ws act g con rec auto] e q cls nc cn sl closed snt].
  simpl in Hedt, Hg, Hpath. subst q g.
  change (JetBrains.run [JetBrains.SocketMessage (Wire.Json o); JetBrains.RunEdt] ?w0)
    with (JetBrains.step JetBrains.RunEdt
            (JetBrains.onMessage (Wire.Json o) w0)).
  unfold JetBrains.onMessage, JetBrains.fromJson.
  destruct (JetBrains.is_Int _ && JetBrains.is_Int _); [|reflexivity].
  cbv beta iota zeta. simpl JetBrains.source.
  destruct (negb (Wire.member_is (Wire.source o) "jetbrains")); [|reflexivity].
  unfold JetBrains.handleIncomingState. simpl JetBrains.action. simpl JetBrains.isActive.
  destruct (Wire.member_is (Wire.action o) "close").
  - simpl. unfold JetBrains.run_close. simpl.
    destruct (Wire.filePath o) as [p|]; [rewrite Hpath|]; reflexivity.
  - destruct (negb (Wire.truthy (Wire.isActive o))); [reflexivity|].
    simpl. unfold JetBrains.run_select. simpl.
    destruct (Wire.filePath o) as [p|]; [rewrite Hpath|]; reflexivity.
Qed.

Lemma X22_plugin_ignores_unfindable_file_witness :
  JetBrains.run
    [JetBrains.SocketMessage
       (Wire.Json (Wire.mkObject (Some "/missing.py") (Some 1) (Some 2) (Some "vscode")
                                 (Some true) (Some "select")));
     JetBrains.RunEdt]
    Scenario.jb_connected
  = Scenario.jb_connected.
Proof.
  exact (X22_plugin_ignores_unfindable_file
           (Wire.mkObject (Some "/missing.py") (Some 1) (Some 2) (Some "vscode")
                          (Some true) (Some "select"))
           Scenario.jb_connected eq_refl eq_refl eq_refl).
Defined.

(** ** Caret listeners of the plugin *)

Section JetBrainsListeners.
Import JetBrains.

Lemma jb_connectWebSocket_listeners w :
  caretListeners (connectWebSocket w) = caretListeners w.
Proof. unfold connectWebSocket. break_match; reflexivity. Qed.

Lemma jb_updateState_listeners state w :
  caretListeners (updateState state w) = caretListeners w.
Proof.
  unfold updateState.
  repeat break_match; simpl; first [reflexivity | apply jb_connectWebSocket_listeners].
Qed.

Lemma jb_send_selected_listeners w :
  caretListeners (send_selected w) = caretListeners w.
Proof.
  unfold send_selected, updateStateFromEditor.
  break_match; [apply jb_updateState_listeners | reflexivity].
Qed.

Lemma jb_step_listeners ev w :
  exists added, caretListeners (step ev w) = (caretListeners w ++ added)%list.
Proof.
  assert (Hsame : forall w' : World,
             caretListeners w' = caretListeners w ->
             exists added, caretListeners w' = (caretListeners w ++ added)%list).
  { intros w' H. exists []. rewrite app_nil_r. exact H. }
  destruct ev; simpl.
  - apply Hsame. unfold toggleAutoReconnect, close_client.
    repeat break_match; simpl; rewrite ?jb_connectWebSocket_listeners; reflexivity.
  - apply Hsame. unfold restartConnection, close_client.
    rewrite jb_connectWebSocket_listeners. repeat break_match; reflexivity.
  - apply Hsame. unfold onOpen, mark_socket. rewrite jb_send_selected_listeners.
    repeat break_match; reflexivity.
  - apply Hsame. unfold onClose, mark_socket. repeat break_match; reflexivity.
  - apply Hsame. reflexivity.
  - apply Hsame. unfold onMessage, handleIncomingState. repeat break_match; reflexivity.
  - apply Hsame. reflexivity.
  - apply Hsame. unfold retryElapsed. break_match; reflexivity.
  - apply Hsame. destruct (edt w) as [|t q]; [reflexivity|].
    destruct t; simpl.
    + unfold run_close. repeat break_match; reflexivity.
    + unfold run_select. repeat break_match; reflexivity.
    + rewrite jb_connectWebSocket_listeners. reflexivity.
  - unfold fileOpened. destruct (isHandlingExternalUpdate (service w)); [apply Hsame; reflexivity|].
    destruct (selectedFile (ide w)) as [it|]; [|apply Hsame; reflexivity].
    exists [(it, file)]. unfold setupCaretListener, updateStateFromEditor. simpl.
    rewrite jb_updateState_listeners. reflexivity.
  - apply Hsame. unfold fileClosed. break_match; [reflexivity|].
    apply jb_updateState_listeners.
  - unfold selectionChanged. destruct newFile as [file|]; [|apply Hsame; reflexivity].
    destruct (isHandlingExternalUpdate (service w)); [apply Hsame; reflexivity|].
    destruct (selectedFile (ide w)) as [it|]; [|apply Hsame; reflexivity].
    exists [(it, file)]. unfold setupCaretListener, updateStateFromEditor. simpl.
    rewrite jb_updateState_listeners. reflexivity.
  - apply Hsame. destruct (nth_error (caretListeners w) listener); [|reflexivity].
    unfold caretPositionChanged, updateStateFromEditor.
    break_match; [apply jb_updateState_listeners | reflexivity].
  - apply Hsame. unfold windowGainedFocus. destruct showing; [|reflexivity].
    rewrite jb_send_selected_listeners. reflexivity.
  - apply Hsame. unfold windowLostFocus. rewrite jb_send_selected_listeners. reflexivity.
  - apply Hsame. reflexivity.
Qed.
End JetBrainsListeners.

(** X23: caret listeners are only ever added.  No event removes a caret
    listener.  Each [fileOpened] and each [selectionChanged] with a
    selected editor adds one, also when an equal one is installed already,
    pairing the editor selected at that moment with the file of the event;
    a listener later reports that file's path with the caret of that
    editor. *)
Theorem X23_caret_listeners_accumulate :
  (forall (ev : JetBrains.Event) (w : JetBrains.World),
      exists added,
        JetBrains.caretListeners (JetBrains.step ev w)
        = (JetBrains.caretListeners w ++ added)%list)
  /\ (forall (w : JetBrains.World) (it file : string),
         JetBrains.isHandlingExternalUpdate (JetBrains.service w) = false ->
         JetBrains.selectedFile (JetBrains.ide w) = Some it ->
         JetBrains.caretListeners
           (JetBrains.run [JetBrains.FileOpened file;
                           JetBrains.SelectionChanged (Some file)] w)
         = (JetBrains.caretListeners w ++ [(it, file); (it, file)])%list)
  /\ (forall (w : JetBrains.World) (n : nat) (it file : string),
         nth_error (JetBrains.caretListeners w) n = Some (it, file) ->
         JetBrains.isHandlingExternalUpdate (JetBrains.service w) = false ->
         JetBrains.client_open w = true ->
         JetBrains.svcActive (JetBrains.service w) = true ->
         let pos := JetBrains.caret (JetBrains.views (JetBrains.ide w) it) in
         JetBrains.sent (JetBrains.step (JetBrains.CaretMoved n) w)
         = (JetBrains.sent w
            ++ [JetBrains.toJson
                  (JetBrains.newEditorState file (fst pos) (snd pos) true "select")])%list).
Proof.
  split; [exact jb_step_listeners|]. split.
  - intros w it file Hg Hsel.
    unfold JetBrains.run. simpl fold_left.
    change (JetBrains.step (JetBrains.FileOpened file) w) with (JetBrains.fileOpened file w).
    set (w1 := JetBrains.fileOpened file w).
    assert (H1 : w1 = JetBrains.setupCaretListener it file
                        (JetBrains.updateStateFromEditor it file w)).
    { unfold w1, JetBrains.fileOpened. rewrite Hg, Hsel. reflexivity. }
    assert (Hg1 : JetBrains.isHandlingExternalUpdate (JetBrains.service w1) = false).
    { rewrite H1. unfold JetBrains.setupCaretListener, JetBrains.updateStateFromEditor.
      simpl. rewrite jb_updateState_guard. exact Hg. }
    assert (Hsel1 : JetBrains.selectedFile (JetBrains.ide w1) = Some it).
    { rewrite H1. unfold JetBrains.setupCaretListener, JetBrains.updateStateFromEditor.
      simpl. rewrite jb_updateState_ide. exact Hsel. }
    simpl. unfold JetBrains.selectionChanged. rewrite Hg1, Hsel1.
    unfold JetBrains.setupCaretListener at 1. unfold JetBrains.updateStateFromEditor at 1.
    simpl. rewrite jb_updateState_listeners. rewrite H1.
    unfold JetBrains.setupCaretListener, JetBrains.updateStateFromEditor. simpl.
    rewrite jb_updateState_listeners. rewrite <- app_assoc. reflexivity.
  - intros w n it file Hn Hg Hopen Hact pos. subst pos.
    simpl. rewrite Hn. unfold JetBrains.caretPositionChanged. rewrite Hg. simpl.
    unfold JetBrains.updateStateFromEditor. rewrite Hact.
    rewrite (jb_updateState_sent _ w Hg Hopen). rewrite Hact.
    rewrite orb_true_r. reflexivity.
Qed.

Lemma X23_caret_listeners_accumulate_witness :
  JetBrains.caretListeners
    (JetBrains.run [JetBrains.FileOpened "/y.py";
                    JetBrains.SelectionChanged (Some "/y.py")] Scenario.jb_connected)
  = [(Scenario.x_py, "/y.py"); (Scenario.x_py, "/y.py")].
Proof.
  destruct X23_caret_listeners_accumulate as (_ & H & _).
  exact (H Scenario.jb_connected Scenario.x_py "/y.py" eq_refl eq_refl).
Defined.

(** ** Connection status *)

(** X24: a socket error changes the status, not the connection.  In both
    peers the error callback clears [isConnected] and keeps the socket; the
    extension also shows [WebSocket error occurred], and its icon then is
    not the check mark.  [updateState] tests the state of the socket and not
    [isConnected], so it transmits exactly as it would have before the
    error: over a socket that is still open a frame that passes the
    outgoing filter goes out although the peer shows as disconnected, over
    a socket that is not open none does. *)
Theorem X24_socket_error_keeps_the_socket {platform : VSCode.Platform} :
  (forall (w : VSCode.World) (state : VSCode.SyncState),
      let w' := VSCode.step VSCode.SocketError w in
      VSCode.isConnected (VSCode.sync w') = false
      /\ VSCode.statusBarItem (VSCode.sync w') <> VSCode.check
      /\ VSCode.errorMessages (VSCode.window w')
         = (VSCode.errorMessages (VSCode.window w) ++ ["WebSocket error occurred"])%list
      /\ VSCode.jetbrainsClient (VSCode.sync w') = VSCode.jetbrainsClient (VSCode.sync w)
      /\ VSCode.closedSockets w' = VSCode.closedSockets w
      /\ VSCode.sent w' = VSCode.sent w
      /\ VSCode.sent (VSCode.updateState state w') = VSCode.sent (VSCode.updateState state w)
      /\ (VSCode.client_open w = true ->
          Wire.member_is (Wire.action state) "close" || VSCode.isActive (VSCode.sync w)
          = true ->
          VSCode.sent (VSCode.updateState state w') = (VSCode.sent w ++ [state])%list)
      /\ (VSCode.client_open w = false ->
          VSCode.sent (VSCode.updateState state w') = VSCode.sent w))
  /\ (forall (w : JetBrains.World) (state : JetBrains.EditorState),
         let w' := JetBrains.step JetBrains.SocketError w in
         JetBrains.isConnected (JetBrains.service w') = false
         /\ JetBrains.webSocket (JetBrains.service w') = JetBrains.webSocket (JetBrains.service w)
         /\ JetBrains.closedSockets w' = JetBrains.closedSockets w
         /\ JetBrains.sent w' = JetBrains.sent w
         /\ JetBrains.sent (JetBrains.updateState state w')
            = JetBrains.sent (JetBrains.updateState state w)).
Proof.
  split.
  - intros w state w'. subst w'.
    change (VSCode.step VSCode.SocketError w) with (VSCode.onSocketError w).
    assert (Hopen : VSCode.client_open (VSCode.onSocketError w) = VSCode.client_open w)
      by reflexivity.
    assert (Hact : VSCode.isActive (VSCode.sync (VSCode.onSocketError w))
                   = VSCode.isActive (VSCode.sync w)) by reflexivity.
    assert (Hsent : VSCode.sent (VSCode.onSocketError w) = VSCode.sent w) by reflexivity.
    rewrite !vs_updateState_sent, Hopen, Hact, Hsent.
    split; [reflexivity|]. split.
    { unfold VSCode.onSocketError, VSCode.updateStatusBarItem. simpl.
      destruct (negb (VSCode.autoReconnect (VSCode.sync w))); discriminate. }
    split; [reflexivity|]. split; [reflexivity|]. split; [reflexivity|].
    split; [reflexivity|]. split; [reflexivity|]. split.
    + intros Ho Hf. rewrite Ho, Hf. reflexivity.
    + intros Ho. rewrite Ho. reflexivity.
  - intros w state w'. subst w'. simpl.
    unfold JetBrains.onError, JetBrains.updateState, JetBrains.connectWebSocket.
    destruct w as [[ws act g con rec auto] e q cls nc cn sl closed snt]. simpl.
    split; [reflexivity|]. split; [reflexivity|].
    split; [reflexivity|]. split; [reflexivity|].
    destruct g; [reflexivity|].
    destruct ws as [[id [|]]|]; simpl.
    + destruct (Wire.member_is (JetBrains.action state) "close" || act); reflexivity.
    + destruct rec, auto; reflexivity.
    + destruct auto; reflexivity.
Qed.

Section Example_X24.
#[local] Existing Instance Scenario.posix.

Lemma X24_socket_error_keeps_the_socket_witness :
  let state := Scenario.select_x "vscode" true in
  let failed := VSCode.step VSCode.SocketError (Scenario.vs_connected true) in
  let closing :=
    VSCode.run [VSCode.SocketClosing 1; VSCode.SocketError] (Scenario.vs_connected true) in
  VSCode.isConnected (VSCode.sync failed) = false
  /\ VSCode.sent (VSCode.updateState state failed) = [state]
  /\ VSCode.isConnected (VSCode.sync closing) = false
  /\ VSCode.sent (VSCode.updateState state closing) = [].
Proof.
  intros state failed closing.
  destruct (proj1 X24_socket_error_keeps_the_socket (Scenario.vs_connected true) state)
    as (Hcon & _ & _ & _ & _ & _ & _ & Hopen & _).
  destruct (proj1 X24_socket_error_keeps_the_socket
                  (VSCode.step (VSCode.SocketClosing 1) (Scenario.vs_connected true)) state)
    as (Hcon' & _ & _ & _ & _ & _ & _ & _ & Hclosed).
  assert (H1 : VSCode.client_open (Scenario.vs_connected true) = true)
    by (vm_compute; reflexivity).
  assert (H2 : Wire.member_is (Wire.action state) "close"
               || VSCode.isActive (VSCode.sync (Scenario.vs_connected true)) = true)
    by (vm_compute; reflexivity).
  assert (H3 : VSCode.client_open
                 (VSCode.step (VSCode.SocketClosing 1) (Scenario.vs_connected true))
               = false)
    by (vm_compute; reflexivity).
  exact (conj Hcon (conj (Hopen H1 H2) (conj Hcon' (Hclosed H3)))).
Defined.
End Example_X24.

Section JetBrainsSwitch.
Import JetBrains.

Lemma jb_connectWebSocket_switch w :
  autoReconnect (service (connectWebSocket w)) = autoReconnect (service w)
  /\ (autoReconnect (service w) = false ->
      webSocket (service (connectWebSocket w)) = webSocket (service w)).
Proof.
  unfold connectWebSocket.
  destruct (autoReconnect (service w)) eqn:H; simpl;
    (split; [first [exact H | reflexivity] | first [discriminate | reflexivity]]).
Qed.

Lemma jb_updateState_switch state w :
  autoReconnect (service (updateState state w)) = autoReconnect (service w)
  /\ (autoReconnect (service w) = false ->
      webSocket (service (updateState state w)) = webSocket (service w)).
Proof.
  unfold updateState.
  destruct (isHandlingExternalUpdate (service w)); [split; reflexivity|].
  destruct (webSocket (service w)) as [client|] eqn:Hws.
  - destruct (isOpen client).
    + destruct (_ || _); simpl; rewrite ?Hws; split; reflexivity.
    + destruct (negb (isReconnecting (service w))); [|rewrite Hws; split; reflexivity].
      rewrite <- Hws. apply jb_connectWebSocket_switch.
  - rewrite <- Hws. apply jb_connectWebSocket_switch.
Qed.

Lemma jb_run_task_service t w :
  t <> ConnectTask -> service (run_task t w) = service w.
Proof.
  destruct t; simpl; intro H; [| |congruence].
  - unfold run_close. repeat break_match; reflexivity.
  - unfold run_select. repeat break_match; reflexivity.
Qed.

(** While sync is off the plugin holds no socket. *)
Lemma jb_step_switch ev w :
  (autoReconnect (service w) = false -> webSocket (service w) = None) ->
  autoReconnect (service (step ev w)) = false ->
  webSocket (service (step ev w)) = None.
Proof.
  assert (Hupd : forall state w0,
             (autoReconnect (service w0) = false -> webSocket (service w0) = None) ->
             autoReconnect (service (updateState state w0)) = false ->
             webSocket (service (updateState state w0)) = None).
  { intros state w0 I H. destruct (jb_updateState_switch state w0) as [Ha Hw].
    rewrite Ha in H. rewrite (Hw H). exact (I H). }
  assert (Hsel : forall w0,
             (autoReconnect (service w0) = false -> webSocket (service w0) = None) ->
             autoReconnect (service (send_selected w0)) = false ->
             webSocket (service (send_selected w0)) = None).
  { intros w0 I. unfold send_selected, updateStateFromEditor.
    destruct (selectedFile (ide w0)); [apply Hupd, I | exact I]. }
  intros I. destruct ev; simpl.
  - unfold toggleAutoReconnect, connectWebSocket, close_client.
    destruct w as [[ws act g con rec auto] e q cls nc cn sl closed snt]. simpl in *.
    destruct auto, ws as [[cid [|]]|]; simpl; intro H; first [reflexivity | discriminate].
  - unfold restartConnection, connectWebSocket, close_client.
    destruct w as [[ws act g con rec auto] e q cls nc cn sl closed snt]. simpl in *.
    destruct auto, ws as [[cid [|]]|]; simpl; intro H; first [reflexivity | discriminate].
  - unfold onOpen. apply Hsel. simpl. unfold mark_socket.
    intro H. destruct (webSocket (service w)) as [client|] eqn:Hws; [|simpl; exact Hws].
    assert (Hoff : autoReconnect (service w) = false).
    { destruct (Nat.eqb (clientId client) id); exact H. }
    specialize (I Hoff). congruence.
  - unfold onClose, mark_socket.
    destruct w as [[ws act g con rec auto] e q cls nc cn sl closed snt]. simpl in *.
    intro H.
    destruct ws as [client|].
    + destruct (Nat.eqb (clientId client) id); simpl in *;
        destruct rec, auto; simpl in *; try discriminate; specialize (I eq_refl);
          discriminate.
    + destruct rec, auto; simpl in *; try discriminate; reflexivity.
  - exact I.
  - unfold onMessage, handleIncomingState. repeat break_match; simpl; exact I.
  - exact I.
  - unfold retryElapsed. break_match; exact I.
  - destruct (edt w) as [|t q] eqn:Hq; [exact I|].
    destruct t.
    + rewrite jb_run_task_service by discriminate. exact I.
    + rewrite jb_run_task_service by discriminate. exact I.
    + simpl. intro H. destruct (jb_connectWebSocket_switch (set_edt q w)) as [Ha Hw].
      rewrite Ha in H. rewrite (Hw H). exact (I H).
  - unfold fileOpened. repeat break_match; try exact I.
    unfold setupCaretListener, updateStateFromEditor. simpl. apply Hupd, I.
  - unfold fileClosed. break_match; [exact I | apply Hupd, I].
  - unfold selectionChanged. repeat break_match; try exact I.
    unfold setupCaretListener, updateStateFromEditor. simpl. apply Hupd, I.
  - destruct (nth_error (caretListeners w) listener); [|exact I].
    unfold caretPositionChanged, updateStateFromEditor.
    break_match; [apply Hupd, I | exact I].
  - unfold windowGainedFocus. destruct showing; [|exact I]. apply Hsel. exact I.
  - unfold windowLostFocus. apply Hsel. exact I.
  - exact I.
Qed.

Lemma jb_run_switch evs : forall w,
  (autoReconnect (service w) = false -> webSocket (service w) = None) ->
  autoReconnect (service (run evs w)) = false ->
  webSocket (service (run evs w)) = None.
Proof.
  induction evs as [|ev evs IH]; intros w I; simpl; [exact I|].
  apply IH. apply jb_step_switch. exact I.
Qed.

Lemma jb_step_no_socket ev w :
  webSocket (service w) = None -> sent (step ev w) = sent w.
Proof.
  intro Hws.
  assert (Hopen : client_open w = false) by (unfold client_open; rewrite Hws; reflexivity).
  assert (Hoff : (forall id, ev <> SocketOpen id) -> sent (step ev w) = sent w).
  { intro Hev. apply (jb_step_offline ev w Hopen Hev). }
  destruct ev; try (apply Hoff; discriminate).
  simpl. unfold onOpen.
  assert (Hm : mark_socket id true w = w) by (unfold mark_socket; rewrite Hws; reflexivity).
  rewrite Hm.
  set (w1 := with_service (set_isReconnecting false)
               (with_service (set_isConnected true) w)).
  assert (H1 : client_open w1 = false).
  { unfold client_open, w1. simpl. rewrite Hws. reflexivity. }
  rewrite (proj1 (jb_send_selected_offline w1 H1)). reflexivity.
Qed.
End JetBrainsSwitch.

(** X25: while sync is off the plugin holds no socket and sends nothing.
    In every state the service reaches from its initial state, if sync is
    off then [webSocket] is [null], and no listener, callback or queued
    block sends a frame. *)
Theorem X25_plugin_off_means_no_socket :
  forall (evs : list JetBrains.Event) (e : JetBrains.Ide),
    let w := JetBrains.run evs (JetBrains.init e) in
    JetBrains.autoReconnect (JetBrains.service w) = false ->
    JetBrains.webSocket (JetBrains.service w) = None
    /\ forall ev : JetBrains.Event, JetBrains.sent (JetBrains.step ev w) = JetBrains.sent w.
Proof.
  intros evs e w Hoff.
  assert (Hws : JetBrains.webSocket (JetBrains.service w) = None).
  { apply jb_run_switch; [reflexivity | exact Hoff]. }
  split; [exact Hws|]. intro ev. apply jb_step_no_socket. exact Hws.
Qed.

Lemma X25_plugin_off_means_no_socket_witness :
  JetBrains.webSocket
    (JetBrains.service
       (JetBrains.run [JetBrains.Toggle; JetBrains.SocketOpen 0; JetBrains.Toggle]
                      (JetBrains.init Scenario.jb_ide)))
  = None.
Proof.
  assert (Hoff : JetBrains.autoReconnect
                   (JetBrains.service
                      (JetBrains.run [JetBrains.Toggle; JetBrains.SocketOpen 0;
                                      JetBrains.Toggle]
                                     (JetBrains.init Scenario.jb_ide))) = false)
    by (vm_compute; reflexivity).
  exact (proj1 (X25_plugin_off_means_no_socket
                  [JetBrains.Toggle; JetBrains.SocketOpen 0; JetBrains.Toggle]
                  Scenario.jb_ide Hoff)).
Defined.

(** X26: an open notification from a dropped socket marks the plugin
    connected.  [onOpen] sets [isConnected] without checking that its
    socket is still the service's: when the service holds no socket (sync
    was switched off while the socket was connecting), the callback
    reports the plugin connected and not reconnecting, although there is
    no socket to send on, and with sync off it creates none. *)
Theorem X26_open_of_dropped_socket_marks_connected :
  forall (w : JetBrains.World) (id : nat),
    JetBrains.webSocket (JetBrains.service w) = None ->
    JetBrains.autoReconnect (JetBrains.service w) = false ->
    let w' := JetBrains.step (JetBrains.SocketOpen id) w in
    JetBrains.isConnected (JetBrains.service w') = true
    /\ JetBrains.isReconnecting (JetBrains.service w') = false
    /\ JetBrains.webSocket (JetBrains.service w') = None
    /\ JetBrains.client_open w' = false
    /\ JetBrains.sent w' = JetBrains.sent w.
Proof.
  intros w id Hws Hoff w'. subst w'. simpl.
  unfold JetBrains.onOpen, JetBrains.mark_socket, JetBrains.send_selected,
    JetBrains.updateStateFromEditor, JetBrains.updateState, JetBrains.connectWebSocket,
    JetBrains.client_open.
  destruct w as [[ws act g con rec auto] e q cls nc cn sl closed snt].
  simpl in *. subst ws auto. simpl.
  destruct (JetBrains.selectedFile e); simpl; [destruct g; simpl|]; repeat split.
Qed.

Lemma X26_open_of_dropped_socket_marks_connected_witness :
  let w := JetBrains.run [JetBrains.Toggle; JetBrains.Toggle]
                         (JetBrains.init Scenario.jb_ide) in
  JetBrains.isConnected (JetBrains.service (JetBrains.step (JetBrains.SocketOpen 0) w))
  = true.
Proof.
  intro w.
  assert (Hws : JetBrains.webSocket (JetBrains.service w) = None)
    by (vm_compute; reflexivity).
  assert (Hoff : JetBrains.autoReconnect (JetBrains.service w) = false)
    by (vm_compute; reflexivity).
  exact (proj1 (X26_open_of_dropped_socket_marks_connected w 0%nat Hws Hoff)).
Defined.


Section Example_X27.
#[local] Existing Instance Scenario.posix.

End Example_X27.
